(** * crocket: order execution and market-history aggregation

    A shallow embedding of the parts of the crocket repository that the
    specification talks about:

    - [Dec]            Python's [decimal.Decimal] under the default context
                       (28 significant digits, ROUND_HALF_EVEN), as far as
                       the repository uses it;
    - [Py]             Python numbers (int, float, Decimal) and exceptions;
    - [BittrexOrder]   bittrex/BittrexOrder.py;
    - [bittrex2]       the wrapper functions of bittrex/bittrex2.py;
    - [manager_helper] manager_helper.py;
    - [run_crocket]    the functions and the polling loop of run_crocket.py.

    Definitions come first, the statements about them follow. *)

From stdpp Require Import gmap strings.
From Stdlib Require Import ZArith List Bool Lia Sorted.
From Stdlib Require Import Floats.SpecFloat.
Import ListNotations.

Local Open Scope Z_scope.

(* ===================================================================== *)
(** ** Exceptions and results *)
(* ===================================================================== *)

(** The Python exceptions that the modelled code can raise.  The three
    [decimal] signals are trapped by the default context and so surface as
    exceptions; [Overflow] is [decimal.Overflow], [OverflowError] the
    built-in exception. *)
Inductive exn : Type :=
| ValueError
| TypeError
| IndexError
| NameError
| AttributeError
| RuntimeError
| OverflowError
| ConnectionError
| InvalidOperation
| DivisionByZero
| Overflow.

(** What a Python expression does: it returns a value or raises. *)
Inductive outcome (A : Type) : Type :=
| Ok (a : A)
| Raise (e : exn).
Arguments Ok {A} a.
Arguments Raise {A} e.

#[global] Instance outcome_ret : MRet outcome := fun A a => Ok a.
#[global] Instance outcome_bind : MBind outcome := fun A B k r =>
  match r with
  | Ok a => k a
  | Raise e => Raise e
  end.
#[global] Instance outcome_fmap : FMap outcome := fun A B f r =>
  match r with
  | Ok a => Ok (f a)
  | Raise e => Raise e
  end.

(* ===================================================================== *)
(** ** decimal.Decimal *)
(* ===================================================================== *)

Module Dec.

(** A finite Decimal is [coef * 10 ^ exp] with a signed coefficient.
    Python also carries a sign on zero; nothing in the repository tells
    [-0] from [0] (comparison, arithmetic and quantize agree on them), so
    the two are one value here.  The exponent limits of the context
    (Emin, Emax = -/+ 999999) are represented where the repository can
    meet them, in the power [ten_to_the]; the sums, products and
    quotients of the repository stay far inside them. *)
Inductive Decimal : Type :=
| DFin (coef exp : Z)
| DInf (neg : bool)
| DNaN.

(** [getcontext().prec] *)
Definition prec : Z := 28.

(** [Etiny() = Emin - prec + 1], the exponent of [x / Infinity]. *)
Definition Etiny : Z := -999999 - prec + 1.

(** [getcontext().Emax] *)
Definition Emax : Z := 999999.

Fixpoint ndigits_aux (fuel : nat) (n : Z) : Z :=
  match fuel with
  | O => 1
  | S fuel' => if n <? 10 then 1 else 1 + ndigits_aux fuel' (n / 10)
  end.

(** [len(self._int)]: the number of decimal digits of the coefficient. *)
Definition ndigits (c : Z) : Z :=
  ndigits_aux (S (Z.to_nat (Z.log2 (Z.abs c)))) (Z.abs c).

(** [n / d] rounded to the nearest integer, ties to the even one
    (ROUND_HALF_EVEN); [d] is positive. *)
Definition round_half_even (n d : Z) : Z :=
  let q := n / d in
  let r := n mod d in
  if 2 * r <? d then q
  else if d <? 2 * r then q + 1
  else if Z.even q then q else q + 1.

(** [Decimal._fix]: round a result to the precision of the context. *)
Definition fix_ (c e : Z) : Decimal :=
  if Z.abs c <? 10 ^ prec then DFin c e
  else
    let k := ndigits c - prec in
    let c' := round_half_even c (10 ^ k) in
    if Z.abs c' <? 10 ^ prec then DFin c' (e + k)
    else DFin (c' / 10) (e + k + 1).

(** [Decimal._rescale]: the coefficient of the value at exponent [e']. *)
Definition rescale (c e e' : Z) : Z :=
  if e' <=? e then c * 10 ^ (e - e')
  else round_half_even c (10 ^ (e' - e)).

Definition of_int (z : Z) : Decimal := DFin z 0.

Definition neg (x : Decimal) : Decimal :=
  match x with
  | DFin c e => DFin (- c) e
  | DInf s => DInf (negb s)
  | DNaN => DNaN
  end.

Definition is_zero (x : Decimal) : bool :=
  match x with
  | DFin c _ => c =? 0
  | _ => false
  end.

Definition is_neg (x : Decimal) : bool :=
  match x with
  | DFin c _ => c <? 0
  | DInf s => s
  | DNaN => false
  end.

(** [x + y]: the exact sum at the smaller exponent, then [_fix]. *)
Definition add (x y : Decimal) : outcome Decimal :=
  match x, y with
  | DNaN, _ | _, DNaN => Ok DNaN
  | DInf s, DInf t => if Bool.eqb s t then Ok (DInf s) else Raise InvalidOperation
  | DInf s, DFin _ _ | DFin _ _, DInf s => Ok (DInf s)
  | DFin c1 e1, DFin c2 e2 =>
      let e := Z.min e1 e2 in
      Ok (fix_ (c1 * 10 ^ (e1 - e) + c2 * 10 ^ (e2 - e)) e)
  end.

Definition sub (x y : Decimal) : outcome Decimal := add x (neg y).

Definition mul (x y : Decimal) : outcome Decimal :=
  match x, y with
  | DNaN, _ | _, DNaN => Ok DNaN
  | DInf s, o | o, DInf s =>
      if is_zero o then Raise InvalidOperation else Ok (DInf (xorb s (is_neg o)))
  | DFin c1 e1, DFin c2 e2 => Ok (fix_ (c1 * c2) (e1 + e2))
  end.

(** The loop of [__truediv__] that brings an exact quotient as close to
    the ideal exponent as its trailing zeros allow. *)
Fixpoint strip_zeros (fuel : nat) (coeff exp ideal : Z) : Z * Z :=
  match fuel with
  | O => (coeff, exp)
  | S fuel' =>
      if (exp <? ideal) && (coeff mod 10 =? 0)
      then strip_zeros fuel' (coeff / 10) (exp + 1) ideal
      else (coeff, exp)
  end.

(** [x / y], following [Decimal.__truediv__]. *)
Definition div (x y : Decimal) : outcome Decimal :=
  match x, y with
  | DNaN, _ | _, DNaN => Ok DNaN
  | DInf _, DInf _ => Raise InvalidOperation
  | DInf s, DFin c _ => Ok (DInf (xorb s (c <? 0)))
  | DFin _ _, DInf _ => Ok (DFin 0 Etiny)
  | DFin c1 e1, DFin c2 e2 =>
      if c2 =? 0 then
        if c1 =? 0 then Raise InvalidOperation else Raise DivisionByZero
      else if c1 =? 0 then Ok (fix_ 0 (e1 - e2))
      else
        let shift := ndigits c2 - ndigits c1 + prec + 1 in
        let exp := e1 - e2 - shift in
        let '(coeff, remainder) :=
          if 0 <=? shift
          then Z.div_eucl (Z.abs c1 * 10 ^ shift) (Z.abs c2)
          else Z.div_eucl (Z.abs c1) (Z.abs c2 * 10 ^ (- shift)) in
        let '(coeff', exp') :=
          if remainder =? 0
          then strip_zeros (Z.to_nat (e1 - e2 - exp)) coeff exp (e1 - e2)
          else (if coeff mod 5 =? 0 then coeff + 1 else coeff, exp) in
        Ok (fix_ (Z.sgn c1 * Z.sgn c2 * coeff') exp')
  end.

(** [Decimal(10) ** n] for an int [n].  A power that has up to [prec]
    digits is written out at exponent 0; a larger one keeps a
    coefficient of [prec] digits and raises the exponent; beyond [Emax]
    the context traps Overflow.  A negative power is [1E n] down to
    [Etiny]; below that it underflows to zero at exponent [Etiny], which
    the context does not trap. *)
Definition ten_to_the (n : Z) : outcome Decimal :=
  if Emax <? n then Raise Overflow
  else if prec <=? n then Ok (DFin (10 ^ (prec - 1)) (n - (prec - 1)))
  else if 0 <=? n then Ok (DFin (10 ^ n) 0)
  else if Etiny <=? n then Ok (DFin 1 n)
  else Ok (DFin 0 Etiny).

(** [x._exp] of a finite Decimal, which is what [quantize] reads of the
    Decimal it is handed. *)
Definition exponent (x : Decimal) : Z :=
  match x with
  | DFin _ e => e
  | _ => 0
  end.

(** [x.quantize(y)] for a finite [y] of exponent [e']. *)
Definition quantize (x : Decimal) (e' : Z) : outcome Decimal :=
  match x with
  | DNaN => Ok DNaN
  | DInf _ => Raise InvalidOperation
  | DFin c e =>
      if c =? 0 then Ok (DFin 0 e')
      else if prec <? ndigits c + e - e' then Raise InvalidOperation
      else
        let c' := rescale c e e' in
        if prec <? ndigits c' then Raise InvalidOperation
        else Ok (DFin c' e')
  end.

(** Three-way comparison by value; [None] when a NaN is involved. *)
Definition compare (x y : Decimal) : option comparison :=
  match x, y with
  | DNaN, _ | _, DNaN => None
  | DInf s, DInf t =>
      Some (if Bool.eqb s t then Eq else if s then Lt else Gt)
  | DInf s, DFin _ _ => Some (if s then Lt else Gt)
  | DFin _ _, DInf s => Some (if s then Gt else Lt)
  | DFin c1 e1, DFin c2 e2 =>
      let e := Z.min e1 e2 in
      Some (c1 * 10 ^ (e1 - e) ?= c2 * 10 ^ (e2 - e))
  end.

(** [x < y] and [x > y] signal InvalidOperation on a NaN; [x == y] is
    [False] there. *)
Definition ltb (x y : Decimal) : outcome bool :=
  match compare x y with
  | Some Lt => Ok true
  | Some _ => Ok false
  | None => Raise InvalidOperation
  end.

Definition gtb (x y : Decimal) : outcome bool := ltb y x.

Definition eqb (x y : Decimal) : bool :=
  match compare x y with
  | Some Eq => true
  | _ => false
  end.

(** The order by value, for statements. *)
Definition le (x y : Decimal) : Prop :=
  match compare x y with
  | Some Lt | Some Eq => True
  | _ => False
  end.

Definition lt (x y : Decimal) : Prop := compare x y = Some Lt.

(** [x] is finite and written with at most [n] fractional digits. *)
Definition fractional_digits_le (n : Z) (x : Decimal) : Prop :=
  match x with
  | DFin _ e => - n <= e
  | _ => False
  end.

End Dec.


(* ===================================================================== *)
(** ** Python numbers *)
(* ===================================================================== *)

Module Py.
Import Dec.

(** A number as Python holds it: an [int], a [float] (IEEE binary64, given
    by the standard library's specification of floating point) or a
    [Decimal].  JSON numbers are the first two. *)
Inductive pynum : Type :=
| PyInt (z : Z)
| PyFloat (f : spec_float)
| PyDec (d : Decimal).

Definition fadd : spec_float -> spec_float -> spec_float := SFadd 53 1024.
Definition fmul : spec_float -> spec_float -> spec_float := SFmul 53 1024.

(** [float(z)]: the nearest binary64, OverflowError beyond its range. *)
Definition float_of_int (z : Z) : outcome spec_float :=
  match binary_normalize 53 1024 z 0 false with
  | S754_infinity _ => Raise OverflowError
  | f => Ok f
  end.

(** [m / 2 ^ k] in lowest terms, as [float.as_integer_ratio] gives it. *)
Fixpoint lowest_terms (m : positive) (k : nat) : positive * nat :=
  match k, m with
  | S k', xO m' => lowest_terms m' k'
  | _, _ => (m, k)
  end.

(** [Decimal(f)] for a float [f]: the exact value, [n * 5 ^ k] at
    exponent [-k] when [f = n / 2 ^ k] in lowest terms. *)
Definition decimal_of_float (f : spec_float) : Decimal :=
  match f with
  | S754_zero _ => DFin 0 0
  | S754_infinity s => DInf s
  | S754_nan => DNaN
  | S754_finite s m e =>
      let sign := if s then -1 else 1 in
      if 0 <=? e then DFin (sign * (Z.pos m * 2 ^ e)) 0
      else
        let '(n, k) := lowest_terms m (Z.to_nat (- e)) in
        DFin (sign * (Z.pos n * 5 ^ Z.of_nat k)) (- Z.of_nat k)
  end.

(** [Decimal(x)] *)
Definition to_decimal (x : pynum) : Decimal :=
  match x with
  | PyInt z => of_int z
  | PyFloat f => decimal_of_float f
  | PyDec d => d
  end.

Definition is_decimal (x : pynum) : bool :=
  match x with
  | PyDec _ => true
  | _ => false
  end.

(** [a + b].  int and float mix through [float(int)]; Decimal takes an
    int but refuses a float. *)
Definition py_add (a b : pynum) : outcome pynum :=
  match a, b with
  | PyInt x, PyInt y => Ok (PyInt (x + y))
  | PyFloat x, PyFloat y => Ok (PyFloat (fadd x y))
  | PyInt x, PyFloat y => fx ← float_of_int x; Ok (PyFloat (fadd fx y))
  | PyFloat x, PyInt y => fy ← float_of_int y; Ok (PyFloat (fadd x fy))
  | PyDec x, PyDec y => PyDec <$> add x y
  | PyDec x, PyInt y => PyDec <$> add x (of_int y)
  | PyInt x, PyDec y => PyDec <$> add y (of_int x)
  | PyDec _, PyFloat _ | PyFloat _, PyDec _ => Raise TypeError
  end.

(** [a * b] *)
Definition py_mul (a b : pynum) : outcome pynum :=
  match a, b with
  | PyInt x, PyInt y => Ok (PyInt (x * y))
  | PyFloat x, PyFloat y => Ok (PyFloat (fmul x y))
  | PyInt x, PyFloat y => fx ← float_of_int x; Ok (PyFloat (fmul fx y))
  | PyFloat x, PyInt y => fy ← float_of_int y; Ok (PyFloat (fmul x fy))
  | PyDec x, PyDec y => PyDec <$> mul x y
  | PyDec x, PyInt y => PyDec <$> mul x (of_int y)
  | PyInt x, PyDec y => PyDec <$> mul y (of_int x)
  | PyDec _, PyFloat _ | PyFloat _, PyDec _ => Raise TypeError
  end.

(** [sum(l)]: left to right from the int [0]. *)
Definition py_sum (l : list pynum) : outcome pynum :=
  fold_left (fun acc x => a ← acc; py_add a x) l (Ok (PyInt 0)).

(** [a < b].  Numbers of different types compare by exact value.  With a
    NaN the answer is [False] between ints and floats, and
    InvalidOperation as soon as a Decimal takes part. *)
Definition py_lt (a b : pynum) : outcome bool :=
  if is_decimal a || is_decimal b then ltb (to_decimal a) (to_decimal b)
  else
    match compare (to_decimal a) (to_decimal b) with
    | Some Lt => Ok true
    | _ => Ok false
    end.

(** [a > b] *)
Definition py_gt (a b : pynum) : outcome bool := py_lt b a.

(** [a == b] *)
Definition py_eq (a b : pynum) : bool := eqb (to_decimal a) (to_decimal b).

(** The values an attribute or a row holds. *)
Inductive pyval : Type :=
| VNone
| VStr (s : string)
| VInt (z : Z)
| VNum (n : pynum)
| VTime (t : Z).

(** A dict with string keys, in insertion order; [dict_get d key] is
    the entry under [key], if there is one. *)
Fixpoint dict_get (d : list (string * pyval)) (key : string) : option pyval :=
  match d with
  | [] => None
  | (k, v) :: d' => if String.eqb k key then Some v else dict_get d' key
  end.

End Py.

(* ===================================================================== *)
(** ** Time *)
(* ===================================================================== *)

Module Time.

(** A [datetime] is its distance from a fixed epoch in microseconds. *)
Definition datetime : Type := Z.

(** What a function that expects a Bittrex timestamp can be handed: a
    [str], given by the instant it denotes in one of the two accepted
    formats ([None] when it parses in neither); a [datetime] object; or
    [None]. *)
Inductive timearg : Type :=
| TimeStr (parsed : option datetime)
| TimeObj (d : datetime)
| TimeNone.

(** [convert_bittrex_timestamp_to_datetime].  [datetime.strptime] takes
    a [str] only: any other argument is a TypeError, which the
    [except ValueError] around the first attempt lets through.  A string
    that fails both formats leaves the ValueError of the second attempt. *)
Definition convert_bittrex_timestamp_to_datetime (timestamp : timearg)
  : outcome datetime :=
  match timestamp with
  | TimeStr (Some d) => Ok d
  | TimeStr None => Raise ValueError
  | TimeObj _ => Raise TypeError
  | TimeNone => Raise TypeError
  end.

(** [utc_to_local]: the same instant in the local zone. *)
Definition utc_to_local (utc_dt : datetime) : datetime := utc_dt.

(** [timedelta(seconds=n)] *)
Definition seconds (n : Z) : Z := n * 1000000.

(** [format_time(d, "%Y-%m-%d %H:%M:%S")]: the rendering keeps whole
    seconds; it is held as that number of seconds. *)
Definition format_time (d : datetime) : Z := d / 1000000.

End Time.

(* ===================================================================== *)
(** ** Statements that change a state and may raise *)
(* ===================================================================== *)

(** A statement run from a state [s] ends in a state and either returns
    or raises; the state reached at a [raise] is kept, since Python does
    not undo assignments. *)
Definition ST (S A : Type) : Type := S -> outcome A * S.

#[global] Instance ST_ret {S} : MRet (ST S) := fun A a s => (Ok a, s).
#[global] Instance ST_bind {S} : MBind (ST S) := fun A B k m s =>
  match m s with
  | (Ok a, s') => k a s'
  | (Raise e, s') => (Raise e, s')
  end.

Definition raise {S A} (e : exn) : ST S A := fun s => (Raise e, s).
Definition eval {S A} (r : outcome A) : ST S A := fun s => (r, s).
Definition get {S} : ST S S := fun s => (Ok s, s).
Definition modify {S} (f : S -> S) : ST S unit := fun s => (Ok tt, f s).

(** [try: body except E: handler], where [catches] tells the exceptions
    that [E] names. *)
Definition try_except {S A} (body : ST S A) (catches : exn -> bool)
    (handler : ST S A) : ST S A := fun s =>
  match body s with
  | (Raise e, s') => if catches e then handler s' else (Raise e, s')
  | r => r
  end.

(** Run a statement of a component [T] of the state [S]. *)
Definition zoom {S T A} (proj : S -> T) (put : T -> S -> S) (m : ST T A)
  : ST S A := fun s =>
  let '(r, t) := m (proj s) in (r, put t s).

(* ===================================================================== *)
(** ** bittrex/BittrexOrder.py *)
(* ===================================================================== *)

Module BittrexOrder.
Import Dec Py Time.

(** Modelled from the spec: [BittrexConstants.DIGITS] of
    utilities/constants.py, which is not among the sources; the spec
    gives the quantization scale as 8 fractional digits, so the constant
    is [Decimal(10) ** -8], held by its exponent. *)
Definition DIGITS : Z := -8.

(** The order record of the exchange, with the keys that the docstring
    of [add_completed_order] lists and the code reads. *)
Record OrderData : Type := {
  Closed : timearg;
  CommissionPaid : pynum;
  OrderUuid : string;
  Price : pynum;
  PricePerUnit : option pynum;
  Quantity : pynum;
  QuantityRemaining : pynum;
  Type_ : string
}.

(** The attributes that [__init__] assigns.  [status] holds the [.name]
    of an [OrderStatus] member, [type] the [.name] of an [OrderType]
    member. *)
Record t : Type := {
  market : string;
  type : string;
  target_price : pynum;
  target_quantity : pynum;
  base_quantity : pynum;
  current_quantity : pynum;
  status : string;
  uuid : option string;
  open_time : option datetime;
  closed_time : option datetime;
  actual_price : pynum;
  cost : pynum
}.

(** [BittrexOrder(market=..., order_type=..., target_quantity=...,
    base_quantity=...)], the other arguments at their defaults. *)
Definition create (market order_type : string)
    (target_quantity base_quantity : pynum) : t :=
  {| market := market; type := order_type;
     target_price := PyInt 0; target_quantity := target_quantity;
     base_quantity := base_quantity; current_quantity := PyInt 0;
     status := "UNEXECUTED"; uuid := None;
     open_time := None; closed_time := None;
     actual_price := PyInt 0; cost := PyInt 0 |}.

Definition opt_time (o : option datetime) : pyval :=
  match o with
  | Some d => VTime d
  | None => VNone
  end.

Definition opt_str (o : option string) : pyval :=
  match o with
  | Some s => VStr s
  | None => VNone
  end.

(** The instance dictionary: the attributes an order has are those that
    [__init__] assigns; no method of the class adds another. *)
Definition __dict__ (self : t) : list (string * pyval) :=
  [ ("market", VStr (market self));
    ("type", VStr (type self));
    ("target_price", VNum (target_price self));
    ("target_quantity", VNum (target_quantity self));
    ("base_quantity", VNum (base_quantity self));
    ("current_quantity", VNum (current_quantity self));
    ("status", VStr (status self));
    ("uuid", opt_str (uuid self));
    ("open_time", opt_time (open_time self));
    ("closed_time", opt_time (closed_time self));
    ("actual_price", VNum (actual_price self));
    ("cost", VNum (cost self)) ]%string.

(** [self.<name>] for an attribute given by name. *)
Definition getattr (self : t) (name : string) : outcome pyval :=
  match dict_get (__dict__ self) name with
  | Some v => Ok v
  | None => Raise AttributeError
  end.

Definition set_status (v : string) (self : t) : t :=
  {| market := market self; type := type self;
     target_price := target_price self;
     target_quantity := target_quantity self;
     base_quantity := base_quantity self;
     current_quantity := current_quantity self;
     status := v; uuid := uuid self;
     open_time := open_time self; closed_time := closed_time self;
     actual_price := actual_price self; cost := cost self |}.

Definition set_uuid (v : option string) (self : t) : t :=
  {| market := market self; type := type self;
     target_price := target_price self;
     target_quantity := target_quantity self;
     base_quantity := base_quantity self;
     current_quantity := current_quantity self;
     status := status self; uuid := v;
     open_time := open_time self; closed_time := closed_time self;
     actual_price := actual_price self; cost := cost self |}.

Definition set_target_price (v : pynum) (self : t) : t :=
  {| market := market self; type := type self;
     target_price := v;
     target_quantity := target_quantity self;
     base_quantity := base_quantity self;
     current_quantity := current_quantity self;
     status := status self; uuid := uuid self;
     open_time := open_time self; closed_time := closed_time self;
     actual_price := actual_price self; cost := cost self |}.

Definition set_current_quantity (v : pynum) (self : t) : t :=
  {| market := market self; type := type self;
     target_price := target_price self;
     target_quantity := target_quantity self;
     base_quantity := base_quantity self;
     current_quantity := v;
     status := status self; uuid := uuid self;
     open_time := open_time self; closed_time := closed_time self;
     actual_price := actual_price self; cost := cost self |}.

Definition set_closed_time (v : option datetime) (self : t) : t :=
  {| market := market self; type := type self;
     target_price := target_price self;
     target_quantity := target_quantity self;
     base_quantity := base_quantity self;
     current_quantity := current_quantity self;
     status := status self; uuid := uuid self;
     open_time := open_time self; closed_time := v;
     actual_price := actual_price self; cost := cost self |}.

Definition set_actual_price (v : pynum) (self : t) : t :=
  {| market := market self; type := type self;
     target_price := target_price self;
     target_quantity := target_quantity self;
     base_quantity := base_quantity self;
     current_quantity := current_quantity self;
     status := status self; uuid := uuid self;
     open_time := open_time self; closed_time := closed_time self;
     actual_price := v; cost := cost self |}.

Definition set_cost (v : pynum) (self : t) : t :=
  {| market := market self; type := type self;
     target_price := target_price self;
     target_quantity := target_quantity self;
     base_quantity := base_quantity self;
     current_quantity := current_quantity self;
     status := status self; uuid := uuid self;
     open_time := open_time self; closed_time := closed_time self;
     actual_price := actual_price self; cost := v |}.

(** [Decimal(x)] for a value that may be [None]. *)
Definition Decimal_of (x : option pynum) : outcome Decimal :=
  match x with
  | Some n => Ok (to_decimal n)
  | None => Raise TypeError
  end.

Definition is_TypeError (e : exn) : bool :=
  match e with
  | TypeError => true
  | _ => false
  end.

(** [add_completed_order(self, order)].  The fields are assigned one
    after the other, so an exception part of the way leaves the earlier
    assignments in place; handed [None] (a response without result),
    the first [order.get] fails.  [now] is the reading of the clock that
    [datetime.now()] would give. *)
Definition add_completed_order (order_data : option OrderData)
    (now : datetime) : ST t unit :=
  modify (set_status "COMPLETED");;
  order ← match order_data with
          | Some d => mret d
          | None => raise AttributeError
          end;
  ppu ← eval (Decimal_of (PricePerUnit order));
  actual ← eval (quantize ppu DIGITS);
  modify (set_actual_price (PyDec actual));;
  try_except
    (closed ← eval (convert_bittrex_timestamp_to_datetime (Closed order));
     modify (set_closed_time (Some (utc_to_local closed))))
    is_TypeError
    (modify (set_closed_time (Some now)));;
  let order_type := Type_ order in
  if String.eqb order_type "LIMIT_BUY" then
    total ← eval (add (to_decimal (Price order))
                      (to_decimal (CommissionPaid order)));
    c ← eval (quantize total DIGITS);
    modify (set_cost (PyDec c));;
    filled ← eval (sub (to_decimal (Quantity order))
                       (to_decimal (QuantityRemaining order)));
    q ← eval (quantize filled DIGITS);
    modify (set_current_quantity (PyDec q))
  else if String.eqb order_type "LIMIT_SELL" then
    net ← eval (sub (to_decimal (Price order))
                    (to_decimal (CommissionPaid order)));
    c ← eval (quantize net DIGITS);
    modify (set_cost (PyDec c))
  else mret tt.

(** [update_uuid], [update_status], [update_target_price] *)
Definition update_uuid (uuid : option string) : ST t unit :=
  modify (set_uuid uuid).
Definition update_status (status : string) : ST t unit :=
  modify (set_status status).
Definition update_target_price (price : pynum) : ST t unit :=
  modify (set_target_price price).

End BittrexOrder.

(* ===================================================================== *)
(** ** bittrex/bittrex2.py *)
(* ===================================================================== *)

Module bittrex2.
Import Dec Py Time.

(** The envelope [{'success': ..., 'message': ..., 'result': ...}] that
    every API method returns.  [_api_query] turns any failure of the
    request into [{'success': False, 'message': 'NO_API_RESPONSE',
    'result': None}], so the methods themselves do not raise. *)
Record Response (T : Type) : Type := {
  success : bool;
  message : string;
  result : option T
}.
Arguments success {T} _.
Arguments message {T} _.
Arguments result {T} _.

(** The result of [get_ticker].  A price is held as the Decimal that
    [Decimal(str(x))] makes of the JSON number [x]; [None] is a key that
    is missing or null. *)
Record Ticker : Type := {
  Bid : option Decimal;
  Ask : option Decimal;
  Last : option Decimal
}.

(** The result of [buy_limit] and [sell_limit]: [{'uuid': ...}]. *)
Record Submitted : Type := {
  submitted_uuid : option string
}.

(** One trade of the market history, as the docstring of
    [get_market_history] shows it. *)
Record Entry : Type := {
  Id : Z;
  TimeStamp : timearg;
  Quantity : pynum;
  Price : pynum;
  Total : pynum;
  FillType : string;
  OrderType : string
}.

(** The exchange behind the API: what it answers to each request, which
    may depend on how much has happened before (the length of the
    trace). *)
Record Bittrex : Type := {
  get_ticker_answer : nat -> string -> Response Ticker;
  buy_limit_answer : nat -> string -> pynum -> pynum -> Response Submitted;
  sell_limit_answer : nat -> string -> pynum -> pynum -> Response Submitted;
  get_order_answer : nat -> option string -> Response BittrexOrder.OrderData;
  cancel_answer : nat -> option string -> Response unit;
  get_market_history_answer : nat -> string -> Response (list Entry)
}.

(** What the process does that the outside sees: requests with their
    answers, and sleeps. *)
Inductive event : Type :=
| Ev_get_ticker (market : string) (r : Response Ticker)
| Ev_buy_limit (market : string) (quantity rate : pynum) (r : Response Submitted)
| Ev_sell_limit (market : string) (quantity rate : pynum) (r : Response Submitted)
| Ev_get_order (uuid : option string) (r : Response BittrexOrder.OrderData)
| Ev_cancel (uuid : option string) (r : Response unit)
| Ev_get_market_history (market : string) (r : Response (list Entry))
| Ev_sleep (secs : Z).

Definition trace : Type := list event.

Definition is_buy_limit (ev : event) : bool :=
  match ev with
  | Ev_buy_limit _ _ _ _ => true
  | _ => false
  end.

Definition is_sell_limit (ev : event) : bool :=
  match ev with
  | Ev_sell_limit _ _ _ _ => true
  | _ => false
  end.

Definition is_get_order (ev : event) : bool :=
  match ev with
  | Ev_get_order _ _ => true
  | _ => false
  end.

Definition is_cancel (ev : event) : bool :=
  match ev with
  | Ev_cancel _ _ => true
  | _ => false
  end.

(** How many events of a kind a trace holds. *)
Definition count (kind : event -> bool) (tr : trace) : nat :=
  length (filter kind tr).

(** The events that a run from the trace [before] has added. *)
Definition added (before after : trace) : trace :=
  skipn (length before) after.

Definition emit (ev : event) : ST trace unit := modify (fun tr => tr ++ [ev]).

Definition sleep (secs : Z) : ST trace unit := emit (Ev_sleep secs).

Section Methods.
Variable self : Bittrex.

Definition get_ticker (market : string) : ST trace (Response Ticker) :=
  tr ← get;
  let r := get_ticker_answer self (length tr) market in
  emit (Ev_get_ticker market r);; mret r.

Definition buy_limit (market : string) (quantity rate : pynum)
  : ST trace (Response Submitted) :=
  tr ← get;
  let r := buy_limit_answer self (length tr) market quantity rate in
  emit (Ev_buy_limit market quantity rate r);; mret r.

Definition sell_limit (market : string) (quantity rate : pynum)
  : ST trace (Response Submitted) :=
  tr ← get;
  let r := sell_limit_answer self (length tr) market quantity rate in
  emit (Ev_sell_limit market quantity rate r);; mret r.

Definition get_order (uuid : option string)
  : ST trace (Response BittrexOrder.OrderData) :=
  tr ← get;
  let r := get_order_answer self (length tr) uuid in
  emit (Ev_get_order uuid r);; mret r.

Definition cancel (uuid : option string) : ST trace (Response unit) :=
  tr ← get;
  let r := cancel_answer self (length tr) uuid in
  emit (Ev_cancel uuid r);; mret r.

Definition get_market_history (market : string)
  : ST trace (Response (list Entry)) :=
  tr ← get;
  let r := get_market_history_answer self (length tr) market in
  emit (Ev_get_market_history market r);; mret r.

(** [get_ticker_or_else].  [not ticker_result] holds for [None] and for
    the empty dict; [result = None] stands for both. *)
Definition get_ticker_or_else (market : string) : ST trace Ticker :=
  ticker ← get_ticker market;
  match success ticker, result ticker with
  | true, Some ticker_result => mret ticker_result
  | _, _ => raise ValueError
  end.

(** [x.get('result').get(key)]: [None] has no [get]. *)
Definition result_of {S T} (r : Response T) : ST S T :=
  match result r with
  | Some x => mret x
  | None => raise AttributeError
  end.

(** The dict [{'success': ..., 'result': ...}] that the two wrappers
    build and return.  [wr_result] is [None] for the initial [{}] and
    otherwise what [order_response.get('result')] was. *)
Record WrapperResponse : Type := {
  wr_success : bool;
  wr_result : option (option BittrexOrder.OrderData)
}.

Definition initial_response : WrapperResponse :=
  {| wr_success := false; wr_result := None |}.

(** The wrappers are modelled for [logger=None], their default: every
    [if logger:] block is skipped. *)

(** The loop [for jj in range(retry)] of [sell_or_else], with [n]
    iterations left. *)
Fixpoint sell_poll_loop (sell_uuid : option string) (retry n : nat)
    (response : WrapperResponse) : ST trace WrapperResponse :=
  match n with
  | O => mret response
  | S n' =>
      let jj := (retry - n)%nat in
      order_response ← get_order sell_uuid;
      if success order_response then
        mret {| wr_success := true;
                wr_result := Some (result order_response) |}
      else if Nat.eqb jj (retry - 1) then raise RuntimeError
      else sleep 1;; sell_poll_loop sell_uuid retry n' response
  end.

(** The loop [for ii in range(retry)] of [sell_or_else]. *)
Fixpoint sell_submit_loop (market : string) (quantity rate : pynum)
    (retry n : nat) (response : WrapperResponse)
  : ST trace WrapperResponse :=
  match n with
  | O => mret response
  | S n' =>
      let ii := (retry - n)%nat in
      sell_response ← sell_limit market quantity rate;
      if success sell_response then
        submitted ← result_of sell_response;
        let sell_uuid := submitted_uuid submitted in
        sleep 3;;
        sell_poll_loop sell_uuid retry retry response
      else if Nat.eqb ii (retry - 1) then raise RuntimeError
      else sleep 1;; sell_submit_loop market quantity rate retry n' response
  end.

Definition sell_or_else (market : string) (quantity rate : pynum)
    (retry : nat) : ST trace WrapperResponse :=
  sell_submit_loop market quantity rate retry retry initial_response.

(** The loop [for kk in range(retry)] of [buy_or_else]. *)
Fixpoint buy_cancel_loop (buy_uuid : option string) (retry n : nat)
    (response : WrapperResponse) : ST trace WrapperResponse :=
  match n with
  | O => mret response
  | S n' =>
      let kk := (retry - n)%nat in
      cancel_response ← cancel buy_uuid;
      if success cancel_response then
        mret {| wr_success := true; wr_result := wr_result response |}
      else if Nat.eqb kk (retry - 1) then raise RuntimeError
      else sleep 1;; buy_cancel_loop buy_uuid retry n' response
  end.

(** The loop [for jj in range(retry)] of [buy_or_else]. *)
Fixpoint buy_poll_loop (buy_uuid : option string) (retry n : nat)
    (response : WrapperResponse) : ST trace WrapperResponse :=
  match n with
  | O => mret response
  | S n' =>
      let jj := (retry - n)%nat in
      order_response ← get_order buy_uuid;
      if success order_response then
        let response := {| wr_success := true;
                           wr_result := Some (result order_response) |} in
        data ← result_of order_response;
        let quantity := BittrexOrder.Quantity data in
        let remaining := BittrexOrder.QuantityRemaining data in
        unfilled ← eval (py_gt remaining (PyInt 0));
        if (unfilled : bool) then
          let response := {| wr_success := false;
                             wr_result := wr_result response |} in
          buy_cancel_loop buy_uuid retry retry response
        else mret response
      else if Nat.eqb jj (retry - 1) then raise RuntimeError
      else sleep 1;; buy_poll_loop buy_uuid retry n' response
  end.

(** The loop [for ii in range(retry)] of [buy_or_else].  The last failed
    attempt is only logged: the loop sleeps once more and ends. *)
Fixpoint buy_submit_loop (market : string) (quantity rate : pynum)
    (retry n : nat) (response : WrapperResponse)
  : ST trace WrapperResponse :=
  match n with
  | O => mret response
  | S n' =>
      buy_response ← buy_limit market quantity rate;
      if success buy_response then
        submitted ← result_of buy_response;
        let buy_uuid := submitted_uuid submitted in
        sleep 3;;
        buy_poll_loop buy_uuid retry retry response
      else sleep 1;; buy_submit_loop market quantity rate retry n' response
  end.

Definition buy_or_else (market : string) (quantity rate : pynum)
    (retry : nat) : ST trace WrapperResponse :=
  buy_submit_loop market quantity rate retry retry initial_response.

End Methods.

(** One market of [get_markets], with the keys its docstring shows and
    the code reads. *)
Record Market : Type := {
  MarketName : string;
  MarketCurrency : string;
  BaseCurrency : string;
  IsActive : bool
}.

(** [filter_bittrex_markets(markets, base_coin)] of this file, which is
    handed the list of markets. *)
Definition filter_bittrex_markets (markets : list Market) (base_coin : string)
  : list string :=
  map MarketName
    (filter (fun x => String.eqb (BaseCurrency x) base_coin && IsActive x)
       markets).

(** The default [fields] of [format_bittrex_entry]. *)
Definition default_fields : list string :=
  [ "time"; "price"; "wprice"; "base_volume"; "buy_volume"; "sell_volume";
    "buy_order"; "sell_order" ]%string.

(** [format_bittrex_entry(data, fields)] of this file: the fields and
    the tuple of what [data.get] finds under each. *)
Definition format_bittrex_entry (data : list (string * pyval))
    (fields : list string) : list string * list pyval :=
  (fields, map (fun x => default VNone (dict_get data x)) fields).

End bittrex2.

(* ===================================================================== *)
(** ** manager_helper.py *)
(* ===================================================================== *)

Module manager_helper.
Import Dec Py Time bittrex2.

(** Modelled from the spec: the Wallet Ledger, whose class is not among
    the sources.  The spec describes it as a per-asset balance keyed by
    market symbol and updated additively, with [getBalance] returning a
    decimal and [applyDelta(assetOrMarket, quantityDelta, costDelta)];
    after a buy the asset balance has grown by the quantity and the
    quote balance (BTC) has shrunk by the cost.  An asset that was never
    credited has balance 0. *)
Definition get_quantity (wallet : gmap string pynum) (key : string) : pynum :=
  default (PyInt 0) (wallet !! key).

(** Modelled from the spec: [wallet.update_wallet(market, quantity,
    total)], see [get_quantity]. *)
Definition update_wallet (wallet : gmap string pynum) (market : string)
    (quantity total : pynum) : outcome (gmap string pynum) :=
  asset ← py_add (get_quantity wallet market) quantity;
  let wallet := <[market := asset]> wallet in
  spent ← py_mul (PyInt (-1)) total;
  quote ← py_add (get_quantity wallet "BTC") spent;
  Ok (<["BTC" := quote]> wallet).

(** What the functions of this file work on: the order and the wallet
    they are handed (both mutable objects shared with the caller) and the
    traffic with the exchange. *)
Record State : Type := {
  order : BittrexOrder.t;
  wallet : gmap string pynum;
  gateway : trace
}.

Definition on_order {A} (m : ST BittrexOrder.t A) : ST State A :=
  zoom order
    (fun o s => {| order := o; wallet := wallet s; gateway := gateway s |}) m.

Definition on_gateway {A} (m : ST trace A) : ST State A :=
  zoom gateway
    (fun g s => {| order := order s; wallet := wallet s; gateway := g |}) m.

Definition set_wallet (w : gmap string pynum) : ST State unit :=
  modify (fun s => {| order := order s; wallet := w; gateway := gateway s |}).

(** [except (ConnectionError, ValueError)] *)
Definition is_ConnectionError_or_ValueError (e : exn) : bool :=
  match e with
  | ConnectionError | ValueError => true
  | _ => false
  end.

(** A number out of an attribute value. *)
Definition as_number (v : pyval) : outcome pynum :=
  match v with
  | VNum n => Ok n
  | VInt z => Ok (PyInt z)
  | _ => Raise TypeError
  end.

(** [get_order_and_update_wallet(order, wallet, bittrex)].  Python
    evaluates the arguments of [update_wallet] from left to right before
    the call. *)
Definition get_order_and_update_wallet (bittrex : Bittrex) (now : datetime)
  : ST State unit :=
  s ← get;
  order_response ← on_gateway
    (get_order bittrex (BittrexOrder.uuid (order s)));
  on_order (BittrexOrder.add_completed_order (result order_response) now);;
  s ← get;
  if String.eqb (BittrexOrder.type (order s)) "BUY" then
    let market := BittrexOrder.market (order s) in
    let quantity := BittrexOrder.current_quantity (order s) in
    total ← eval (v ← BittrexOrder.getattr (order s) "total"; as_number v);
    w ← eval (update_wallet (wallet s) market quantity total);
    set_wallet w
  else
    let market := BittrexOrder.market (order s) in
    quantity ← eval (py_mul (PyInt (-1))
                            (BittrexOrder.current_quantity (order s)));
    total ← eval (v ← BittrexOrder.getattr (order s) "total";
                  n ← as_number v; py_mul (PyInt (-1)) n);
    w ← eval (update_wallet (wallet s) market quantity total);
    set_wallet w.

(** [Decimal(str(ticker.get(key)))]: a missing price prints as ['None'],
    which [Decimal] refuses with InvalidOperation. *)
Definition Decimal_of_str (x : option Decimal) : outcome Decimal :=
  match x with
  | Some d => Ok d
  | None => Raise InvalidOperation
  end.

(** [Decimal(str(percent / 100))] for the default [percent=5]: the float
    [5 / 100] prints as ['0.05']. *)
Definition default_percent : Decimal := DFin 5 (-2).

(** The price that [buy_above_bid] computes from the ticker;
    [percent] is [Decimal(str(percent / 100))]. *)
Definition buy_price_of (bid_price ask_price percent : Decimal)
  : outcome Decimal :=
  spread ← sub ask_price bid_price;
  price_buffer ← mul spread percent;
  raised ← add bid_price price_buffer;
  buy_price ← quantize raised BittrexOrder.DIGITS;
  above ← gtb buy_price ask_price;
  Ok (if (above : bool) then bid_price else buy_price).

(** The price that [sell_below_ask] computes from the ticker. *)
Definition sell_price_of (bid_price ask_price percent : Decimal)
  : outcome Decimal :=
  spread ← sub ask_price bid_price;
  price_buffer ← mul spread percent;
  lowered ← sub ask_price price_buffer;
  sell_price ← quantize lowered BittrexOrder.DIGITS;
  below ← ltb sell_price bid_price;
  Ok (if (below : bool) then ask_price else sell_price).

(** [buy_above_bid(market, order, wallet, bittrex, logger, percent)];
    the calls of the logger leave no trace here. *)
Definition buy_above_bid (market : string) (bittrex : Bittrex)
    (percent : Decimal) : ST State bool :=
  fetched ← try_except
    (ticker ← on_gateway (get_ticker_or_else bittrex market);
     mret (Some ticker))
    is_ConnectionError_or_ValueError
    (mret None);
  match fetched with
  | None => mret false
  | Some ticker =>
      bid_price ← eval (Decimal_of_str (Bid ticker));
      ask_price ← eval (Decimal_of_str (Ask ticker));
      buy_price ← eval (buy_price_of bid_price ask_price percent);
      on_order (BittrexOrder.update_target_price (PyDec buy_price));;
      s ← get;
      short ← eval (py_lt (get_quantity (wallet s) "BTC")
                          (BittrexOrder.base_quantity (order s)));
      if (short : bool) then mret false
      else
        try_except
          (s ← get;
           buy_response ← on_gateway
             (buy_limit bittrex market
                (BittrexOrder.target_quantity (order s))
                (BittrexOrder.target_price (order s)));
           if success buy_response then
             submitted ← result_of buy_response;
             on_order (BittrexOrder.update_uuid (submitted_uuid submitted));;
             on_order (BittrexOrder.update_status "EXECUTED");;
             mret true
           else raise ValueError)
          is_ConnectionError_or_ValueError
          (mret false)
  end.

(** [sell_below_ask(market, order, wallet, bittrex, logger, percent)] *)
Definition sell_below_ask (market : string) (bittrex : Bittrex)
    (percent : Decimal) : ST State bool :=
  fetched ← try_except
    (ticker ← on_gateway (get_ticker_or_else bittrex market);
     mret (Some ticker))
    is_ConnectionError_or_ValueError
    (mret None);
  match fetched with
  | None => mret false
  | Some ticker =>
      bid_price ← eval (Decimal_of_str (Bid ticker));
      ask_price ← eval (Decimal_of_str (Ask ticker));
      sell_price ← eval (sell_price_of bid_price ask_price percent);
      on_order (BittrexOrder.update_target_price (PyDec sell_price));;
      s ← get;
      if py_eq (get_quantity (wallet s) market) (PyInt 0) then mret false
      else
        try_except
          (s ← get;
           sell_response ← on_gateway
             (sell_limit bittrex market
                (get_quantity (wallet s) market)
                (BittrexOrder.target_price (order s)));
           if success sell_response then
             submitted ← result_of sell_response;
             on_order (BittrexOrder.update_uuid (submitted_uuid submitted));;
             on_order (BittrexOrder.update_status "EXECUTED");;
             mret true
           else raise ValueError)
          is_ConnectionError_or_ValueError
          (mret false)
  end.

(** The objects that [skip_order] is handed.  A BittrexOrder has no
    [__eq__], so [order_list.remove(order)] looks for the same object:
    orders are held in [objects] under their identity, and the list of
    active orders and the queue of completed orders hold identities.
    The queue is unbounded, so [put] appends without blocking. *)
Record Desk : Type := {
  objects : gmap nat BittrexOrder.t;
  order_list : list nat;
  out_queue : list nat
}.

(** [l.remove(x)]: [l] without the first [x], [None] when there is no
    [x] (the ValueError of Python). *)
Fixpoint list_remove (x : nat) (l : list nat) : option (list nat) :=
  match l with
  | [] => None
  | y :: l' => if Nat.eqb x y then Some l'
               else cons y <$> list_remove x l'
  end.

(** [skip_order(order, order_list, out_queue)] *)
Definition skip_order (order : nat) : ST Desk unit :=
  modify (fun d =>
    {| objects := alter (BittrexOrder.set_status "SKIPPED") order (objects d);
       order_list := order_list d; out_queue := out_queue d |});;
  d ← get;
  match list_remove order (order_list d) with
  | None => raise ValueError
  | Some remaining =>
      modify (fun d =>
        {| objects := objects d; order_list := remaining;
           out_queue := out_queue d |})
  end;;
  modify (fun d =>
    {| objects := objects d; order_list := order_list d;
       out_queue := out_queue d ++ [order] |}).

End manager_helper.

(* ===================================================================== *)
(** ** run_crocket.py *)
(* ===================================================================== *)

Module run_crocket.
Import Dec Py Time bittrex2.

(** The dict that [calculate_metrics] returns. *)
Record Metrics : Type := {
  volume : pynum;
  buy_order : Z;
  sell_order : Z;
  price : pynum;
  price_volume_weighted : pynum;
  time : Z
}.

Definition items (data : Metrics) : list (string * pyval) :=
  [ ("volume", VNum (volume data));
    ("buy_order", VInt (buy_order data));
    ("sell_order", VInt (sell_order data));
    ("price", VNum (price data));
    ("price_volume_weighted", VNum (price_volume_weighted data));
    ("time", VTime (time data)) ]%string.

(** [data.get(key)] *)
Definition metrics_get (data : Metrics) (key : string) : pyval :=
  default VNone (dict_get (items data) key).

(** [format_bittrex_entry(data)] of this file. *)
Definition format_bittrex_entry (data : Metrics) : list (string * pyval) :=
  [ ("time", metrics_get data "time");
    ("price", metrics_get data "price");
    ("wprice", metrics_get data "wprice");
    ("basevolume", metrics_get data "basevolume");
    ("buyorder", metrics_get data "buyorder");
    ("sellorder", metrics_get data "sellorder") ]%string.

(** [filter_bittrex_markets(markets, base_coin)] of this file, which is
    handed the response of [get_markets]; a response without result
    cannot be iterated. *)
Definition filter_bittrex_markets (markets : Response (list Market))
    (base_coin : string) : outcome (list string) :=
  match result markets with
  | None => Raise TypeError
  | Some listed =>
      Ok (map MarketName
            (filter (fun x => String.eqb (BaseCurrency x) base_coin
                              && IsActive x) listed))
  end.

(** [sum] over Decimals: the initial int [0] enters the first addition
    as [Decimal(0)]. *)
Definition decimal_sum (l : list Decimal) : outcome Decimal :=
  fold_left (fun acc x => a ← acc; add a x) l (Ok (of_int 0)).

(** [[f(x) for x in l]], stopping at the first exception. *)
Fixpoint for_each {A B} (f : A -> outcome B) (l : list A) : outcome (list B) :=
  match l with
  | [] => Ok []
  | x :: l' => y ← f x; ys ← for_each f l'; Ok (y :: ys)
  end.

(** [calculate_metrics(data, start_datetime, digits)].  The elements of
    [data] are dicts, so the guard [data and isinstance(data[0], dict)]
    asks whether the list is non-empty.  [decimal_places] is computed
    first, at line 83, so the Overflow of the power comes before any
    other error; the calls of [quantize] read its exponent. *)
Definition calculate_metrics (data : list Entry) (start_datetime : timearg)
    (digits : Z) : outcome Metrics :=
  power ← ten_to_the (digits * -1);
  let decimal_places := exponent power in
  start ← convert_bittrex_timestamp_to_datetime start_datetime;
  let formatted_time := format_time (utc_to_local start) in
  match data with
  | [] =>
      Ok {| volume := PyInt 0; buy_order := 0; sell_order := 0;
            price := PyInt 0; price_volume_weighted := PyInt 0;
            time := formatted_time |}
  | _ :: _ =>
      let p := map Price data in
      let v := map Total data in
      let o := map OrderType data in
      volume ← py_sum v;
      let buy_order :=
        Z.of_nat (length (filter (fun x => String.eqb x "BUY") o)) in
      let sell_order := Z.of_nat (length o) - buy_order in
      quantized ← for_each (fun x => quantize (to_decimal x) decimal_places) p;
      total ← decimal_sum quantized;
      mean ← div total (of_int (Z.of_nat (length p)));
      price ← quantize mean decimal_places;
      weighted ← for_each
        (fun xy => q ← quantize (to_decimal (fst xy)) decimal_places;
                   mul q (to_decimal (snd xy)))
        (combine p v);
      weighted_total ← decimal_sum weighted;
      weight ← py_sum v;
      ratio ← div weighted_total (to_decimal weight);
      price_volume_weighted ← quantize ratio decimal_places;
      Ok {| volume := volume; buy_order := buy_order;
            sell_order := sell_order; price := PyDec price;
            price_volume_weighted := PyDec price_volume_weighted;
            time := formatted_time |}
  end.

(** [get_interval_index(entries, target_datetime, interval)].  The test
    [(x - target_datetime).total_seconds() > interval] compares the
    difference, a float number of seconds, with the int [interval]; it
    is made here on the exact microseconds.  The two agree for every
    difference as long as [0 <= interval < 2 ^ 34]: the float nearest to
    a difference that exceeds such an interval by a microsecond or more
    lies above the interval, because the floats below [2 ^ 34] are less
    than two microseconds apart.  The loop passes 60. *)
Definition get_interval_index (entries : list Entry)
    (target_datetime : datetime) (interval : Z) : outcome (nat * nat) :=
  timestamp_list ← for_each
    (fun x => convert_bittrex_timestamp_to_datetime (TimeStamp x)) entries;
  let stop_index :=
    length (filter (fun x => target_datetime <? x) timestamp_list) in
  let start_index :=
    length (filter (fun x => seconds interval <? x - target_datetime)
                   timestamp_list) in
  Ok (start_index, stop_index).

(** [l[start:stop]] for indices that are not negative. *)
Definition slice {A} (l : list A) (start stop : nat) : list A :=
  skipn start (firstn stop l).

(** [l.index(x)] *)
Fixpoint list_index (x : Z) (l : list Z) : option nat :=
  match l with
  | [] => None
  | y :: l' => if x =? y then Some O else S <$> list_index x l'
  end.

(** Lines 242 to 246: where the page meets the working list, and the
    working list with the newer part of the page in front.  [None] for
    [market_history] is a response without result. *)
Definition merge_found (working_list : list Entry)
    (market_history : option (list Entry)) : outcome (nat * list Entry) :=
  match working_list with
  | [] => Raise IndexError
  | newest :: _ =>
      let last_id := Id newest in
      match market_history with
      | None => Raise TypeError
      | Some page =>
          match list_index last_id (map Id page) with
          | None => Raise ValueError
          | Some index => Ok (index, firstn index page ++ working_list)
          end
      end
  end.

(** Line 287, in the handler of the ValueError. *)
Definition merge_gap (working_list : list Entry)
    (market_history : option (list Entry)) : outcome (list Entry) :=
  match market_history with
  | None => Raise TypeError
  | Some page => Ok (page ++ working_list)
  end.

(** The merge of one poll: the working list as the [try] leaves it at
    line 246 or, when the newest known identifier is not in the page, as
    the handler leaves it at line 287. *)
Definition merge (working_list page : list Entry) : outcome (list Entry) :=
  match merge_found working_list (Some page) with
  | Ok (_, merged) => Ok merged
  | Raise ValueError => merge_gap working_list (Some page)
  | Raise e => Raise e
  end.

(** The identifiers of a list of trades are all different. *)
Definition no_duplicate_ids (l : list Entry) : Prop := NoDup (map Id l).

(** Newest first: identifiers grow with time, so each entry has a
    larger identifier than all entries after it. *)
Definition newest_first (l : list Entry) : Prop :=
  StronglySorted (fun x y => Id y < Id x) l.

(** A page has been seen by a working list when the newest entry of the
    list heads the page, or the page is empty. *)
Definition page_seen (working_list page : list Entry) : Prop :=
  match working_list, page with
  | w :: _, y :: _ => Id w = Id y
  | _ :: _, [] => True
  | [], _ => False
  end.

(** [n] polls that all return the same page. *)
Fixpoint merge_repeatedly (n : nat) (working_list page : list Entry)
  : outcome (list Entry) :=
  match n with
  | O => Ok working_list
  | S n' => merged ← merge working_list page;
            merge_repeatedly n' merged page
  end.

(** The module-level names that the loop reads and assigns, the rows
    handed to the database and the traffic with the exchange.
    [metrics = None] is the name before its first assignment. *)
Record Loop : Type := {
  working_list : list Entry;
  current_datetime : datetime;
  constant : Z;
  metrics : option Metrics;
  market_history : option (list Entry);
  sleep_time : Z;
  db : list (string * list (string * pyval));
  gateway : trace
}.

Definition market : string := "BTC-CLUB".
Definition interval : Z := 60.

Definition set_working_list (v : list Entry) (s : Loop) : Loop :=
  {| working_list := v; current_datetime := current_datetime s;
     constant := constant s; metrics := metrics s;
     market_history := market_history s; sleep_time := sleep_time s;
     db := db s; gateway := gateway s |}.

Definition set_current_datetime (v : datetime) (s : Loop) : Loop :=
  {| working_list := working_list s; current_datetime := v;
     constant := constant s; metrics := metrics s;
     market_history := market_history s; sleep_time := sleep_time s;
     db := db s; gateway := gateway s |}.

Definition set_constant (v : Z) (s : Loop) : Loop :=
  {| working_list := working_list s; current_datetime := current_datetime s;
     constant := v; metrics := metrics s;
     market_history := market_history s; sleep_time := sleep_time s;
     db := db s; gateway := gateway s |}.

Definition set_metrics (v : option Metrics) (s : Loop) : Loop :=
  {| working_list := working_list s; current_datetime := current_datetime s;
     constant := constant s; metrics := v;
     market_history := market_history s; sleep_time := sleep_time s;
     db := db s; gateway := gateway s |}.

Definition set_market_history (v : option (list Entry)) (s : Loop) : Loop :=
  {| working_list := working_list s; current_datetime := current_datetime s;
     constant := constant s; metrics := metrics s;
     market_history := v; sleep_time := sleep_time s;
     db := db s; gateway := gateway s |}.

Definition set_sleep_time (v : Z) (s : Loop) : Loop :=
  {| working_list := working_list s; current_datetime := current_datetime s;
     constant := constant s; metrics := metrics s;
     market_history := market_history s; sleep_time := v;
     db := db s; gateway := gateway s |}.

Definition set_db (v : list (string * list (string * pyval))) (s : Loop)
  : Loop :=
  {| working_list := working_list s; current_datetime := current_datetime s;
     constant := constant s; metrics := metrics s;
     market_history := market_history s; sleep_time := sleep_time s;
     db := v; gateway := gateway s |}.

Definition on_gateway {A} (m : ST trace A) : ST Loop A :=
  zoom gateway
    (fun g s =>
       {| working_list := working_list s;
          current_datetime := current_datetime s;
          constant := constant s; metrics := metrics s;
          market_history := market_history s; sleep_time := sleep_time s;
          db := db s; gateway := g |}) m.

(** Modelled from the spec: [db.insert_query(market, formatted_entry)]
    of the persistence layer (sql/sql.py, not among the sources); the
    spec has it append the metrics to the store of the market, its own
    errors being logged and not raised. *)
Definition insert_query (market : string)
    (formatted_entry : list (string * pyval)) : ST Loop unit :=
  modify (fun s => set_db (db s ++ [(market, formatted_entry)]) s).

(** The name [metrics], read. *)
Definition read_metrics : ST Loop Metrics :=
  s ← get;
  match metrics s with
  | Some m => mret m
  | None => raise NameError
  end.

Definition is_ValueError (e : exn) : bool :=
  match e with
  | ValueError => true
  | _ => false
  end.

(** [working_list[0]] *)
Definition first_entry (l : list Entry) : outcome Entry :=
  match l with
  | x :: _ => Ok x
  | [] => Raise IndexError
  end.

(** Lines 241 to 282, the body of the inner [try].  The test of line 250
    on [total_seconds()] is made on the exact microseconds, which is the
    same for the [interval] of 60 (see [get_interval_index]). *)
Definition poll_and_summarise (bittrex : Bittrex) : ST Loop unit :=
  response ← on_gateway (get_market_history bittrex market);
  modify (set_market_history (result response));;
  s ← get;
  '(index, merged) ← eval (merge_found (working_list s) (market_history s));
  modify (set_working_list merged);;
  s ← get;
  newest ← eval (first_entry (working_list s));
  latest_datetime ← eval (convert_bittrex_timestamp_to_datetime
                            (TimeStamp newest));
  (if seconds interval <? latest_datetime - current_datetime s then
     '(start, stop) ← eval (get_interval_index (working_list s)
                              (current_datetime s) interval);
     computed ← eval (calculate_metrics (slice (working_list s) start stop)
                        (TimeObj (current_datetime s)) 8);
     modify (set_metrics (Some computed));;
     modify (set_working_list (firstn start (working_list s)));;
     modify (set_current_datetime (current_datetime s + seconds interval));;
     modify (set_constant 0)
   else if 2 <? constant s then
     '(start, stop) ← eval (get_interval_index (working_list s)
                              (current_datetime s) interval);
     new_metrics ← eval (calculate_metrics
                           (slice (working_list s) start stop)
                           (TimeObj (current_datetime s)) 8);
     old ← read_metrics;
     modify (set_metrics (Some
       {| volume := volume new_metrics;
          buy_order := buy_order new_metrics;
          sell_order := sell_order new_metrics;
          price := price old;
          price_volume_weighted := price_volume_weighted old;
          time := time new_metrics |}));;
     modify (set_working_list (firstn start (working_list s)));;
     modify (set_current_datetime (current_datetime s + seconds interval))
   else
     modify (set_constant (constant s + 1)));;
  (if Z.of_nat index <? 30
   then modify (set_sleep_time 60)
   else modify (set_sleep_time 30)).

(** Lines 284 to 294, the handler of the ValueError. *)
Definition on_gap : ST Loop unit :=
  s ← get;
  merged ← eval (merge_gap (working_list s) (market_history s));
  modify (set_working_list merged);;
  s ← get;
  '(start, stop) ← eval (get_interval_index (working_list s)
                           (current_datetime s) interval);
  computed ← eval (calculate_metrics (working_list s)
                     (TimeObj (current_datetime s)) 8);
  modify (set_metrics (Some computed));;
  modify (set_current_datetime (current_datetime s + seconds interval));;
  modify (set_sleep_time 30).

(** One turn of [while True], lines 240 to 299. *)
Definition loop_body (bittrex : Bittrex) : ST Loop unit :=
  try_except (poll_and_summarise bittrex) is_ValueError on_gap;;
  current ← read_metrics;
  let formatted_entry := format_bittrex_entry current in
  insert_query market formatted_entry;;
  s ← get;
  on_gateway (sleep (sleep_time s)).

End run_crocket.

(* ===================================================================== *)
(** ** Sample data *)
(* ===================================================================== *)

Module Sample.
Import Dec Py Time bittrex2.

(** The envelope that [_api_query] returns when the request fails. *)
Definition no_api_response {T : Type} : Response T :=
  {| success := false; message := "NO_API_RESPONSE"; result := None |}.

Definition answer {T : Type} (x : T) : Response T :=
  {| success := true; message := ""; result := Some x |}.

(** An exchange that cannot be reached. *)
Definition unreachable : Bittrex :=
  {| get_ticker_answer := fun _ _ => no_api_response;
     buy_limit_answer := fun _ _ _ _ => no_api_response;
     sell_limit_answer := fun _ _ _ _ => no_api_response;
     get_order_answer := fun _ _ => no_api_response;
     cancel_answer := fun _ _ => no_api_response;
     get_market_history_answer := fun _ _ => no_api_response |}.

Definition ticker (bid ask : Decimal) : Ticker :=
  {| Bid := Some bid; Ask := Some ask; Last := None |}.

(** An exchange that quotes [bid] and [ask], accepts every order under
    the identifier "u1" and reports [data] for it. *)
Definition quoting (bid ask : Decimal) (data : BittrexOrder.OrderData)
  : Bittrex :=
  {| get_ticker_answer := fun _ _ => answer (ticker bid ask);
     buy_limit_answer := fun _ _ _ _ =>
       answer {| submitted_uuid := Some "u1"%string |};
     sell_limit_answer := fun _ _ _ _ =>
       answer {| submitted_uuid := Some "u1"%string |};
     get_order_answer := fun _ _ => answer data;
     cancel_answer := fun _ _ => answer tt;
     get_market_history_answer := fun _ _ => no_api_response |}.

(** An exchange that quotes [bid] and [ask] and rejects every order. *)
Definition rejecting (bid ask : Decimal) : Bittrex :=
  {| get_ticker_answer := fun _ _ => answer (ticker bid ask);
     buy_limit_answer := fun _ _ _ _ => no_api_response;
     sell_limit_answer := fun _ _ _ _ => no_api_response;
     get_order_answer := fun _ _ => no_api_response;
     cancel_answer := fun _ _ => no_api_response;
     get_market_history_answer := fun _ _ => no_api_response |}.

(** The floats of the order records below, as binary64 values. *)
Definition f_0 : spec_float := S754_zero false.
Definition f_1366 : spec_float := S754_finite false 6007731534168064 (-42).
Definition f_366 : spec_float := S754_finite false 6438740092256256 (-44).
Definition f_0_00101084 : spec_float :=
  S754_finite false 4661676694867141 (-62).
Definition f_0_00074 : spec_float := S754_finite false 6825295307272534 (-63).
Definition f_2_52e_06 : spec_float := S754_finite false 5950181768415753 (-71).
Definition f_1_85e_06 : spec_float := S754_finite false 8736377993308844 (-72).
Definition f_7_4e_07 : spec_float := S754_finite false 6989102394647075 (-73).

(** The filled buy of 1366 units at 0.00000074 from the docstring of
    [add_completed_order]. *)
Definition filled_buy : BittrexOrder.OrderData :=
  {| BittrexOrder.Closed := TimeStr (Some 1514005255420000);
     BittrexOrder.CommissionPaid := PyFloat f_2_52e_06;
     BittrexOrder.OrderUuid := "u1";
     BittrexOrder.Price := PyFloat f_0_00101084;
     BittrexOrder.PricePerUnit := Some (PyFloat f_7_4e_07);
     BittrexOrder.Quantity := PyFloat f_1366;
     BittrexOrder.QuantityRemaining := PyFloat f_0;
     BittrexOrder.Type_ := "LIMIT_BUY" |}.

(** The same numbers for a sell. *)
Definition filled_sell : BittrexOrder.OrderData :=
  {| BittrexOrder.Closed := TimeStr (Some 1514005255420000);
     BittrexOrder.CommissionPaid := PyFloat f_2_52e_06;
     BittrexOrder.OrderUuid := "u1";
     BittrexOrder.Price := PyFloat f_0_00101084;
     BittrexOrder.PricePerUnit := Some (PyFloat f_7_4e_07);
     BittrexOrder.Quantity := PyFloat f_1366;
     BittrexOrder.QuantityRemaining := PyFloat f_0;
     BittrexOrder.Type_ := "LIMIT_SELL" |}.

(** A buy of 1366 units of which 366 are left unfilled and the order is
    still open. *)
Definition partial_buy : BittrexOrder.OrderData :=
  {| BittrexOrder.Closed := TimeNone;
     BittrexOrder.CommissionPaid := PyFloat f_1_85e_06;
     BittrexOrder.OrderUuid := "u1";
     BittrexOrder.Price := PyFloat f_0_00074;
     BittrexOrder.PricePerUnit := Some (PyFloat f_7_4e_07);
     BittrexOrder.Quantity := PyFloat f_1366;
     BittrexOrder.QuantityRemaining := PyFloat f_366;
     BittrexOrder.Type_ := "LIMIT_BUY" |}.

(** A trade of the tape; [secs] is its time in seconds. *)
Definition trade (id secs : Z) (quantity price total : pynum) (side : string)
  : Entry :=
  {| Id := id; TimeStamp := TimeStr (Some (seconds secs));
     Quantity := quantity; Price := price; Total := total;
     FillType := "FILL"; OrderType := side |}.

Definition trade1 : Entry := trade 1 10 (PyInt 1) (PyInt 100) (PyInt 100) "BUY".
Definition trade2 : Entry := trade 2 20 (PyInt 2) (PyInt 102) (PyInt 204) "SELL".
Definition trade3 : Entry := trade 3 30 (PyInt 1) (PyInt 98) (PyInt 98) "BUY".

(** The tape of the spec's example with the base-currency amounts
    ([Total]) that the exchange reports for these prices and
    quantities. *)
Definition tape : list Entry := [trade1; trade2; trade3].

(** The same prices and sides with [Total] 1, 2, 1; the quantities are
    left open. *)
Definition tape_with_totals (q1 q2 q3 : pynum) : list Entry :=
  [ trade 1 10 q1 (PyInt 100) (PyInt 1) "BUY";
    trade 2 20 q2 (PyInt 102) (PyInt 2) "SELL";
    trade 3 30 q3 (PyInt 98) (PyInt 1) "BUY" ].

(** An exchange that answers every request for the market history with
    the same page. *)
Definition replaying (page : list Entry) : Bittrex :=
  {| get_ticker_answer := fun _ _ => no_api_response;
     buy_limit_answer := fun _ _ _ _ => no_api_response;
     sell_limit_answer := fun _ _ _ _ => no_api_response;
     get_order_answer := fun _ _ => no_api_response;
     cancel_answer := fun _ _ => no_api_response;
     get_market_history_answer := fun _ _ => answer page |}.

(** The metrics of an earlier interval. *)
Definition earlier_metrics : run_crocket.Metrics :=
  {| run_crocket.volume := PyInt 4;
     run_crocket.buy_order := 2;
     run_crocket.sell_order := 1;
     run_crocket.price := PyDec (DFin 10000000000 (-8));
     run_crocket.price_volume_weighted := PyDec (DFin 10050000000 (-8));
     run_crocket.time := -60 |}.

(** The loop with three trades held, all inside the interval that
    started at 0, after [n] quiet polls; [m] is what the name [metrics]
    is bound to. *)
Definition quiet_loop (n : Z) (m : option run_crocket.Metrics)
  : run_crocket.Loop :=
  {| run_crocket.working_list := [trade3; trade2; trade1];
     run_crocket.current_datetime := 0;
     run_crocket.constant := n;
     run_crocket.metrics := m;
     run_crocket.market_history := None;
     run_crocket.sleep_time := 30;
     run_crocket.db := [];
     run_crocket.gateway := [] |}.

(** Two markets quoted in BTC, one of them closed, and one in ETH. *)
Definition markets : list Market :=
  [ {| MarketName := "BTC-LTC"; MarketCurrency := "LTC";
       BaseCurrency := "BTC"; IsActive := true |};
    {| MarketName := "ETH-LTC"; MarketCurrency := "LTC";
       BaseCurrency := "ETH"; IsActive := true |};
    {| MarketName := "BTC-CLUB"; MarketCurrency := "CLUB";
       BaseCurrency := "BTC"; IsActive := false |} ]%string.

(** An order to buy in BTC-CLUB for 0.01 BTC, and one to sell. *)
Definition buy_order : BittrexOrder.t :=
  BittrexOrder.create "BTC-CLUB" "BUY" (PyInt 1366) (PyDec (DFin 1 (-2))).

Definition sell_order : BittrexOrder.t :=
  BittrexOrder.create "BTC-CLUB" "SELL" (PyInt 5) (PyDec (DFin 1 (-2))).

(** A wallet with one BTC and 1366 units of the asset, and an empty one. *)
Definition funded : gmap string pynum :=
  {[ "BTC"%string := PyDec (DFin 1 0);
     "BTC-CLUB"%string := PyDec (DFin 1366 0) ]}.

Definition start (o : BittrexOrder.t) (w : gmap string pynum)
  : manager_helper.State :=
  {| manager_helper.order := o; manager_helper.wallet := w;
     manager_helper.gateway := [] |}.

(** Two active orders, the objects 1 and 2, and an empty queue. *)
Definition desk : manager_helper.Desk :=
  {| manager_helper.objects := {[ 1%nat := buy_order; 2%nat := sell_order ]};
     manager_helper.order_list := [1%nat; 2%nat];
     manager_helper.out_queue := [] |}.

(** An exchange that accepts every order under the identifier "u1" and
    answers no other request. *)
Definition silent : Bittrex :=
  {| get_ticker_answer := fun _ _ => no_api_response;
     buy_limit_answer := fun _ _ _ _ =>
       answer {| submitted_uuid := Some "u1"%string |};
     sell_limit_answer := fun _ _ _ _ =>
       answer {| submitted_uuid := Some "u1"%string |};
     get_order_answer := fun _ _ => no_api_response;
     cancel_answer := fun _ _ => no_api_response;
     get_market_history_answer := fun _ _ => no_api_response |}.

(** An exchange that accepts every order under "u1", reports [data] for
    it and refuses every cancellation. *)
Definition holding (data : BittrexOrder.OrderData) : Bittrex :=
  {| get_ticker_answer := fun _ _ => no_api_response;
     buy_limit_answer := fun _ _ _ _ =>
       answer {| submitted_uuid := Some "u1"%string |};
     sell_limit_answer := fun _ _ _ _ =>
       answer {| submitted_uuid := Some "u1"%string |};
     get_order_answer := fun _ _ => answer data;
     cancel_answer := fun _ _ => no_api_response;
     get_market_history_answer := fun _ _ => no_api_response |}.

End Sample.

(* STATEMENTS *)

Import Dec Py Time.

(** Unfold the plumbing of [ST]. *)
Ltac run :=
  cbv [mbind ST_bind mret ST_ret raise eval get modify try_except zoom
       bittrex2.emit].

(* ===================================================================== *)
(** ** Facts about Decimal arithmetic *)
(* ===================================================================== *)

Section DecimalFacts.

Lemma pow10_pos (k : Z) : 0 <= k -> 0 < 10 ^ k.
Proof. intros Hk. apply Z.pow_pos_nonneg; lia. Qed.

Lemma pow10_split (x y : Z) : 0 <= x -> 0 <= y -> 10 ^ (x + y) = 10 ^ x * 10 ^ y.
Proof. intros Hx Hy. apply Z.pow_add_r; assumption. Qed.

(** Within the precision of the context a result is kept as it is. *)
Lemma fix_exact (c e : Z) : Z.abs c < 10 ^ prec -> fix_ c e = DFin c e.
Proof.
  intros Hc. unfold fix_.
  destruct (Z.ltb_spec (Z.abs c) (10 ^ prec)) as [_ | Hge]; [reflexivity | lia].
Qed.

Lemma ndigits_aux_le (fuel : nat) :
  forall (n : Z) (k : nat),
    0 <= n < 10 ^ Z.of_nat (S k) -> ndigits_aux fuel n <= Z.of_nat (S k).
Proof.
  induction fuel as [| fuel IH]; intros n k Hn; simpl ndigits_aux.
  - lia.
  - destruct (Z.ltb_spec n 10) as [Hlt | Hge]; [lia |].
    destruct k as [| k'].
    + change (10 ^ Z.of_nat 1) with 10 in Hn. lia.
    + assert (Hdiv : 0 <= n / 10 < 10 ^ Z.of_nat (S k')).
      { replace (Z.of_nat (S (S k'))) with (1 + Z.of_nat (S k')) in Hn by lia.
        rewrite pow10_split in Hn by lia. change (10 ^ 1) with 10 in Hn.
        split; [apply Z.div_pos; lia |].
        apply Z.div_lt_upper_bound; lia. }
      specialize (IH (n / 10) k' Hdiv). lia.
Qed.

(** A coefficient below [10 ^ k] has at most [k] digits. *)
Lemma ndigits_le (c k : Z) : 1 <= k -> Z.abs c < 10 ^ k -> ndigits c <= k.
Proof.
  intros Hk Hc. unfold ndigits.
  pose proof (ndigits_aux_le (S (Z.to_nat (Z.log2 (Z.abs c)))) (Z.abs c)
                (Z.to_nat (k - 1))) as H.
  replace (Z.of_nat (S (Z.to_nat (k - 1)))) with k in H by lia.
  apply H. lia.
Qed.

Lemma ndigits_aux_pos (fuel : nat) : forall n : Z, 1 <= ndigits_aux fuel n.
Proof.
  induction fuel as [| fuel IH]; intros n; simpl; [lia |].
  destruct (n <? 10); [lia | specialize (IH (n / 10)); lia].
Qed.

Lemma ndigits_pos (c : Z) : 1 <= ndigits c.
Proof. unfold ndigits. apply ndigits_aux_pos. Qed.

(** Rounding to the nearest integer stays between integer bounds. *)
Lemma round_half_even_between (n d lo hi : Z) :
  0 < d -> lo * d <= n <= hi * d -> lo <= round_half_even n d <= hi.
Proof.
  intros Hd [Hlo Hhi]. unfold round_half_even.
  pose proof (Z.div_mod n d ltac:(lia)) as Hdm.
  pose proof (Z.mod_pos_bound n d Hd) as Hr.
  assert (Hq1 : lo <= n / d) by (apply Z.div_le_lower_bound; lia).
  assert (Hq2 : n / d <= hi) by (apply Z.div_le_upper_bound; lia).
  assert (Hup : 0 < n mod d -> n / d + 1 <= hi) by nia.
  destruct (Z.ltb_spec (2 * (n mod d)) d); [lia |].
  destruct (Z.ltb_spec d (2 * (n mod d))); [lia |].
  destruct (Z.even (n / d)); lia.
Qed.

Lemma ndigits_aux_spec (fuel : nat) :
  forall n : Z,
    1 <= n < 2 ^ Z.of_nat fuel ->
    10 ^ (ndigits_aux fuel n - 1) <= n < 10 ^ ndigits_aux fuel n.
Proof.
  induction fuel as [| fuel IH]; intros n [H1 H2].
  - change (2 ^ Z.of_nat 0) with 1 in H2. lia.
  - cbn [ndigits_aux].
    destruct (Z.ltb_spec n 10) as [Hlt | Hge].
    { change (10 ^ (1 - 1)) with 1. change (10 ^ 1) with 10. lia. }
    rewrite Nat2Z.inj_succ, Z.pow_succ_r in H2 by lia.
    assert (Hq : 1 <= n / 10 < 2 ^ Z.of_nat fuel).
    { split; [apply Z.div_le_lower_bound; lia |].
      apply Z.div_lt_upper_bound; lia. }
    specialize (IH (n / 10) Hq).
    pose proof (ndigits_aux_pos fuel (n / 10)) as Hd.
    set (d := ndigits_aux fuel (n / 10)) in *.
    replace (1 + d - 1) with (Z.succ (d - 1)) by lia.
    replace (1 + d) with (Z.succ d) by lia.
    rewrite !Z.pow_succ_r by lia.
    pose proof (Z.div_mod n 10 ltac:(lia)) as Hdm.
    pose proof (Z.mod_pos_bound n 10 ltac:(lia)) as Hr.
    lia.
Qed.

(** The digits of a positive coefficient. *)
Lemma ndigits_spec (c : Z) :
  1 <= c -> 10 ^ (ndigits c - 1) <= c < 10 ^ ndigits c.
Proof.
  intros Hc. unfold ndigits. rewrite Z.abs_eq by lia.
  apply ndigits_aux_spec. split; [exact Hc |].
  rewrite Nat2Z.inj_succ, Z2Nat.id by apply Z.log2_nonneg.
  apply Z.log2_spec. lia.
Qed.

(** Rounding to the precision of the context keeps a value between two
    bounds of a coarser grid: when [c * 10 ^ e] lies between [L] and [H]
    units of [10 ^ g], with [H] below [10 ^ prec], so does the rounded
    value, whose exponent does not exceed [g]. *)
Lemma fix_between (c e g L H : Z) :
  e <= g -> 0 <= L -> H < 10 ^ prec ->
  L * 10 ^ (g - e) <= c <= H * 10 ^ (g - e) ->
  exists c' e',
    fix_ c e = DFin c' e' /\ e <= e' <= g
    /\ L * 10 ^ (g - e') <= c' <= H * 10 ^ (g - e').
Proof.
  intros Heg HL HH [Hlo Hhi].
  pose proof (pow10_pos (g - e) ltac:(lia)) as HP.
  assert (Hc : 0 <= c) by nia.
  unfold fix_.
  destruct (Z.ltb_spec (Z.abs c) (10 ^ prec)) as [Hsmall | Hbig].
  { exists c, e. repeat split; lia. }
  rewrite Z.abs_eq in Hbig by lia.
  assert (H28 : 0 < 10 ^ prec) by (apply pow10_pos; unfold prec; lia).
  pose proof (ndigits_spec c ltac:(lia)) as [Hn1 Hn2].
  set (n := ndigits c) in *. set (k := n - prec).
  assert (Hk1 : 1 <= k).
  { destruct (Z.le_gt_cases n prec) as [Hle | Hgt]; [| lia].
    pose proof (Z.pow_le_mono_r 10 n prec ltac:(lia) Hle). lia. }
  assert (Hk2 : k <= g - e).
  { assert (Hlt : 10 ^ (n - 1) < 10 ^ (prec + (g - e))).
    { rewrite pow10_split by (unfold prec; lia). nia. }
    apply (Z.pow_lt_mono_r_iff 10) in Hlt; unfold prec in *; lia. }
  pose proof (pow10_pos k ltac:(lia)) as HK.
  pose proof (pow10_pos (g - (e + k)) ltac:(lia)) as HQ.
  assert (HPQ : 10 ^ (g - e) = 10 ^ (g - (e + k)) * 10 ^ k).
  { rewrite <- pow10_split by lia. f_equal. lia. }
  assert (Hn : 10 ^ n = 10 ^ prec * 10 ^ k).
  { rewrite <- pow10_split by (unfold prec; lia). f_equal. unfold k. lia. }
  set (Q := 10 ^ (g - (e + k))) in *.
  assert (Hr : L * Q <= round_half_even c (10 ^ k) <= H * Q).
  { apply round_half_even_between; [exact HK |]. rewrite HPQ in Hlo, Hhi. lia. }
  assert (Hr28 : 0 <= round_half_even c (10 ^ k) <= 10 ^ prec).
  { apply round_half_even_between; [exact HK |]. lia. }
  set (c' := round_half_even c (10 ^ k)) in *.
  destruct (Z.ltb_spec (Z.abs c') (10 ^ prec)) as [Hfit | Hcarry].
  { exists c', (e + k). repeat split; try lia; fold Q; lia. }
  rewrite Z.abs_eq in Hcarry by lia.
  assert (Hc' : c' = 10 ^ prec) by lia.
  assert (Hk3 : k < g - e).
  { destruct (Z.eq_dec k (g - e)) as [Heq | Hne]; [| lia].
    exfalso. unfold Q in Hr. replace (g - (e + k)) with 0 in Hr by lia.
    change (10 ^ 0) with 1 in Hr. lia. }
  assert (HQ' : Q = 10 * 10 ^ (g - (e + k + 1))).
  { unfold Q. rewrite <- Z.pow_succ_r by lia. f_equal. lia. }
  pose proof (pow10_pos (g - (e + k + 1)) ltac:(lia)) as HQ1.
  assert (H27 : 10 ^ prec = 10 * 10 ^ 27) by reflexivity.
  exists (c' / 10), (e + k + 1).
  rewrite Hc', H27, Z.mul_comm, Z.div_mul by lia.
  repeat split; try lia; rewrite HQ' in Hr; lia.
Qed.

(** Quantizing to 8 places a value that lies between [lo] and [hi] units
    of [10 ^ -8], with [hi] below [10 ^ prec]: the result exists and
    lies between the two. *)
Lemma quantize_grid (w ew lo hi : Z) :
  0 <= lo -> hi < 10 ^ prec ->
  (-8 <= ew /\ lo <= w * 10 ^ (ew + 8) <= hi)
  \/ (ew < -8 /\ lo * 10 ^ (-8 - ew) <= w <= hi * 10 ^ (-8 - ew)) ->
  exists c', quantize (DFin w ew) (-8) = Ok (DFin c' (-8)) /\ lo <= c' <= hi.
Proof.
  intros Hlo Hhi Hcases.
  assert (H28 : 0 < 10 ^ prec) by (apply pow10_pos; unfold prec; lia).
  assert (Hw : 0 <= w).
  { destruct Hcases as [[He [H1 H2]] | [He [H1 H2]]].
    - pose proof (pow10_pos (ew + 8) ltac:(lia)). nia.
    - pose proof (pow10_pos (-8 - ew) ltac:(lia)). nia. }
  unfold quantize.
  destruct (Z.eqb_spec w 0) as [-> | Hnz].
  { exists 0. split; [reflexivity |].
    destruct Hcases as [[He [H1 H2]] | [He [H1 H2]]]; [lia |].
    pose proof (pow10_pos (-8 - ew) ltac:(lia)). nia. }
  pose proof (ndigits_spec w ltac:(lia)) as [Hn1 Hn2].
  pose proof (ndigits_pos w) as Hn0.
  set (n := ndigits w) in *.
  assert (Hres : exists c', rescale w ew (-8) = c' /\ lo <= c' <= hi
                            /\ n + ew - -8 <= prec).
  { unfold rescale.
    destruct Hcases as [[He [H1 H2]] | [He [H1 H2]]].
    - destruct (Z.leb_spec (-8) ew) as [_ | Hbad]; [| lia].
      replace (ew - -8) with (ew + 8) by lia.
      exists (w * 10 ^ (ew + 8)). split; [reflexivity |]. split; [lia |].
      pose proof (pow10_pos (ew + 8) ltac:(lia)) as HP.
      assert (Hlt : 10 ^ (n - 1 + (ew + 8)) < 10 ^ prec).
      { rewrite pow10_split by lia. nia. }
      apply (Z.pow_lt_mono_r_iff 10) in Hlt; unfold prec in *; lia.
    - destruct (Z.leb_spec (-8) ew) as [Hbad | _]; [lia |].
      pose proof (pow10_pos (-8 - ew) ltac:(lia)) as HP.
      exists (round_half_even w (10 ^ (-8 - ew))). split; [reflexivity |].
      split; [apply round_half_even_between; lia |].
      assert (Hlt : 10 ^ (n - 1) < 10 ^ (prec + (-8 - ew))).
      { rewrite pow10_split by (unfold prec; lia). nia. }
      apply (Z.pow_lt_mono_r_iff 10) in Hlt; unfold prec in *; lia. }
  destruct Hres as (c' & Hc' & Hbounds & Hdigits).
  destruct (Z.ltb_spec prec (n + ew - -8)) as [Hbad | _]; [lia |].
  rewrite Hc'.
  assert (Hnd : ndigits c' <= prec).
  { apply ndigits_le; [unfold prec; lia |]. rewrite Z.abs_eq; lia. }
  destruct (Z.ltb_spec prec (ndigits c')) as [Hbad | _]; [lia |].
  exists c'. split; [reflexivity | exact Hbounds].
Qed.

Lemma add_exact (c1 e1 c2 e2 : Z) :
  let e := Z.min e1 e2 in
  Z.abs (c1 * 10 ^ (e1 - e) + c2 * 10 ^ (e2 - e)) < 10 ^ prec ->
  add (DFin c1 e1) (DFin c2 e2)
  = Ok (DFin (c1 * 10 ^ (e1 - e) + c2 * 10 ^ (e2 - e)) e).
Proof. intros e H. unfold add. fold e. rewrite fix_exact by exact H. reflexivity. Qed.

Lemma sub_exact (c1 e1 c2 e2 : Z) :
  let e := Z.min e1 e2 in
  Z.abs (c1 * 10 ^ (e1 - e) - c2 * 10 ^ (e2 - e)) < 10 ^ prec ->
  sub (DFin c1 e1) (DFin c2 e2)
  = Ok (DFin (c1 * 10 ^ (e1 - e) - c2 * 10 ^ (e2 - e)) e).
Proof.
  intros e H. unfold sub, neg. rewrite add_exact; fold e.
  - do 2 f_equal. lia.
  - replace (c1 * 10 ^ (e1 - e) + - c2 * 10 ^ (e2 - e))
      with (c1 * 10 ^ (e1 - e) - c2 * 10 ^ (e2 - e)) by lia.
    exact H.
Qed.

Lemma mul_exact (c1 e1 c2 e2 : Z) :
  Z.abs (c1 * c2) < 10 ^ prec ->
  mul (DFin c1 e1) (DFin c2 e2) = Ok (DFin (c1 * c2) (e1 + e2)).
Proof. intros H. unfold mul. rewrite fix_exact by exact H. reflexivity. Qed.

(** Finite values written with at most 8 fractional digits compare as
    their multiples of [10 ^ -8] do. *)
Lemma compare_scaled (c1 e1 c2 e2 : Z) :
  -8 <= e1 -> -8 <= e2 ->
  compare (DFin c1 e1) (DFin c2 e2)
  = Some (c1 * 10 ^ (e1 + 8) ?= c2 * 10 ^ (e2 + 8)).
Proof.
  intros H1 H2. unfold compare. set (m := Z.min e1 e2). f_equal.
  pose proof (pow10_pos (m + 8) ltac:(lia)) as HT.
  rewrite (Zmult_compare_compat_r _ _ (10 ^ (m + 8))) by lia.
  rewrite <- !Z.mul_assoc, <- !pow10_split by lia.
  replace (e1 - m + (m + 8)) with (e1 + 8) by lia.
  replace (e2 - m + (m + 8)) with (e2 + 8) by lia.
  reflexivity.
Qed.

Lemma compare_flip (x y : Decimal) :
  compare y x = option_map CompOpp (compare x y).
Proof.
  destruct x as [c1 e1 | [] |], y as [c2 e2 | [] |]; try reflexivity.
  simpl. rewrite (Z.min_comm e2 e1), (Z.compare_antisym (c1 * _) (c2 * _)).
  reflexivity.
Qed.

(** A number above zero is not equal to zero. *)
Lemma py_gt_zero_not_eq (x : pynum) :
  py_gt x (PyInt 0) = Ok true -> py_eq x (PyInt 0) = false.
Proof.
  unfold py_gt, py_lt, py_eq, eqb, ltb. intros H.
  rewrite (compare_flip (to_decimal (PyInt 0)) (to_decimal x)).
  destruct (compare (to_decimal (PyInt 0)) (to_decimal x)) as [[] |];
    try reflexivity;
    destruct (is_decimal (PyInt 0) || is_decimal x); discriminate.
Qed.

Lemma bind_Ok {A B : Type} (a : A) (k : A -> outcome B) :
  (Ok a ≫= k) = k a.
Proof. reflexivity. Qed.

(** The power of ten is a finite Decimal, or its Overflow. *)
Lemma ten_to_the_cases (n : Z) :
  (exists c e, ten_to_the n = Ok (DFin c e)) \/ ten_to_the n = Raise Overflow.
Proof. unfold ten_to_the. repeat case_match; eauto. Qed.

Lemma ten_to_the_written (n : Z) :
  n < 1000000 -> exists c e, ten_to_the n = Ok (DFin c e).
Proof.
  intros Hn. unfold ten_to_the, Emax.
  destruct (Z.ltb_spec 999999 n); [lia |]. repeat case_match; eauto.
Qed.

(** A power of ten that is at most 1 has the exponent of a quantization
    to decimal places. *)
Lemma ten_to_the_places (n : Z) :
  n <= 0 -> exists c e, ten_to_the n = Ok (DFin c e) /\ e <= 0.
Proof.
  intros Hn. unfold ten_to_the, Emax, Etiny, prec.
  destruct (Z.ltb_spec 999999 n); [lia |].
  destruct (Z.leb_spec 28 n); [lia |].
  destruct (Z.leb_spec 0 n); [eexists _, _; split; [reflexivity | lia] |].
  destruct (Z.leb_spec (-999999 - 28 + 1) n);
    eexists _, _; (split; [reflexivity | lia]).
Qed.

End DecimalFacts.

(* ===================================================================== *)
(** ** Pricing (manager_helper.py) *)
(* ===================================================================== *)

Section Pricing.
Import manager_helper.

(** The common part of the two prices: the spread and the buffer, for a
    bid and an ask with at most 8 fractional digits, [0 <= bid <= ask <
    10 ^ 20].  The buffer may have been rounded to the precision of the
    context; it lies between zero and the spread. *)
Lemma price_buffer_between (b eb a ea : Z) :
  let m := Z.min ea eb in
  let a' := a * 10 ^ (ea - m) in
  let b' := b * 10 ^ (eb - m) in
  -8 <= eb -> -8 <= ea ->
  0 <= b * 10 ^ (eb + 8) <= a * 10 ^ (ea + 8) ->
  a * 10 ^ (ea + 8) < 10 ^ prec ->
  (exists u eu,
      (spread ← sub (DFin a ea) (DFin b eb); mul spread default_percent)
      = Ok (DFin u eu)
      /\ m - 2 <= eu <= m /\ 0 <= u <= (a' - b') * 10 ^ (m - eu))
  /\ b * 10 ^ (eb + 8) = b' * 10 ^ (m + 8)
  /\ a * 10 ^ (ea + 8) = a' * 10 ^ (m + 8)
  /\ 0 <= b' <= a' /\ a' < 10 ^ prec.
Proof.
  intros m a' b' Hb He [HB HBA] HA.
  pose proof (pow10_pos (m + 8) ltac:(lia)) as HT.
  assert (EB : b * 10 ^ (eb + 8) = b' * 10 ^ (m + 8)).
  { unfold b'. rewrite <- Z.mul_assoc, <- pow10_split by lia.
    do 2 f_equal. lia. }
  assert (EA : a * 10 ^ (ea + 8) = a' * 10 ^ (m + 8)).
  { unfold a'. rewrite <- Z.mul_assoc, <- pow10_split by lia.
    do 2 f_equal. lia. }
  rewrite EA in HBA, HA. rewrite EB in HB, HBA.
  assert (Hb' : 0 <= b') by nia.
  assert (Hab : b' <= a') by nia.
  assert (Ha' : a' < 10 ^ prec) by nia.
  split; [| repeat split; assumption].
  rewrite sub_exact; fold m; fold a'; fold b'.
  2:{ rewrite Z.abs_eq by lia. lia. }
  rewrite bind_Ok. unfold default_percent, mul.
  destruct (fix_between ((a' - b') * 5) (m + -2) m 0 (a' - b'))
    as (u & eu & Hfix & Heu & Hu); [lia | lia | lia | |].
  { replace (m - (m + -2)) with 2 by lia. change (10 ^ 2) with 100. lia. }
  exists u, eu. rewrite Hfix. repeat split; lia.
Qed.

Lemma buy_price_of_within (b eb a ea : Z) :
  -8 <= eb -> -8 <= ea ->
  0 <= b * 10 ^ (eb + 8) <= a * 10 ^ (ea + 8) ->
  a * 10 ^ (ea + 8) < 10 ^ prec ->
  exists c',
    buy_price_of (DFin b eb) (DFin a ea) default_percent = Ok (DFin c' (-8))
    /\ b * 10 ^ (eb + 8) <= c' <= a * 10 ^ (ea + 8).
Proof.
  intros Hb He HBA HA. unfold buy_price_of.
  destruct (price_buffer_between b eb a ea Hb He HBA HA)
    as ((u & eu & Hbuf & Heu & Hu) & EB & EA & Hab & Ha').
  set (m := Z.min ea eb) in *.
  set (a' := a * 10 ^ (ea - m)) in *. set (b' := b * 10 ^ (eb - m)) in *.
  pose proof (pow10_pos (m + 8) ltac:(lia)) as HT.
  change (spread ← sub (DFin a ea) (DFin b eb);
          price_buffer ← mul spread default_percent;
          raised ← add (DFin b eb) price_buffer;
          buy_price ← quantize raised BittrexOrder.DIGITS;
          above ← gtb buy_price (DFin a ea);
          Ok (if (above : bool) then DFin b eb else buy_price))
    with (price_buffer ← (spread ← sub (DFin a ea) (DFin b eb);
                          mul spread default_percent);
          raised ← add (DFin b eb) price_buffer;
          buy_price ← quantize raised BittrexOrder.DIGITS;
          above ← gtb buy_price (DFin a ea);
          Ok (if (above : bool) then DFin b eb else buy_price)).
  rewrite Hbuf, bind_Ok.
  pose proof (pow10_pos (m - eu) ltac:(lia)) as HS.
  assert (Hbe : b * 10 ^ (eb - eu) = b' * 10 ^ (m - eu)).
  { unfold b'. rewrite <- Z.mul_assoc, <- pow10_split by lia.
    do 2 f_equal. lia. }
  destruct (fix_between (b * 10 ^ (eb - eu) + u * 10 ^ (eu - eu)) eu m b' a')
    as (w & ew & Hfix & Hew & Hw); [lia | lia | lia | |].
  { rewrite Z.sub_diag. change (10 ^ 0) with 1. rewrite Hbe. lia. }
  assert (Hadd : add (DFin b eb) (DFin u eu) = Ok (DFin w ew)).
  { unfold add. replace (Z.min eb eu) with eu by lia. rewrite Hfix.
    reflexivity. }
  rewrite Hadd, bind_Ok.
  pose proof (pow10_pos (m - ew) ltac:(lia)) as HW.
  destruct (quantize_grid w ew (b' * 10 ^ (m + 8)) (a' * 10 ^ (m + 8)))
    as (c' & Hq & Hc'); [nia | lia | |].
  { destruct (Z.le_gt_cases (-8) ew) as [Hfine | Hcoarse].
    - left. split; [exact Hfine |].
      pose proof (pow10_pos (ew + 8) ltac:(lia)) as HE.
      assert (Hsplit : 10 ^ (m + 8) = 10 ^ (m - ew) * 10 ^ (ew + 8)).
      { rewrite <- pow10_split by lia. f_equal. lia. }
      rewrite Hsplit. nia.
    - right. split; [exact Hcoarse |].
      rewrite <- !Z.mul_assoc, <- !pow10_split by lia.
      replace (m + 8 + (-8 - ew)) with (m - ew) by lia. exact Hw. }
  unfold BittrexOrder.DIGITS. rewrite Hq, bind_Ok.
  exists c'. rewrite EB, EA. split; [| exact Hc'].
  unfold gtb, ltb. rewrite compare_scaled by lia.
  change (10 ^ (-8 + 8)) with 1. rewrite Z.mul_1_r, EA.
  destruct (Z.compare_spec (a' * 10 ^ (m + 8)) c'); try reflexivity. lia.
Qed.

Lemma sell_price_of_within (b eb a ea : Z) :
  -8 <= eb -> -8 <= ea ->
  0 <= b * 10 ^ (eb + 8) <= a * 10 ^ (ea + 8) ->
  a * 10 ^ (ea + 8) < 10 ^ prec ->
  exists c',
    sell_price_of (DFin b eb) (DFin a ea) default_percent = Ok (DFin c' (-8))
    /\ b * 10 ^ (eb + 8) <= c' <= a * 10 ^ (ea + 8).
Proof.
  intros Hb He HBA HA. unfold sell_price_of.
  destruct (price_buffer_between b eb a ea Hb He HBA HA)
    as ((u & eu & Hbuf & Heu & Hu) & EB & EA & Hab & Ha').
  set (m := Z.min ea eb) in *.
  set (a' := a * 10 ^ (ea - m)) in *. set (b' := b * 10 ^ (eb - m)) in *.
  pose proof (pow10_pos (m + 8) ltac:(lia)) as HT.
  change (spread ← sub (DFin a ea) (DFin b eb);
          price_buffer ← mul spread default_percent;
          lowered ← sub (DFin a ea) price_buffer;
          sell_price ← quantize lowered BittrexOrder.DIGITS;
          below ← ltb sell_price (DFin b eb);
          Ok (if (below : bool) then DFin a ea else sell_price))
    with (price_buffer ← (spread ← sub (DFin a ea) (DFin b eb);
                          mul spread default_percent);
          lowered ← sub (DFin a ea) price_buffer;
          sell_price ← quantize lowered BittrexOrder.DIGITS;
          below ← ltb sell_price (DFin b eb);
          Ok (if (below : bool) then DFin a ea else sell_price)).
  rewrite Hbuf, bind_Ok.
  pose proof (pow10_pos (m - eu) ltac:(lia)) as HS.
  assert (Hae : a * 10 ^ (ea - eu) = a' * 10 ^ (m - eu)).
  { unfold a'. rewrite <- Z.mul_assoc, <- pow10_split by lia.
    do 2 f_equal. lia. }
  destruct (fix_between (a * 10 ^ (ea - eu) + - u * 10 ^ (eu - eu)) eu m b' a')
    as (w & ew & Hfix & Hew & Hw); [lia | lia | lia | |].
  { rewrite Z.sub_diag. change (10 ^ 0) with 1. rewrite Hae. nia. }
  assert (Hsub : sub (DFin a ea) (DFin u eu) = Ok (DFin w ew)).
  { unfold sub, neg, add. replace (Z.min ea eu) with eu by lia. rewrite Hfix.
    reflexivity. }
  rewrite Hsub, bind_Ok.
  pose proof (pow10_pos (m - ew) ltac:(lia)) as HW.
  destruct (quantize_grid w ew (b' * 10 ^ (m + 8)) (a' * 10 ^ (m + 8)))
    as (c' & Hq & Hc'); [nia | lia | |].
  { destruct (Z.le_gt_cases (-8) ew) as [Hfine | Hcoarse].
    - left. split; [exact Hfine |].
      pose proof (pow10_pos (ew + 8) ltac:(lia)) as HE.
      assert (Hsplit : 10 ^ (m + 8) = 10 ^ (m - ew) * 10 ^ (ew + 8)).
      { rewrite <- pow10_split by lia. f_equal. lia. }
      rewrite Hsplit. nia.
    - right. split; [exact Hcoarse |].
      rewrite <- !Z.mul_assoc, <- !pow10_split by lia.
      replace (m + 8 + (-8 - ew)) with (m - ew) by lia. exact Hw. }
  unfold BittrexOrder.DIGITS. rewrite Hq, bind_Ok.
  exists c'. rewrite EB, EA. split; [| exact Hc'].
  unfold ltb. rewrite compare_scaled by lia.
  change (10 ^ (-8 + 8)) with 1. rewrite Z.mul_1_r, EB.
  destruct (Z.compare_spec c' (b' * 10 ^ (m + 8))); try reflexivity. lia.
Qed.

Lemma buy_above_bid_target_price market bittrex percent s tick bid ask p :
  let r := bittrex2.get_ticker_answer bittrex (length (gateway s)) market in
  bittrex2.success r = true -> bittrex2.result r = Some tick ->
  bittrex2.Bid tick = Some bid -> bittrex2.Ask tick = Some ask ->
  buy_price_of bid ask percent = Ok p ->
  BittrexOrder.target_price
    (order (buy_above_bid market bittrex percent s).2) = PyDec p.
Proof.
  intros r Hs Hr Hb Ha Hp.
  unfold buy_above_bid, on_gateway, on_order, bittrex2.get_ticker_or_else,
    bittrex2.get_ticker, bittrex2.buy_limit, bittrex2.result_of,
    BittrexOrder.update_target_price, BittrexOrder.update_uuid,
    BittrexOrder.update_status.
  run. fold r. rewrite Hs, Hr. unfold Decimal_of_str. rewrite Hb, Ha, Hp.
  cbn [order wallet gateway].
  repeat case_match; simplify_eq; reflexivity.
Qed.

Lemma sell_below_ask_target_price market bittrex percent s tick bid ask p :
  let r := bittrex2.get_ticker_answer bittrex (length (gateway s)) market in
  bittrex2.success r = true -> bittrex2.result r = Some tick ->
  bittrex2.Bid tick = Some bid -> bittrex2.Ask tick = Some ask ->
  sell_price_of bid ask percent = Ok p ->
  BittrexOrder.target_price
    (order (sell_below_ask market bittrex percent s).2) = PyDec p.
Proof.
  intros r Hs Hr Hb Ha Hp.
  unfold sell_below_ask, on_gateway, on_order, bittrex2.get_ticker_or_else,
    bittrex2.get_ticker, bittrex2.sell_limit, bittrex2.result_of,
    BittrexOrder.update_target_price, BittrexOrder.update_uuid,
    BittrexOrder.update_status.
  run. fold r. rewrite Hs, Hr. unfold Decimal_of_str. rewrite Hb, Ha, Hp.
  cbn [order wallet gateway].
  repeat case_match; simplify_eq; reflexivity.
Qed.

(** C1, as amended: when the ticker quotes a bid and an ask that have at
    most 8 fractional digits (the quantization scale) with
    [0 <= bid <= ask < 10 ^ 20], then with the default percent of 5
    [buy_above_bid] sets the target price of the order to a price in
    [[bid, ask]], and so does [sell_below_ask]. *)
Theorem C1_target_price_within_spread
    (market : string) (bittrex : bittrex2.Bittrex) (s : State)
    (tick : bittrex2.Ticker) (bid ask : Decimal) :
  let r := bittrex2.get_ticker_answer bittrex (length (gateway s)) market in
  bittrex2.success r = true -> bittrex2.result r = Some tick ->
  bittrex2.Bid tick = Some bid -> bittrex2.Ask tick = Some ask ->
  fractional_digits_le 8 bid -> fractional_digits_le 8 ask ->
  le (of_int 0) bid -> le bid ask -> lt ask (DFin 1 20) ->
  (exists p,
      BittrexOrder.target_price
        (order (buy_above_bid market bittrex default_percent s).2) = PyDec p
      /\ le bid p /\ le p ask)
  /\ (exists p,
      BittrexOrder.target_price
        (order (sell_below_ask market bittrex default_percent s).2) = PyDec p
      /\ le bid p /\ le p ask).
Proof.
  intros r Hs Hr Hb Ha Hgb Hga H0 Hba Hmax.
  destruct bid as [b eb | |]; try contradiction.
  destruct ask as [a ea | |]; try contradiction.
  simpl in Hgb, Hga.
  unfold le, of_int in H0, Hba. unfold lt in Hmax.
  rewrite compare_scaled in H0, Hba, Hmax by lia.
  change (0 * 10 ^ (0 + 8)) with 0 in H0.
  assert (E28 : 1 * 10 ^ (20 + 8) = 10 ^ prec) by (vm_compute; reflexivity).
  rewrite E28 in Hmax. clear E28.
  assert (HB : 0 <= b * 10 ^ (eb + 8)).
  { destruct (Z.compare_spec 0 (b * 10 ^ (eb + 8))); [lia | lia | contradiction]. }
  assert (HBA : b * 10 ^ (eb + 8) <= a * 10 ^ (ea + 8)).
  { destruct (Z.compare_spec (b * 10 ^ (eb + 8)) (a * 10 ^ (ea + 8)));
      [lia | lia | contradiction]. }
  assert (HA : a * 10 ^ (ea + 8) < 10 ^ prec).
  { apply Z.compare_lt_iff. congruence. }
  assert (Hin : forall c', b * 10 ^ (eb + 8) <= c' <= a * 10 ^ (ea + 8) ->
                  le (DFin b eb) (DFin c' (-8)) /\ le (DFin c' (-8)) (DFin a ea)).
  { intros c' [Hlo Hhi]. unfold le. rewrite !compare_scaled by lia.
    change (10 ^ (-8 + 8)) with 1. rewrite Z.mul_1_r.
    split.
    - destruct (Z.compare_spec (b * 10 ^ (eb + 8)) c'); [exact I | exact I | lia].
    - destruct (Z.compare_spec c' (a * 10 ^ (ea + 8))); [exact I | exact I | lia]. }
  split.
  - destruct (buy_price_of_within b eb a ea) as (c' & Hp & Hc'); try lia.
    exists (DFin c' (-8)). split; [| apply Hin; exact Hc'].
    exact (buy_above_bid_target_price market bittrex default_percent s tick
             _ _ _ Hs Hr Hb Ha Hp).
  - destruct (sell_price_of_within b eb a ea) as (c' & Hp & Hc'); try lia.
    exists (DFin c' (-8)). split; [| apply Hin; exact Hc'].
    exact (sell_below_ask_target_price market bittrex default_percent s tick
             _ _ _ Hs Hr Hb Ha Hp).
Qed.

Lemma C1_target_price_within_spread_witness :
  (exists p,
      BittrexOrder.target_price
        (order (buy_above_bid "BTC-CLUB"
                  (Sample.quoting (DFin 1000 (-8)) (DFin 1100 (-8))
                     Sample.filled_buy)
                  default_percent
                  (Sample.start Sample.buy_order Sample.funded)).2) = PyDec p
      /\ le (DFin 1000 (-8)) p /\ le p (DFin 1100 (-8)))
  /\ (exists p,
      BittrexOrder.target_price
        (order (sell_below_ask "BTC-CLUB"
                  (Sample.quoting (DFin 1000 (-8)) (DFin 1100 (-8))
                     Sample.filled_buy)
                  default_percent
                  (Sample.start Sample.buy_order Sample.funded)).2) = PyDec p
      /\ le (DFin 1000 (-8)) p /\ le p (DFin 1100 (-8))).
Proof.
  apply (C1_target_price_within_spread "BTC-CLUB"
           (Sample.quoting (DFin 1000 (-8)) (DFin 1100 (-8)) Sample.filled_buy)
           (Sample.start Sample.buy_order Sample.funded)
           (Sample.ticker (DFin 1000 (-8)) (DFin 1100 (-8)))
           (DFin 1000 (-8)) (DFin 1100 (-8)));
    try reflexivity; try (simpl; lia); try exact I.
Defined.

(** C1 as the spec states it fails off the quantization grid: a bid and
    an ask of 0.0000000014 give the buy target price 0E-8, below the
    bid; a bid and an ask of 0.000000016 give the sell target price
    0.00000002, above the ask.  It fails as well from [10 ^ 20] on: for
    a bid and an ask of 1E+20, which are on the grid, both functions
    raise InvalidOperation from [quantize] (the price at 8 places would
    need 29 digits) and set no target price. *)
Lemma C1_counterexample :
  (let bid := DFin 14 (-10) in
   let ask := DFin 14 (-10) in
   le (of_int 0) bid /\ le bid ask
   /\ BittrexOrder.target_price
        (order (buy_above_bid "BTC-CLUB"
                  (Sample.quoting bid ask Sample.filled_buy) default_percent
                  (Sample.start Sample.buy_order Sample.funded)).2)
      = PyDec (DFin 0 (-8))
   /\ ~ le bid (DFin 0 (-8)))
  /\ (let bid := DFin 16 (-9) in
      let ask := DFin 16 (-9) in
      le (of_int 0) bid /\ le bid ask
      /\ BittrexOrder.target_price
           (order (sell_below_ask "BTC-CLUB"
                     (Sample.quoting bid ask Sample.filled_buy) default_percent
                     (Sample.start Sample.sell_order Sample.funded)).2)
         = PyDec (DFin 2 (-8))
      /\ ~ le (DFin 2 (-8)) ask)
  /\ (let bid := DFin 1 20 in
      let ask := DFin 1 20 in
      let bought :=
        buy_above_bid "BTC-CLUB"
          (Sample.quoting bid ask Sample.filled_buy) default_percent
          (Sample.start Sample.buy_order Sample.funded) in
      let sold :=
        sell_below_ask "BTC-CLUB"
          (Sample.quoting bid ask Sample.filled_buy) default_percent
          (Sample.start Sample.sell_order Sample.funded) in
      fractional_digits_le 8 bid /\ fractional_digits_le 8 ask
      /\ le (of_int 0) bid /\ le bid ask
      /\ bought.1 = Raise InvalidOperation
      /\ BittrexOrder.target_price (order bought.2)
         = BittrexOrder.target_price Sample.buy_order
      /\ sold.1 = Raise InvalidOperation
      /\ BittrexOrder.target_price (order sold.2)
         = BittrexOrder.target_price Sample.sell_order).
Proof.
  split; [| split].
  - cbv zeta. split; [exact I |]. split; [exact I |].
    split; [vm_compute; reflexivity |]. intros H; exact H.
  - cbv zeta. split; [exact I |]. split; [exact I |].
    split; [vm_compute; reflexivity |]. intros H; exact H.
  - cbv zeta. repeat split; try (vm_compute; reflexivity);
      vm_compute; intros H; discriminate H.
Qed.

(** C9, as amended: when the BTC balance of the wallet is below the base
    quantity of the order, [buy_above_bid] makes one request to the
    exchange, the ticker fetch that precedes the balance check, and
    submits no order: the wallet, the status and the identifier of the
    order stay as they were and the call does not return [True]; it
    returns [False] whenever a fetched ticker can be priced. *)
Theorem C9_short_balance_skips_after_ticker
    (market : string) (bittrex : bittrex2.Bittrex) (percent : Decimal)
    (s : State) :
  py_lt (get_quantity (wallet s) "BTC")
        (BittrexOrder.base_quantity (order s)) = Ok true ->
  let r0 := bittrex2.get_ticker_answer bittrex (length (gateway s)) market in
  let run := buy_above_bid market bittrex percent s in
  gateway run.2 = gateway s ++ [bittrex2.Ev_get_ticker market r0]
  /\ wallet run.2 = wallet s
  /\ BittrexOrder.status (order run.2) = BittrexOrder.status (order s)
  /\ BittrexOrder.uuid (order run.2) = BittrexOrder.uuid (order s)
  /\ run.1 <> Ok true
  /\ ((forall tick,
         bittrex2.success r0 = true -> bittrex2.result r0 = Some tick ->
         exists bid ask p,
           bittrex2.Bid tick = Some bid /\ bittrex2.Ask tick = Some ask
           /\ buy_price_of bid ask percent = Ok p) ->
      run.1 = Ok false).
Proof.
  intros Hshort r0 run0. subst run0.
  unfold buy_above_bid, on_gateway, on_order, bittrex2.get_ticker_or_else,
    bittrex2.get_ticker, bittrex2.buy_limit, bittrex2.result_of,
    BittrexOrder.update_target_price, BittrexOrder.update_uuid,
    BittrexOrder.update_status.
  run. fold r0.
  destruct (bittrex2.success r0) eqn:Hs; cbn;
    [| repeat split; try reflexivity; discriminate].
  destruct (bittrex2.result r0) as [tick |] eqn:Hr; cbn;
    [| repeat split; try reflexivity; discriminate].
  unfold Decimal_of_str.
  destruct (bittrex2.Bid tick) as [bid |] eqn:Hb; cbn.
  2:{ repeat split; try reflexivity; try discriminate.
      intros H. destruct (H tick eq_refl eq_refl) as (? & ? & ? & Hb' & _).
      congruence. }
  destruct (bittrex2.Ask tick) as [ask |] eqn:Ha; cbn.
  2:{ repeat split; try reflexivity; try discriminate.
      intros H. destruct (H tick eq_refl eq_refl) as (? & ? & ? & _ & Ha' & _).
      congruence. }
  destruct (buy_price_of bid ask percent) as [p | e] eqn:Hp; cbn.
  2:{ repeat split; try reflexivity; try discriminate.
      intros H. destruct (H tick eq_refl eq_refl) as (? & ? & ? & Hb' & Ha' & Hp').
      congruence. }
  rewrite Hshort. cbn.
  repeat split; try reflexivity; discriminate.
Qed.

Lemma C9_short_balance_skips_after_ticker_witness :
  let s := Sample.start Sample.buy_order ∅ in
  let bittrex :=
    Sample.quoting (DFin 1000 (-8)) (DFin 1100 (-8)) Sample.filled_buy in
  let r0 := bittrex2.get_ticker_answer bittrex (length (gateway s)) "BTC-CLUB" in
  let run := buy_above_bid "BTC-CLUB" bittrex default_percent s in
  gateway run.2 = gateway s ++ [bittrex2.Ev_get_ticker "BTC-CLUB" r0]
  /\ wallet run.2 = wallet s
  /\ BittrexOrder.status (order run.2) = BittrexOrder.status (order s)
  /\ BittrexOrder.uuid (order run.2) = BittrexOrder.uuid (order s)
  /\ run.1 <> Ok true
  /\ ((forall tick,
         bittrex2.success r0 = true -> bittrex2.result r0 = Some tick ->
         exists bid ask p,
           bittrex2.Bid tick = Some bid /\ bittrex2.Ask tick = Some ask
           /\ buy_price_of bid ask default_percent = Ok p) ->
      run.1 = Ok false).
Proof.
  apply (C9_short_balance_skips_after_ticker "BTC-CLUB"
           (Sample.quoting (DFin 1000 (-8)) (DFin 1100 (-8)) Sample.filled_buy)
           default_percent (Sample.start Sample.buy_order ∅)).
  vm_compute. reflexivity.
Defined.

(** C9 as the spec states it fails: with an empty wallet the buy is
    skipped ([False]), but not without contacting the exchange; the
    ticker has been requested. *)
Lemma C9_counterexample :
  let s := Sample.start Sample.buy_order ∅ in
  let bittrex :=
    Sample.quoting (DFin 1000 (-8)) (DFin 1100 (-8)) Sample.filled_buy in
  let run := buy_above_bid "BTC-CLUB" bittrex default_percent s in
  py_lt (get_quantity (wallet s) "BTC")
        (BittrexOrder.base_quantity (order s)) = Ok true
  /\ run.1 = Ok false
  /\ gateway s = []
  /\ gateway run.2
     = [bittrex2.Ev_get_ticker "BTC-CLUB"
          (Sample.answer (Sample.ticker (DFin 1000 (-8)) (DFin 1100 (-8))))].
Proof. vm_compute. repeat split; reflexivity. Qed.

(** C10: when the ticker is fetched and priced and the wallet holds a
    positive balance for the market, [sell_below_ask] submits one sell
    limit order, and its quantity is that balance,
    [wallet.get_quantity(market)], whatever the target quantity of the
    order is. *)
Theorem C10_sell_submits_wallet_balance
    (market : string) (bittrex : bittrex2.Bittrex) (percent : Decimal)
    (s : State) (tick : bittrex2.Ticker) (bid ask p : Decimal) :
  let r0 := bittrex2.get_ticker_answer bittrex (length (gateway s)) market in
  let balance := get_quantity (wallet s) market in
  bittrex2.success r0 = true -> bittrex2.result r0 = Some tick ->
  bittrex2.Bid tick = Some bid -> bittrex2.Ask tick = Some ask ->
  sell_price_of bid ask percent = Ok p ->
  py_gt balance (PyInt 0) = Ok true ->
  exists answer,
    gateway (sell_below_ask market bittrex percent s).2
    = gateway s ++ [ bittrex2.Ev_get_ticker market r0;
                     bittrex2.Ev_sell_limit market balance (PyDec p) answer ].
Proof.
  intros r0 balance Hs Hr Hb Ha Hp Hpos.
  apply py_gt_zero_not_eq in Hpos.
  unfold sell_below_ask, on_gateway, on_order, bittrex2.get_ticker_or_else,
    bittrex2.get_ticker, bittrex2.sell_limit, bittrex2.result_of,
    BittrexOrder.update_target_price, BittrexOrder.update_uuid,
    BittrexOrder.update_status.
  run. fold r0. rewrite Hs, Hr. unfold Decimal_of_str. rewrite Hb, Ha, Hp.
  cbn [order wallet gateway BittrexOrder.target_price
       BittrexOrder.set_target_price].
  fold balance. rewrite Hpos.
  eexists.
  repeat case_match; simplify_eq; cbn [snd gateway];
    rewrite <- app_assoc; reflexivity.
Qed.

Lemma C10_sell_submits_wallet_balance_witness :
  let s := Sample.start Sample.sell_order Sample.funded in
  exists answer,
    gateway (sell_below_ask "BTC-CLUB"
               (Sample.quoting (DFin 1000 (-8)) (DFin 1100 (-8))
                  Sample.filled_sell)
               default_percent s).2
    = gateway s
      ++ [ bittrex2.Ev_get_ticker "BTC-CLUB"
             (Sample.answer (Sample.ticker (DFin 1000 (-8)) (DFin 1100 (-8))));
           bittrex2.Ev_sell_limit "BTC-CLUB" (PyDec (DFin 1366 0))
             (PyDec (DFin 1095 (-8))) answer ].
Proof.
  apply (C10_sell_submits_wallet_balance "BTC-CLUB"
           (Sample.quoting (DFin 1000 (-8)) (DFin 1100 (-8)) Sample.filled_sell)
           default_percent (Sample.start Sample.sell_order Sample.funded)
           (Sample.ticker (DFin 1000 (-8)) (DFin 1100 (-8)))
           (DFin 1000 (-8)) (DFin 1100 (-8)) (DFin 1095 (-8)));
    vm_compute; reflexivity.
Defined.

End Pricing.

(* ===================================================================== *)
(** ** The retry loops (bittrex/bittrex2.py) *)
(* ===================================================================== *)

Section Retry.
Import bittrex2.

Variable bittrex : Bittrex.

Lemma count_app (kind : event -> bool) (l1 l2 : trace) :
  count kind (l1 ++ l2) = (count kind l1 + count kind l2)%nat.
Proof. unfold count. rewrite filter_app, length_app. reflexivity. Qed.

Lemma added_app (tr evs : trace) : added tr (tr ++ evs) = evs.
Proof.
  unfold added. rewrite skipn_app, skipn_all, Nat.sub_diag. reflexivity.
Qed.

(** When every submission is rejected, [buy_or_else] goes through its
    attempts and hands back the response it started with. *)
Lemma buy_submit_loop_rejected (market : string) (quantity rate : pynum)
    (retry : nat) :
  (forall n, success (buy_limit_answer bittrex n market quantity rate) = false) ->
  forall (n : nat) (response : WrapperResponse) (tr : trace),
  exists evs,
    buy_submit_loop bittrex market quantity rate retry n response tr
    = (Ok response, tr ++ evs)
    /\ count is_buy_limit evs = n
    /\ Forall (fun ev => is_buy_limit ev = true \/ ev = Ev_sleep 1) evs.
Proof.
  intros Hrej n. induction n as [| n IH]; intros response tr.
  - exists []. rewrite app_nil_r. repeat split. constructor.
  - cbn [buy_submit_loop]. unfold buy_limit, sleep. run.
    rewrite Hrej.
    destruct (IH response
                ((tr ++ [Ev_buy_limit market quantity rate
                           (buy_limit_answer bittrex (length tr) market
                              quantity rate)]) ++ [Ev_sleep 1]))
      as (evs & Hrun & Hcount & Hall).
    rewrite Hrun.
    exists (Ev_buy_limit market quantity rate
              (buy_limit_answer bittrex (length tr) market quantity rate)
            :: Ev_sleep 1 :: evs).
    split; [| split].
    + rewrite <- !app_assoc. reflexivity.
    + unfold count in *. cbn. rewrite Hcount. reflexivity.
    + constructor; [left; reflexivity |].
      constructor; [right; reflexivity | exact Hall].
Qed.

(** When every submission is rejected, [sell_or_else] raises at its last
    attempt. *)
Lemma sell_submit_loop_rejected (market : string) (quantity rate : pynum)
    (retry : nat) :
  (forall n, success (sell_limit_answer bittrex n market quantity rate) = false) ->
  forall (n : nat) (response : WrapperResponse) (tr : trace),
  (1 <= n <= retry)%nat ->
  exists evs,
    sell_submit_loop bittrex market quantity rate retry n response tr
    = (Raise RuntimeError, tr ++ evs)
    /\ count is_sell_limit evs = n
    /\ Forall (fun ev => is_sell_limit ev = true \/ ev = Ev_sleep 1) evs.
Proof.
  intros Hrej n. induction n as [| n IH]; intros response tr Hn; [lia |].
  cbn [sell_submit_loop]. unfold sell_limit, sleep. run.
  rewrite Hrej.
  destruct (Nat.eqb_spec (retry - S n) (retry - 1)) as [Hlast | Hmore].
  - assert (n = O) by lia. subst n.
    exists [Ev_sell_limit market quantity rate
              (sell_limit_answer bittrex (length tr) market quantity rate)].
    repeat split. constructor; [left; reflexivity | constructor].
  - assert (Hn' : (1 <= n <= retry)%nat) by lia.
    destruct (IH response
                ((tr ++ [Ev_sell_limit market quantity rate
                           (sell_limit_answer bittrex (length tr) market
                              quantity rate)]) ++ [Ev_sleep 1]) Hn')
      as (evs & Hrun & Hcount & Hall).
    rewrite Hrun.
    exists (Ev_sell_limit market quantity rate
              (sell_limit_answer bittrex (length tr) market quantity rate)
            :: Ev_sleep 1 :: evs).
    split; [| split].
    + rewrite <- !app_assoc. reflexivity.
    + unfold count in *. cbn. rewrite Hcount. reflexivity.
    + constructor; [left; reflexivity |].
      constructor; [right; reflexivity | exact Hall].
Qed.

End Retry.

Section SubmissionExhausted.
Import bittrex2 manager_helper.

(** A submission that the exchange rejects leaves the status of the
    order as it was, and the call does not return [True]. *)
Lemma buy_above_bid_rejected (market : string) (bittrex : Bittrex)
    (percent : Decimal) (s : State) :
  (forall n m q r, success (buy_limit_answer bittrex n m q r) = false) ->
  BittrexOrder.status (order (buy_above_bid market bittrex percent s).2)
  = BittrexOrder.status (order s)
  /\ (buy_above_bid market bittrex percent s).1 <> Ok true.
Proof.
  intros Hrej.
  unfold buy_above_bid, on_gateway, on_order, get_ticker_or_else,
    get_ticker, buy_limit, result_of,
    BittrexOrder.update_target_price, BittrexOrder.update_uuid,
    BittrexOrder.update_status.
  run.
  repeat (case_match; simplify_eq; cbn in *; try rewrite Hrej in *);
    split; try reflexivity; try discriminate.
Qed.

Lemma sell_below_ask_rejected (market : string) (bittrex : Bittrex)
    (percent : Decimal) (s : State) :
  (forall n m q r, success (sell_limit_answer bittrex n m q r) = false) ->
  BittrexOrder.status (order (sell_below_ask market bittrex percent s).2)
  = BittrexOrder.status (order s)
  /\ (sell_below_ask market bittrex percent s).1 <> Ok true.
Proof.
  intros Hrej.
  unfold sell_below_ask, on_gateway, on_order, get_ticker_or_else,
    get_ticker, sell_limit, result_of,
    BittrexOrder.update_target_price, BittrexOrder.update_uuid,
    BittrexOrder.update_status.
  run.
  repeat (case_match; simplify_eq; cbn in *; try rewrite Hrej in *);
    split; try reflexivity; try discriminate.
Qed.

(** C3, as amended: when the exchange rejects every submission,
    [buy_or_else] makes its [retry] attempts, nothing else but the
    sleeps between them, and returns the failure response
    [{'success': False, 'result': {}}]; [sell_or_else] makes the same
    number of attempts and, for [retry >= 1], raises RuntimeError at the
    last one.  Neither wrapper is handed an Order; in manager_helper a
    rejected submission makes [buy_above_bid] and [sell_below_ask]
    return without [True] and with the status of the order as it was. *)
Theorem C3_submission_exhausted
    (bittrex : Bittrex) (market : string) (quantity rate : pynum)
    (retry : nat) (tr : trace) (percent : Decimal) (s : State) :
  (forall n m q r, success (buy_limit_answer bittrex n m q r) = false) ->
  (forall n m q r, success (sell_limit_answer bittrex n m q r) = false) ->
  let buy := buy_or_else bittrex market quantity rate retry tr in
  let sell := sell_or_else bittrex market quantity rate retry tr in
  let attempt_or_sleep kind :=
    fun ev : event => kind ev = true \/ ev = Ev_sleep 1 in
  (buy.1 = Ok initial_response
   /\ buy.2 = tr ++ added tr buy.2
   /\ count is_buy_limit (added tr buy.2) = retry
   /\ Forall (attempt_or_sleep is_buy_limit) (added tr buy.2))
  /\ (sell.1 = match retry with
               | O => Ok initial_response
               | S _ => Raise RuntimeError
               end
      /\ sell.2 = tr ++ added tr sell.2
      /\ count is_sell_limit (added tr sell.2) = retry
      /\ Forall (attempt_or_sleep is_sell_limit) (added tr sell.2))
  /\ (BittrexOrder.status (order (buy_above_bid market bittrex percent s).2)
      = BittrexOrder.status (order s)
      /\ (buy_above_bid market bittrex percent s).1 <> Ok true)
  /\ (BittrexOrder.status (order (sell_below_ask market bittrex percent s).2)
      = BittrexOrder.status (order s)
      /\ (sell_below_ask market bittrex percent s).1 <> Ok true).
Proof.
  intros Hbuy Hsell buy sell attempt_or_sleep.
  split; [| split; [| split]].
  - destruct (buy_submit_loop_rejected bittrex market quantity rate retry
                (fun n => Hbuy n market quantity rate)
                retry initial_response tr) as (evs & Hrun & Hcount & Hall).
    subst buy. unfold buy_or_else. rewrite Hrun. cbn [fst snd].
    rewrite added_app. auto.
  - subst sell. unfold sell_or_else. destruct retry as [| k].
    + cbn. unfold added. rewrite skipn_all. rewrite app_nil_r.
      repeat split. constructor.
    + destruct (sell_submit_loop_rejected bittrex market quantity rate (S k)
                  (fun n => Hsell n market quantity rate)
                  (S k) initial_response tr ltac:(lia))
        as (evs & Hrun & Hcount & Hall).
      rewrite Hrun. cbn [fst snd]. rewrite added_app. auto.
  - apply buy_above_bid_rejected. exact Hbuy.
  - apply sell_below_ask_rejected. exact Hsell.
Qed.

Lemma C3_submission_exhausted_witness :
  let bittrex := Sample.rejecting (DFin 1000 (-8)) (DFin 1100 (-8)) in
  let rate := PyDec (DFin 1005 (-8)) in
  let s := Sample.start Sample.buy_order Sample.funded in
  let buy := buy_or_else bittrex "BTC-CLUB" (PyInt 5) rate 3 [] in
  let sell := sell_or_else bittrex "BTC-CLUB" (PyInt 5) rate 3 [] in
  let attempt_or_sleep kind :=
    fun ev : event => kind ev = true \/ ev = Ev_sleep 1 in
  (buy.1 = Ok initial_response
   /\ buy.2 = [] ++ added [] buy.2
   /\ count is_buy_limit (added [] buy.2) = 3%nat
   /\ Forall (attempt_or_sleep is_buy_limit) (added [] buy.2))
  /\ (sell.1 = Raise RuntimeError
      /\ sell.2 = [] ++ added [] sell.2
      /\ count is_sell_limit (added [] sell.2) = 3%nat
      /\ Forall (attempt_or_sleep is_sell_limit) (added [] sell.2))
  /\ (BittrexOrder.status
        (order (buy_above_bid "BTC-CLUB" bittrex default_percent s).2)
      = BittrexOrder.status (order s)
      /\ (buy_above_bid "BTC-CLUB" bittrex default_percent s).1 <> Ok true)
  /\ (BittrexOrder.status
        (order (sell_below_ask "BTC-CLUB" bittrex default_percent s).2)
      = BittrexOrder.status (order s)
      /\ (sell_below_ask "BTC-CLUB" bittrex default_percent s).1 <> Ok true).
Proof.
  apply (C3_submission_exhausted
           (Sample.rejecting (DFin 1000 (-8)) (DFin 1100 (-8)))
           "BTC-CLUB" (PyInt 5) (PyDec (DFin 1005 (-8))) 3 []
           default_percent (Sample.start Sample.buy_order Sample.funded));
    reflexivity.
Defined.

(** C3 as the spec states it fails for the sell: with three rejected
    submissions [sell_or_else] does not return a failure response, it
    raises RuntimeError. *)
Lemma C3_counterexample :
  let bittrex := Sample.rejecting (DFin 1000 (-8)) (DFin 1100 (-8)) in
  let rate := PyDec (DFin 1095 (-8)) in
  let sell := sell_or_else bittrex "BTC-CLUB" (PyInt 5) rate 3 [] in
  Forall (fun ev => match ev with
                    | Ev_sell_limit _ _ _ r => success r = false
                    | _ => True
                    end) sell.2
  /\ count is_sell_limit sell.2 = 3%nat
  /\ sell.1 = Raise RuntimeError.
Proof.
  vm_compute. split; [| split; reflexivity].
  repeat constructor.
Qed.

End SubmissionExhausted.

(* ===================================================================== *)
(** ** Cancellation of a partly filled buy (bittrex/bittrex2.py) *)
(* ===================================================================== *)

Section Cancellation.
Import bittrex2.

Variable bittrex : Bittrex.
Variable retry : nat.

(** The cancel loop adds cancellations of the one order and sleeps; it
    makes at least one attempt and at most as many as it has turns. *)
Lemma buy_cancel_loop_shape (uuid : option string) :
  forall (n : nat) (response : WrapperResponse) (tr : trace),
  (n <= retry)%nat ->
  exists evs,
    (buy_cancel_loop bittrex uuid retry n response tr).2 = tr ++ evs
    /\ Forall (fun ev => (exists c, ev = Ev_cancel uuid c) \/ ev = Ev_sleep 1) evs
    /\ (count is_cancel evs <= n)%nat
    /\ (1 <= n -> 1 <= count is_cancel evs)%nat.
Proof.
  induction n as [| n IH]; intros response tr Hn.
  - exists []. cbn. rewrite app_nil_r. repeat split; [constructor | lia | lia].
  - cbn [buy_cancel_loop]. unfold cancel, sleep. run.
    set (c := cancel_answer bittrex (length tr) uuid).
    destruct (success c).
    + exists [Ev_cancel uuid c]. cbn. repeat split; try lia.
      constructor; [left; eauto | constructor].
    + destruct (Nat.eqb (retry - S n) (retry - 1)).
      * exists [Ev_cancel uuid c]. cbn. repeat split; try lia.
        constructor; [left; eauto | constructor].
      * destruct (IH response ((tr ++ [Ev_cancel uuid c]) ++ [Ev_sleep 1])
                    ltac:(lia)) as (evs & Hrun & Hall & Hle & Hge).
        rewrite Hrun. exists (Ev_cancel uuid c :: Ev_sleep 1 :: evs).
        split; [rewrite <- !app_assoc; reflexivity |].
        split; [constructor; [left; eauto |];
                constructor; [right; reflexivity | exact Hall] |].
        unfold count in *. cbn. lia.
Qed.

Lemma cancel_or_sleep_In_cancel (uuid u : option string) (c : Response unit)
    (evs : trace) :
  Forall (fun ev => (exists c, ev = Ev_cancel uuid c) \/ ev = Ev_sleep 1) evs ->
  In (Ev_cancel u c) evs -> u = uuid.
Proof.
  intros Hall Hin. rewrite Forall_forall in Hall.
  destruct (Hall _ Hin) as [[c' Heq] | Heq]; congruence.
Qed.

Lemma cancel_or_sleep_no_get_order (uuid u : option string)
    (rp : Response BittrexOrder.OrderData) (evs : trace) :
  Forall (fun ev => (exists c, ev = Ev_cancel uuid c) \/ ev = Ev_sleep 1) evs ->
  ~ In (Ev_get_order u rp) evs.
Proof.
  intros Hall Hin. rewrite Forall_forall in Hall.
  destruct (Hall _ Hin) as [[c' Heq] | Heq]; discriminate.
Qed.

(** What the poll loop adds: polls of the one order, among which a
    confirmed one is followed by cancellations exactly when it reports a
    remainder above zero. *)
Lemma buy_poll_loop_shape (uuid : option string) :
  forall (n : nat) (response : WrapperResponse) (tr : trace),
  (n <= retry)%nat ->
  exists evs,
    (buy_poll_loop bittrex uuid retry n response tr).2 = tr ++ evs
    /\ (count is_cancel evs <= retry)%nat
    /\ (forall u c, In (Ev_cancel u c) evs -> u = uuid)
    /\ (forall u rp d,
          In (Ev_get_order u rp) evs ->
          success rp = true -> result rp = Some d ->
          u = uuid
          /\ (py_gt (BittrexOrder.QuantityRemaining d) (PyInt 0) = Ok true
              <-> (0 < count is_cancel evs)%nat)).
Proof.
  induction n as [| n IH]; intros response tr Hn.
  - exists []. cbn. rewrite app_nil_r.
    repeat split; try lia; intros; contradiction.
  - cbn [buy_poll_loop]. unfold get_order, sleep, result_of. run.
    cbn [wr_result wr_success].
    set (r := get_order_answer bittrex (length tr) uuid).
    destruct (success r) eqn:Hs.
    + destruct (result r) as [d |] eqn:Hr.
      * destruct (py_gt (BittrexOrder.QuantityRemaining d) (PyInt 0))
          as [[] | e] eqn:Hgt.
        -- destruct (buy_cancel_loop_shape uuid retry
                       {| wr_success := false; wr_result := Some (Some d) |}
                       (tr ++ [Ev_get_order uuid r]) ltac:(lia))
             as (evs & Hrun & Hall & Hle & Hge).
           rewrite Hrun. exists (Ev_get_order uuid r :: evs).
           split; [rewrite <- app_assoc; reflexivity |].
           assert (Hcount : count is_cancel (Ev_get_order uuid r :: evs)
                            = count is_cancel evs) by reflexivity.
           rewrite Hcount.
           split; [exact Hle |]. split.
           ++ intros u c [Heq | Hin]; [discriminate |].
              eapply cancel_or_sleep_In_cancel; eassumption.
           ++ intros u rp d' [Heq | Hin] Hs' Hr'.
              ** injection Heq as <- <-. split; [reflexivity |].
                 assert (d' = d) by congruence. subst d'.
                 split; intros _; [lia | exact Hgt].
              ** exfalso. eapply cancel_or_sleep_no_get_order; eassumption.
        -- exists [Ev_get_order uuid r]. cbn.
           split; [reflexivity |]. split; [lia |]. split.
           ++ intros u c [Heq | []]. discriminate.
           ++ intros u rp d' [Heq | []] Hs' Hr'.
              injection Heq as <- <-. split; [reflexivity |].
              assert (d' = d) by congruence. subst d'.
              rewrite Hgt. split; [discriminate | lia].
        -- exists [Ev_get_order uuid r]. cbn.
           split; [reflexivity |]. split; [lia |]. split.
           ++ intros u c [Heq | []]. discriminate.
           ++ intros u rp d' [Heq | []] Hs' Hr'.
              injection Heq as <- <-. split; [reflexivity |].
              assert (d' = d) by congruence. subst d'.
              rewrite Hgt. split; [discriminate | lia].
      * exists [Ev_get_order uuid r]. cbn.
        split; [reflexivity |]. split; [lia |]. split.
        -- intros u c [Heq | []]. discriminate.
        -- intros u rp d' [Heq | []] Hs' Hr'.
           injection Heq as <- <-. congruence.
    + destruct (Nat.eqb (retry - S n) (retry - 1)).
      * exists [Ev_get_order uuid r]. cbn.
        split; [reflexivity |]. split; [lia |]. split.
        -- intros u c [Heq | []]. discriminate.
        -- intros u rp d' [Heq | []] Hs' Hr'.
           injection Heq as <- <-. congruence.
      * destruct (IH response ((tr ++ [Ev_get_order uuid r]) ++ [Ev_sleep 1])
                    ltac:(lia)) as (evs & Hrun & Hle & Hcan & Hpoll).
        rewrite Hrun. exists (Ev_get_order uuid r :: Ev_sleep 1 :: evs).
        split; [rewrite <- !app_assoc; reflexivity |].
        assert (Hcount : count is_cancel
                           (Ev_get_order uuid r :: Ev_sleep 1 :: evs)
                         = count is_cancel evs) by reflexivity.
        rewrite Hcount.
        split; [exact Hle |]. split.
        -- intros u c [Heq | [Heq | Hin]]; try discriminate. eauto.
        -- intros u rp d' [Heq | [Heq | Hin]] Hs' Hr'; try discriminate.
           ++ injection Heq as <- <-. congruence.
           ++ eauto.
Qed.

(** What [buy_or_else] adds to the trace. *)
Lemma buy_submit_loop_shape (market : string) (quantity rate : pynum) :
  forall (n : nat) (response : WrapperResponse) (tr : trace),
  exists evs,
    (buy_submit_loop bittrex market quantity rate retry n response tr).2
    = tr ++ evs
    /\ (count is_cancel evs <= retry)%nat
    /\ (forall u rp d,
          In (Ev_get_order u rp) evs ->
          success rp = true -> result rp = Some d ->
          (py_gt (BittrexOrder.QuantityRemaining d) (PyInt 0) = Ok true
           <-> (0 < count is_cancel evs)%nat)
          /\ (forall u' c, In (Ev_cancel u' c) evs -> u' = u)).
Proof.
  induction n as [| n IH]; intros response tr.
  - exists []. cbn. rewrite app_nil_r.
    repeat split; try lia; intros; contradiction.
  - cbn [buy_submit_loop]. unfold buy_limit, sleep, result_of. run.
    set (r := buy_limit_answer bittrex (length tr) market quantity rate).
    set (e1 := Ev_buy_limit market quantity rate r).
    destruct (success r).
    + destruct (result r) as [submitted |].
      * destruct (buy_poll_loop_shape (submitted_uuid submitted) retry response
                    ((tr ++ [e1]) ++ [Ev_sleep 3]) ltac:(lia))
          as (evs & Hrun & Hle & Hcan & Hpoll).
        rewrite Hrun. exists (e1 :: Ev_sleep 3 :: evs).
        split; [rewrite <- !app_assoc; reflexivity |].
        assert (Hcount : count is_cancel (e1 :: Ev_sleep 3 :: evs)
                         = count is_cancel evs) by reflexivity.
        rewrite Hcount. split; [exact Hle |].
        intros u rp d [Heq | [Heq | Hin]] Hs Hr; try discriminate.
        destruct (Hpoll u rp d Hin Hs Hr) as [-> Hiff].
        split; [exact Hiff |].
        intros u' c [Heq | [Heq | Hin']]; try discriminate. eauto.
      * exists [e1]. cbn. split; [reflexivity |]. split; [lia |].
        intros u rp d [Heq | []]. discriminate.
    + destruct (IH response ((tr ++ [e1]) ++ [Ev_sleep 1]))
        as (evs & Hrun & Hle & Hpoll).
      rewrite Hrun. exists (e1 :: Ev_sleep 1 :: evs).
      split; [rewrite <- !app_assoc; reflexivity |].
      assert (Hcount : count is_cancel (e1 :: Ev_sleep 1 :: evs)
                       = count is_cancel evs) by reflexivity.
      rewrite Hcount. split; [exact Hle |].
      intros u rp d [Heq | [Heq | Hin]] Hs Hr; try discriminate.
      destruct (Hpoll u rp d Hin Hs Hr) as [Hiff Hcan].
      split; [exact Hiff |].
      intros u' c [Heq | [Heq | Hin']]; try discriminate. eauto.
Qed.

End Cancellation.

Section CancellationClaim.
Import bittrex2.

(** C4: in a run of [buy_or_else], for the order whose status poll
    succeeded (which presupposes that its submission did), a
    cancellation is requested if and only if the confirmed response
    reports a remaining quantity above zero; the run holds at most
    [retry] cancellation attempts, all of them for that order. *)
Theorem C4_cancel_iff_remainder
    (bittrex : Bittrex) (market : string) (quantity rate : pynum)
    (retry : nat) (tr : trace)
    (uuid : option string) (rp : Response BittrexOrder.OrderData)
    (d : BittrexOrder.OrderData) :
  let run := buy_or_else bittrex market quantity rate retry tr in
  let evs := added tr run.2 in
  In (Ev_get_order uuid rp) evs ->
  success rp = true -> result rp = Some d ->
  (py_gt (BittrexOrder.QuantityRemaining d) (PyInt 0) = Ok true
   <-> (0 < count is_cancel evs)%nat)
  /\ (count is_cancel evs <= retry)%nat
  /\ (forall u c, In (Ev_cancel u c) evs -> u = uuid).
Proof.
  intros run evs. subst evs run. unfold buy_or_else.
  destruct (buy_submit_loop_shape bittrex retry market quantity rate retry
              initial_response tr) as (evs & Hrun & Hle & Hpoll).
  rewrite Hrun, added_app. intros Hin Hs Hr.
  destruct (Hpoll uuid rp d Hin Hs Hr) as [Hiff Hcan].
  split; [exact Hiff |]. split; [exact Hle | exact Hcan].
Qed.

Lemma C4_cancel_iff_remainder_witness :
  let bittrex :=
    Sample.quoting (DFin 1000 (-8)) (DFin 1100 (-8)) Sample.partial_buy in
  let run :=
    buy_or_else bittrex "BTC-CLUB" (PyInt 1366) (PyDec (DFin 1005 (-8))) 3 [] in
  let evs := added [] run.2 in
  (py_gt (BittrexOrder.QuantityRemaining Sample.partial_buy) (PyInt 0) = Ok true
   <-> (0 < count is_cancel evs)%nat)
  /\ (count is_cancel evs <= 3)%nat
  /\ (forall u c, In (Ev_cancel u c) evs -> u = Some "u1"%string).
Proof.
  apply (C4_cancel_iff_remainder
           (Sample.quoting (DFin 1000 (-8)) (DFin 1100 (-8)) Sample.partial_buy)
           "BTC-CLUB" (PyInt 1366) (PyDec (DFin 1005 (-8))) 3 []
           (Some "u1"%string) (Sample.answer Sample.partial_buy)
           Sample.partial_buy);
    [vm_compute; right; right; left; reflexivity | reflexivity | reflexivity].
Defined.

End CancellationClaim.

(* ===================================================================== *)
(** ** The merge of a page into the working list (run_crocket.py) *)
(* ===================================================================== *)

Section Merge.
Import bittrex2 run_crocket.

Lemma list_index_head (x : Z) (l : list Z) : list_index x (x :: l) = Some O.
Proof. simpl. rewrite Z.eqb_refl. reflexivity. Qed.

(** A page that has been seen changes nothing. *)
Lemma merge_seen (working_list page : list Entry) :
  page_seen working_list page -> merge working_list page = Ok working_list.
Proof.
  destruct working_list as [| w rest]; [contradiction |].
  destruct page as [| y page']; intros Hseen; simpl in Hseen.
  - reflexivity.
  - unfold merge, merge_found. cbn [map]. rewrite Hseen, list_index_head.
    reflexivity.
Qed.

(** After a merge the page has been seen, and pruning the older end of
    the working list does not change that. *)
Lemma merge_makes_seen (working_list page merged : list Entry) (k : nat) :
  merge working_list page = Ok merged ->
  page_seen (firstn (S k) merged) page.
Proof.
  unfold merge, merge_found, merge_gap.
  destruct working_list as [| w rest]; [discriminate |].
  destruct page as [| y page']; cbn [map list_index].
  - intros [= <-]. exact I.
  - destruct (Z.eqb_spec (Id w) (Id y)) as [Heq | Hne].
    + intros [= <-]. exact Heq.
    + destruct (list_index (Id w) (map Id page')) as [i |]; cbn.
      * intros [= <-]. reflexivity.
      * intros [= <-]. reflexivity.
Qed.

Lemma firstn_all_S {A : Type} (l : list A) : firstn (S (length l)) l = l.
Proof. apply firstn_all2. lia. Qed.

(** Merging the same page again gives the same working list. *)
Lemma merge_idempotent (working_list page merged : list Entry) :
  merge working_list page = Ok merged -> merge merged page = Ok merged.
Proof.
  intros H. apply merge_seen.
  rewrite <- (firstn_all_S merged). eapply merge_makes_seen. exact H.
Qed.

(** The same after the older entries have been pruned, as long as one
    entry is kept. *)
Lemma merge_idempotent_after_pruning
    (working_list page merged : list Entry) (k : nat) :
  merge working_list page = Ok merged ->
  merge (firstn (S k) merged) page = Ok (firstn (S k) merged).
Proof. intros H. apply merge_seen. eapply merge_makes_seen. exact H. Qed.

Lemma merge_repeatedly_seen (n : nat) (working_list page : list Entry) :
  merge working_list page = Ok working_list ->
  merge_repeatedly n working_list page = Ok working_list.
Proof.
  intros H. induction n as [| n IH]; [reflexivity |].
  cbn [merge_repeatedly]. rewrite H. exact IH.
Qed.

(** C5: let the working list [merged] be what the merge of a page left,
    with no duplicate identifiers and newest first.  Merging the same,
    unchanged page again adds no entry, and after any number [n] of such
    merges the working list is still [merged], so still without
    duplicate identifiers and newest first. *)
Theorem C5_merge_same_page_idempotent
    (working_list page merged : list Entry) (n : nat) :
  merge working_list page = Ok merged ->
  no_duplicate_ids merged -> newest_first merged ->
  merge merged page = Ok merged
  /\ exists again,
       merge_repeatedly n merged page = Ok again
       /\ length again = length merged
       /\ again = merged
       /\ no_duplicate_ids again /\ newest_first again.
Proof.
  intros Hmerge Hnodup Hsorted.
  pose proof (merge_idempotent _ _ _ Hmerge) as Hidem.
  split; [exact Hidem |].
  exists merged. split; [apply merge_repeatedly_seen; exact Hidem |].
  repeat split; assumption.
Qed.

Lemma C5_merge_same_page_idempotent_witness :
  let merged := [Sample.trade3; Sample.trade2; Sample.trade1] in
  let page := [Sample.trade3; Sample.trade2; Sample.trade1] in
  merge merged page = Ok merged
  /\ exists again,
       merge_repeatedly 4 merged page = Ok again
       /\ length again = length merged
       /\ again = merged
       /\ no_duplicate_ids again /\ newest_first again.
Proof.
  apply (C5_merge_same_page_idempotent
           [Sample.trade2; Sample.trade1]
           [Sample.trade3; Sample.trade2; Sample.trade1]
           [Sample.trade3; Sample.trade2; Sample.trade1] 4).
  - reflexivity.
  - unfold no_duplicate_ids. simpl. repeat constructor; simpl; intuition lia.
  - unfold newest_first. repeat constructor; simpl; lia.
Defined.

Lemma list_index_In (x : Z) (l : list Z) (i : nat) :
  list_index x l = Some i -> In x l.
Proof.
  revert i. induction l as [| y l IH]; intros i; simpl; [discriminate |].
  destruct (Z.eqb_spec x y) as [-> | Hne]; [auto |].
  destruct (list_index x l) as [j |]; [| discriminate].
  intros _. right. eapply IH. reflexivity.
Qed.

Lemma firstn_In {A : Type} (x : A) (n : nat) (l : list A) :
  In x (firstn n l) -> In x l.
Proof.
  revert l. induction n as [| n IH]; intros [| y l]; simpl; try tauto.
  intros [-> | Hin]; [left; reflexivity | right; apply IH; exact Hin].
Qed.

(** In the ordinary case, where the newest known identifier is found in
    a page that is itself newest first, the merge keeps the order. *)
Lemma merge_found_keeps_order (w : Entry) (rest page : list Entry) (i : nat) :
  newest_first (w :: rest) -> newest_first page ->
  list_index (Id w) (map Id page) = Some i ->
  newest_first (firstn i page ++ w :: rest).
Proof.
  intros Hwl. revert i.
  induction page as [| y page' IH]; intros i Hpage; simpl; [discriminate |].
  destruct (Z.eqb_spec (Id w) (Id y)) as [Heq | Hne].
  - intros [= <-]. exact Hwl.
  - destruct (list_index (Id w) (map Id page')) as [j |] eqn:Hj; [| discriminate].
    intros [= <-]. cbn [firstn app].
    apply StronglySorted_inv in Hpage. destruct Hpage as [Hpage' Hy].
    constructor; [apply IH; [exact Hpage' | reflexivity] |].
    rewrite Forall_forall in Hy.
    assert (Hw : Id w < Id y).
    { apply list_index_In in Hj. apply in_map_iff in Hj.
      destruct Hj as (z & Hz & Hin). rewrite <- Hz. apply Hy. exact Hin. }
    apply Forall_app. split.
    + apply Forall_forall. intros z Hz. apply Hy.
      eapply firstn_In. exact Hz.
    + apply StronglySorted_inv in Hwl. destruct Hwl as [_ Hrest].
      constructor; [exact Hw |].
      eapply Forall_impl; [| exact Hrest]. simpl. intros; lia.
Qed.

(** A list that is newest first has no duplicate identifiers. *)
Lemma newest_first_no_duplicate_ids (l : list Entry) :
  newest_first l -> no_duplicate_ids l.
Proof.
  unfold newest_first, no_duplicate_ids.
  induction 1 as [| x l Hsorted IH Hall]; simpl; constructor; [| exact IH].
  rewrite in_map_iff. intros (y & Hy & Hin).
  rewrite Forall_forall in Hall. specialize (Hall y Hin). lia.
Qed.

End Merge.

(* ===================================================================== *)
(** ** Interval metrics (run_crocket.py) *)
(* ===================================================================== *)

Section Metrics.
Import bittrex2 run_crocket.

(** C6, as amended: for the tape of three entries with [Price] 100, 102,
    98, [Total] 1, 2, 1 and sides BUY, SELL, BUY, whatever their
    [Quantity] fields hold, [calculate_metrics] returns volume 4, buy
    count 2, sell count 1, mean price 100.00000000 and volume-weighted
    price 100.50000000: the volume is the sum of the [Total] fields and
    the weights of the weighted price are the [Total] fields. *)
Theorem C6_metrics_of_known_tape (q1 q2 q3 : pynum) (start : datetime) :
  calculate_metrics (Sample.tape_with_totals q1 q2 q3) (TimeStr (Some start)) 8
  = Ok {| volume := PyInt 4; buy_order := 2; sell_order := 1;
          price := PyDec (DFin 10000000000 (-8));
          price_volume_weighted := PyDec (DFin 10050000000 (-8));
          time := format_time start |}.
Proof. reflexivity. Qed.

(** C6 as the spec states it fails: with quantities 1, 2, 1 and the
    totals the exchange reports for them (price times quantity: 100,
    204, 98) the volume is 402, not 4, and the weighted price is
    100.52736318, not 100.50. *)
Lemma C6_counterexample :
  map Quantity Sample.tape = [PyInt 1; PyInt 2; PyInt 1]
  /\ map Price Sample.tape = [PyInt 100; PyInt 102; PyInt 98]
  /\ map OrderType Sample.tape = ["BUY"; "SELL"; "BUY"]%string
  /\ calculate_metrics Sample.tape (TimeStr (Some 0)) 8
     = Ok {| volume := PyInt 402; buy_order := 2; sell_order := 1;
             price := PyDec (DFin 10000000000 (-8));
             price_volume_weighted := PyDec (DFin 10052736318 (-8));
             time := 0 |}.
Proof. repeat split; vm_compute; reflexivity. Qed.

(** C7: for the empty list [calculate_metrics] returns volume 0, buy
    count 0, sell count 0 and the int 0 in both price fields, for every
    [digits] whose power of ten the decimal context can hold (above
    -1000000; the default is 8); whatever the start is, the call raises
    neither of the two errors of a Decimal division (DivisionByZero, and
    InvalidOperation for 0/0). *)
Theorem C7_metrics_of_empty_list (start : datetime) (digits : Z) :
  -1000000 < digits ->
  calculate_metrics [] (TimeStr (Some start)) digits
  = Ok {| volume := PyInt 0; buy_order := 0; sell_order := 0;
          price := PyInt 0; price_volume_weighted := PyInt 0;
          time := format_time start |}
  /\ forall start_datetime : timearg,
       calculate_metrics [] start_datetime digits <> Raise DivisionByZero
       /\ calculate_metrics [] start_datetime digits <> Raise InvalidOperation.
Proof.
  intros Hdigits. unfold calculate_metrics.
  destruct (ten_to_the_written (digits * -1) ltac:(lia)) as (c & e & ->).
  split; [reflexivity |].
  intros [[d |] | d |]; split; discriminate.
Qed.

Lemma C7_metrics_of_empty_list_witness :
  calculate_metrics [] (TimeStr (Some 0)) 8
  = Ok {| volume := PyInt 0; buy_order := 0; sell_order := 0;
          price := PyInt 0; price_volume_weighted := PyInt 0;
          time := format_time 0 |}
  /\ forall start_datetime : timearg,
       calculate_metrics [] start_datetime 8 <> Raise DivisionByZero
       /\ calculate_metrics [] start_datetime 8 <> Raise InvalidOperation.
Proof. apply (C7_metrics_of_empty_list 0 8). lia. Defined.

(** Handed a [datetime] object, as the polling loop does,
    [calculate_metrics] raises TypeError. *)
Lemma calculate_metrics_of_datetime (data : list Entry) (d : datetime) :
  calculate_metrics data (TimeObj d) 8 = Raise TypeError.
Proof. reflexivity. Qed.

End Metrics.

(* ===================================================================== *)
(** ** The polling loop in a quiet interval (run_crocket.py) *)
(* ===================================================================== *)

Section QuietInterval.
Import bittrex2 run_crocket.

(** C8, what the code does instead: take a poll whose page meets the
    working list and whose newest entry has not crossed the end of the
    interval.  With the counter at most 2 the counter is incremented,
    but the turn goes on to [db.insert_query]: when [metrics] is bound
    (to the metrics of an earlier interval) that row is inserted once
    more, and when it is not bound yet the turn ends in NameError.  With
    the counter above 2 no zero-activity metrics are produced:
    [calculate_metrics] is handed the [datetime] object
    [current_datetime] and raises TypeError, which nothing catches. *)
Theorem C8_quiet_turn_of_the_loop
    (bittrex : Bittrex) (s : Loop) (index : nat) (merged : list Entry)
    (newest : Entry) (latest : datetime) :
  let response :=
    get_market_history_answer bittrex (length (gateway s)) market in
  merge_found (working_list s) (result response) = Ok (index, merged) ->
  first_entry merged = Ok newest ->
  convert_bittrex_timestamp_to_datetime (TimeStamp newest) = Ok latest ->
  latest - current_datetime s <= seconds interval ->
  let turn := loop_body bittrex s in
  (constant s <= 2 ->
   constant turn.2 = constant s + 1
   /\ match metrics s with
      | Some m =>
          turn.1 = Ok tt
          /\ db turn.2 = db s ++ [(market, format_bittrex_entry m)]
      | None => turn.1 = Raise NameError /\ db turn.2 = db s
      end)
  /\ (2 < constant s ->
      forall start stop,
        get_interval_index merged (current_datetime s) interval
        = Ok (start, stop) ->
        turn.1 = Raise TypeError
        /\ db turn.2 = db s /\ metrics turn.2 = metrics s).
Proof.
  intros response Hmerge Hfirst Hconv Hquiet turn. subst turn.
  unfold loop_body, poll_and_summarise, on_gap, read_metrics, insert_query,
    on_gateway, get_market_history, sleep.
  run. fold response.
  cbn [working_list market_history set_market_history set_working_list].
  rewrite Hmerge.
  cbn [working_list market_history set_market_history set_working_list
       current_datetime constant].
  rewrite Hfirst, Hconv.
  destruct (Z.ltb_spec (seconds interval) (latest - current_datetime s))
    as [Hcrossed | _]; [lia |].
  split.
  - intros Hlow.
    destruct (Z.ltb_spec 2 (constant s)) as [Hhigh | _]; [lia |].
    destruct (Z.of_nat index <? 30); cbn;
      (destruct (metrics s) as [m |]; cbn; repeat split; reflexivity).
  - intros Hhigh start stop Hidx.
    destruct (Z.ltb_spec 2 (constant s)) as [_ | Hlow]; [| lia].
    rewrite Hidx. cbn. repeat split; reflexivity.
Qed.

Lemma C8_quiet_turn_of_the_loop_witness :
  let bittrex := Sample.replaying [Sample.trade3; Sample.trade2; Sample.trade1] in
  let s := Sample.quiet_loop 0 (Some Sample.earlier_metrics) in
  let turn := loop_body bittrex s in
  (constant s <= 2 ->
   constant turn.2 = constant s + 1
   /\ (turn.1 = Ok tt
       /\ db turn.2
          = db s ++ [(market, format_bittrex_entry Sample.earlier_metrics)]))
  /\ (2 < constant s ->
      forall start stop,
        get_interval_index [Sample.trade3; Sample.trade2; Sample.trade1]
          (current_datetime s) interval
        = Ok (start, stop) ->
        turn.1 = Raise TypeError
        /\ db turn.2 = db s /\ metrics turn.2 = metrics s).
Proof.
  apply (C8_quiet_turn_of_the_loop
           (Sample.replaying [Sample.trade3; Sample.trade2; Sample.trade1])
           (Sample.quiet_loop 0 (Some Sample.earlier_metrics))
           0%nat [Sample.trade3; Sample.trade2; Sample.trade1]
           Sample.trade3 (seconds 30));
    [reflexivity | reflexivity | reflexivity | vm_compute; discriminate].
Defined.

(** The three turns that the claim is about, run: a quiet turn with the
    counter at 0 inserts the row of the earlier metrics again; the first
    quiet turn after the start, where [metrics] is not bound, ends in
    NameError; a quiet turn with the counter at 3 ends in TypeError and
    inserts nothing. *)
Lemma quiet_turns_run :
  let bittrex := Sample.replaying [Sample.trade3; Sample.trade2; Sample.trade1] in
  (let turn := loop_body bittrex (Sample.quiet_loop 0 (Some Sample.earlier_metrics)) in
   turn.1 = Ok tt /\ constant turn.2 = 1
   /\ db turn.2
      = [ ("BTC-CLUB"%string,
           [ ("time", VTime (-60));
             ("price", VNum (PyDec (DFin 10000000000 (-8))));
             ("wprice", VNone); ("basevolume", VNone);
             ("buyorder", VNone); ("sellorder", VNone) ]%string) ])
  /\ (let turn := loop_body bittrex (Sample.quiet_loop 0 None) in
      turn.1 = Raise NameError /\ constant turn.2 = 1 /\ db turn.2 = [])
  /\ (let turn := loop_body bittrex (Sample.quiet_loop 3 (Some Sample.earlier_metrics)) in
      turn.1 = Raise TypeError /\ constant turn.2 = 3 /\ db turn.2 = []
      /\ metrics turn.2 = Some Sample.earlier_metrics).
Proof. vm_compute. repeat split; reflexivity. Qed.

End QuietInterval.

(* ===================================================================== *)
(** ** Reconciliation (BittrexOrder.py, manager_helper.py) *)
(* ===================================================================== *)

Section Reconciliation.
Import bittrex2 manager_helper.

(** A BittrexOrder has no attribute [total]. *)
Lemma getattr_total (o : BittrexOrder.t) :
  BittrexOrder.getattr o "total" = Raise AttributeError.
Proof. reflexivity. Qed.

(** [-1 * x] does not raise. *)
Lemma py_mul_minus_one (x : pynum) : exists y, py_mul (PyInt (-1)) x = Ok y.
Proof.
  destruct x as [z | f | [c e | neg |]]; cbn; eauto.
Qed.

(** For a buy, [add_completed_order] sets the fields as the spec says:
    the quantized unit price, price plus commission, and the filled
    quantity. *)
Lemma add_completed_order_buy
    (data : BittrexOrder.OrderData) (now closed : datetime)
    (o : BittrexOrder.t) (ppu : pynum) (actual total c filled q : Decimal) :
  BittrexOrder.Type_ data = "LIMIT_BUY"%string ->
  BittrexOrder.Closed data = TimeStr (Some closed) ->
  BittrexOrder.PricePerUnit data = Some ppu ->
  quantize (to_decimal ppu) BittrexOrder.DIGITS = Ok actual ->
  add (to_decimal (BittrexOrder.Price data))
      (to_decimal (BittrexOrder.CommissionPaid data)) = Ok total ->
  quantize total BittrexOrder.DIGITS = Ok c ->
  sub (to_decimal (BittrexOrder.Quantity data))
      (to_decimal (BittrexOrder.QuantityRemaining data)) = Ok filled ->
  quantize filled BittrexOrder.DIGITS = Ok q ->
  let done := BittrexOrder.add_completed_order (Some data) now o in
  done.1 = Ok tt
  /\ BittrexOrder.status done.2 = "COMPLETED"%string
  /\ BittrexOrder.actual_price done.2 = PyDec actual
  /\ BittrexOrder.cost done.2 = PyDec c
  /\ BittrexOrder.current_quantity done.2 = PyDec q.
Proof.
  intros Htype Hclosed Hppu Hactual Htotal Hc Hfilled Hq done. subst done.
  unfold BittrexOrder.add_completed_order, BittrexOrder.Decimal_of.
  run. rewrite Hppu, Hactual, Hclosed. cbn. rewrite Htype. cbn.
  rewrite Htotal, Hc, Hfilled, Hq. cbn. repeat split; reflexivity.
Qed.

(** For a sell, [add_completed_order] never assigns [current_quantity]. *)
Lemma add_completed_order_sell
    (data : BittrexOrder.OrderData) (now : datetime) (o : BittrexOrder.t) :
  BittrexOrder.Type_ data = "LIMIT_SELL"%string ->
  BittrexOrder.current_quantity
    (BittrexOrder.add_completed_order (Some data) now o).2
  = BittrexOrder.current_quantity o.
Proof.
  intros Htype.
  unfold BittrexOrder.add_completed_order. run. rewrite Htype.
  repeat (case_match; simplify_eq; cbn in * ); reflexivity.
Qed.

(** Whatever the exchange answers, [get_order_and_update_wallet] does not
    return and does not touch the wallet. *)
Lemma get_order_and_update_wallet_raises
    (bittrex : Bittrex) (now : datetime) (s : State) :
  let run := get_order_and_update_wallet bittrex now s in
  (exists e, run.1 = Raise e) /\ wallet run.2 = wallet s
  /\ order run.2
     = (BittrexOrder.add_completed_order
          (result (get_order_answer bittrex (length (gateway s))
                     (BittrexOrder.uuid (order s))))
          now (order s)).2
  /\ ((BittrexOrder.add_completed_order
         (result (get_order_answer bittrex (length (gateway s))
                    (BittrexOrder.uuid (order s))))
         now (order s)).1 = Ok tt ->
      run.1 = Raise AttributeError).
Proof.
  unfold get_order_and_update_wallet, on_gateway, on_order, get_order,
    set_wallet.
  run. cbn [order wallet gateway].
  destruct (BittrexOrder.add_completed_order _ now (order s))
    as [[[] | e] o'] eqn:Hdone; cbn [fst snd order wallet gateway].
  - destruct (String.eqb (BittrexOrder.type o') "BUY").
    + rewrite getattr_total. cbn. repeat split; eauto.
    + destruct (py_mul_minus_one (BittrexOrder.current_quantity o'))
        as [negated ->].
      cbn. repeat split; eauto.
  - repeat split; eauto. discriminate.
Qed.

(** C2, what the code does instead: for a completed order record
    fetched at reconciliation, [get_order_and_update_wallet] leaves the
    wallet as it was and raises: after [add_completed_order] has
    returned, the call reads [order.total], an attribute that no
    BittrexOrder has, so AttributeError is raised before
    [update_wallet] is reached.  For a sell, moreover,
    [current_quantity] is left as it was before the call. *)
Theorem C2_reconciliation_stops_before_the_wallet
    (bittrex : Bittrex) (now : datetime) (s : State)
    (data : BittrexOrder.OrderData) :
  result (get_order_answer bittrex (length (gateway s))
            (BittrexOrder.uuid (order s))) = Some data ->
  let run := get_order_and_update_wallet bittrex now s in
  wallet run.2 = wallet s
  /\ (exists e, run.1 = Raise e)
  /\ ((BittrexOrder.add_completed_order (Some data) now (order s)).1 = Ok tt ->
      run.1 = Raise AttributeError)
  /\ (BittrexOrder.Type_ data = "LIMIT_SELL"%string ->
      BittrexOrder.current_quantity (order run.2)
      = BittrexOrder.current_quantity (order s)).
Proof.
  intros Hdata run.
  destruct (get_order_and_update_wallet_raises bittrex now s)
    as (Hraise & Hwallet & Horder & Hattr).
  fold run in Hraise, Hwallet, Horder, Hattr.
  rewrite Hdata in Horder, Hattr.
  repeat split; try assumption.
  intros Hsell. rewrite Horder. apply add_completed_order_sell. exact Hsell.
Qed.

Lemma C2_reconciliation_stops_before_the_wallet_witness :
  let bittrex :=
    Sample.quoting (DFin 1000 (-8)) (DFin 1100 (-8)) Sample.filled_sell in
  let s := Sample.start Sample.sell_order Sample.funded in
  let run := get_order_and_update_wallet bittrex 0 s in
  wallet run.2 = wallet s
  /\ (exists e, run.1 = Raise e)
  /\ ((BittrexOrder.add_completed_order (Some Sample.filled_sell) 0
         (order s)).1 = Ok tt ->
      run.1 = Raise AttributeError)
  /\ (BittrexOrder.Type_ Sample.filled_sell = "LIMIT_SELL"%string ->
      BittrexOrder.current_quantity (order run.2)
      = BittrexOrder.current_quantity (order s)).
Proof.
  apply (C2_reconciliation_stops_before_the_wallet
           (Sample.quoting (DFin 1000 (-8)) (DFin 1100 (-8)) Sample.filled_sell)
           0 (Sample.start Sample.sell_order Sample.funded)
           Sample.filled_sell).
  reflexivity.
Defined.

(** The reconciliation of a filled buy and of a filled sell, run: the
    order is marked COMPLETED with the quantized price and cost, the
    call raises AttributeError and the wallet keeps its balances; after
    the sell the filled quantity of the order is still 0. *)
Lemma reconciliation_run :
  (let s := Sample.start Sample.buy_order Sample.funded in
   let run := get_order_and_update_wallet
                (Sample.quoting (DFin 1000 (-8)) (DFin 1100 (-8))
                   Sample.filled_buy) 0 s in
   run.1 = Raise AttributeError /\ wallet run.2 = Sample.funded
   /\ BittrexOrder.status (order run.2) = "COMPLETED"%string
   /\ BittrexOrder.actual_price (order run.2) = PyDec (DFin 74 (-8))
   /\ BittrexOrder.cost (order run.2) = PyDec (DFin 101336 (-8))
   /\ BittrexOrder.current_quantity (order run.2)
      = PyDec (DFin 136600000000 (-8)))
  /\ (let s := Sample.start Sample.sell_order Sample.funded in
      let run := get_order_and_update_wallet
                   (Sample.quoting (DFin 1000 (-8)) (DFin 1100 (-8))
                      Sample.filled_sell) 0 s in
      run.1 = Raise AttributeError /\ wallet run.2 = Sample.funded
      /\ BittrexOrder.status (order run.2) = "COMPLETED"%string
      /\ BittrexOrder.cost (order run.2) = PyDec (DFin 100832 (-8))
      /\ BittrexOrder.current_quantity (order run.2) = PyInt 0).
Proof. vm_compute. repeat split; reflexivity. Qed.

End Reconciliation.

(* ===================================================================== *)
(** ** More about manager_helper.py *)
(* ===================================================================== *)

Section ManagerFacts.
Import bittrex2 manager_helper.

Ltac unfold_manager :=
  unfold buy_above_bid, sell_below_ask, on_gateway, on_order,
    get_ticker_or_else, get_ticker, buy_limit, sell_limit, result_of,
    BittrexOrder.update_target_price, BittrexOrder.update_uuid,
    BittrexOrder.update_status;
  run.

Lemma ltb_false_le (x y : Decimal) : ltb y x = Ok false -> le x y.
Proof.
  unfold ltb, le. rewrite (compare_flip y x).
  destruct (compare y x) as [[] |]; cbn; intros H; try discriminate; exact I.
Qed.

(** X1. The clamp of the two prices, for every percent and every bid and
    ask, on or off the quantization grid: when [bid <= ask], a buy price
    that is computed does not exceed the ask, and a sell price that is
    computed does not fall below the bid. *)
Theorem price_clamped_on_one_side (bid ask percent : Decimal) :
  le bid ask ->
  (forall p, buy_price_of bid ask percent = Ok p -> le p ask)
  /\ (forall p, sell_price_of bid ask percent = Ok p -> le bid p).
Proof.
  intros Hle. split; intros p.
  - unfold buy_price_of.
    destruct (sub ask bid) as [spread |]; cbn; [| discriminate].
    destruct (mul spread percent) as [price_buffer |]; cbn; [| discriminate].
    destruct (add bid price_buffer) as [raised |]; cbn; [| discriminate].
    destruct (quantize raised BittrexOrder.DIGITS) as [buy_price |]; cbn;
      [| discriminate].
    destruct (gtb buy_price ask) as [[] |] eqn:Habove; cbn; [| | discriminate];
      intros [= <-]; [exact Hle |].
    apply ltb_false_le. exact Habove.
  - unfold sell_price_of.
    destruct (sub ask bid) as [spread |]; cbn; [| discriminate].
    destruct (mul spread percent) as [price_buffer |]; cbn; [| discriminate].
    destruct (sub ask price_buffer) as [lowered |]; cbn; [| discriminate].
    destruct (quantize lowered BittrexOrder.DIGITS) as [sell_price |]; cbn;
      [| discriminate].
    destruct (ltb sell_price bid) as [[] |] eqn:Hbelow; cbn; [| | discriminate];
      intros [= <-]; [exact Hle |].
    apply ltb_false_le. exact Hbelow.
Qed.

Lemma price_clamped_on_one_side_witness :
  (forall p, buy_price_of (DFin 14 (-10)) (DFin 17 (-10)) (DFin 50 (-2)) = Ok p ->
             le p (DFin 17 (-10)))
  /\ (forall p, sell_price_of (DFin 14 (-10)) (DFin 17 (-10)) (DFin 50 (-2)) = Ok p ->
                le (DFin 14 (-10)) p).
Proof.
  apply (price_clamped_on_one_side (DFin 14 (-10)) (DFin 17 (-10)) (DFin 50 (-2))).
  exact I.
Defined.

(** X2. A buy that the exchange accepts: with the ticker priced and a
    balance that is not below the base quantity, [buy_above_bid] submits
    one buy limit order for the target quantity at the computed price,
    returns [True], stores the returned identifier and marks the order
    EXECUTED; the wallet is not touched. *)
Theorem buy_above_bid_accepted
    (market : string) (bittrex : Bittrex) (percent : Decimal) (s : State)
    (tick : Ticker) (bid ask p : Decimal) (submitted : Submitted) :
  let r0 := get_ticker_answer bittrex (length (gateway s)) market in
  let quantity := BittrexOrder.target_quantity (order s) in
  let accepted :=
    buy_limit_answer bittrex (length (gateway s) + 1) market quantity (PyDec p) in
  success r0 = true -> result r0 = Some tick ->
  Bid tick = Some bid -> Ask tick = Some ask ->
  buy_price_of bid ask percent = Ok p ->
  py_lt (get_quantity (wallet s) "BTC")
        (BittrexOrder.base_quantity (order s)) = Ok false ->
  success accepted = true -> result accepted = Some submitted ->
  let run := buy_above_bid market bittrex percent s in
  run.1 = Ok true
  /\ BittrexOrder.status (order run.2) = "EXECUTED"%string
  /\ BittrexOrder.uuid (order run.2) = submitted_uuid submitted
  /\ BittrexOrder.target_price (order run.2) = PyDec p
  /\ wallet run.2 = wallet s
  /\ gateway run.2
     = gateway s ++ [ Ev_get_ticker market r0;
                      Ev_buy_limit market quantity (PyDec p) accepted ].
Proof.
  intros r0 quantity accepted Hs Hr Hb Ha Hp Hfunds Hacc Hres run. subst run.
  unfold_manager. fold r0. rewrite Hs, Hr. unfold Decimal_of_str.
  rewrite Hb, Ha, Hp.
  cbn [order wallet gateway BittrexOrder.base_quantity
       BittrexOrder.target_quantity BittrexOrder.target_price
       BittrexOrder.set_target_price].
  rewrite Hfunds. cbv beta iota.
  cbn [order wallet gateway BittrexOrder.target_quantity
       BittrexOrder.target_price BittrexOrder.set_target_price].
  rewrite length_app. cbn [length]. fold quantity accepted.
  rewrite Hacc, Hres. cbn. rewrite <- app_assoc. repeat split; reflexivity.
Qed.

Lemma buy_above_bid_accepted_witness :
  let bittrex :=
    Sample.quoting (DFin 1000 (-8)) (DFin 1100 (-8)) Sample.filled_buy in
  let s := Sample.start Sample.buy_order Sample.funded in
  let run := buy_above_bid "BTC-CLUB" bittrex default_percent s in
  run.1 = Ok true
  /\ BittrexOrder.status (order run.2) = "EXECUTED"%string
  /\ BittrexOrder.uuid (order run.2) = Some "u1"%string
  /\ BittrexOrder.target_price (order run.2) = PyDec (DFin 1005 (-8))
  /\ wallet run.2 = wallet s
  /\ gateway run.2
     = gateway s
       ++ [ Ev_get_ticker "BTC-CLUB"
              (Sample.answer (Sample.ticker (DFin 1000 (-8)) (DFin 1100 (-8))));
            Ev_buy_limit "BTC-CLUB" (PyInt 1366) (PyDec (DFin 1005 (-8)))
              (Sample.answer {| submitted_uuid := Some "u1"%string |}) ].
Proof.
  apply (buy_above_bid_accepted "BTC-CLUB"
           (Sample.quoting (DFin 1000 (-8)) (DFin 1100 (-8)) Sample.filled_buy)
           default_percent (Sample.start Sample.buy_order Sample.funded)
           (Sample.ticker (DFin 1000 (-8)) (DFin 1100 (-8)))
           (DFin 1000 (-8)) (DFin 1100 (-8)) (DFin 1005 (-8))
           {| submitted_uuid := Some "u1"%string |});
    vm_compute; reflexivity.
Defined.

(** X3. A sell that the exchange accepts: with the ticker priced and a
    balance for the market that is not zero, [sell_below_ask] returns
    [True], stores the returned identifier and marks the order
    EXECUTED; the wallet is not touched. *)
Theorem sell_below_ask_accepted
    (market : string) (bittrex : Bittrex) (percent : Decimal) (s : State)
    (tick : Ticker) (bid ask p : Decimal) (submitted : Submitted) :
  let r0 := get_ticker_answer bittrex (length (gateway s)) market in
  let balance := get_quantity (wallet s) market in
  let accepted :=
    sell_limit_answer bittrex (length (gateway s) + 1) market balance (PyDec p) in
  success r0 = true -> result r0 = Some tick ->
  Bid tick = Some bid -> Ask tick = Some ask ->
  sell_price_of bid ask percent = Ok p ->
  py_eq balance (PyInt 0) = false ->
  success accepted = true -> result accepted = Some submitted ->
  let run := sell_below_ask market bittrex percent s in
  run.1 = Ok true
  /\ BittrexOrder.status (order run.2) = "EXECUTED"%string
  /\ BittrexOrder.uuid (order run.2) = submitted_uuid submitted
  /\ BittrexOrder.target_price (order run.2) = PyDec p
  /\ wallet run.2 = wallet s.
Proof.
  intros r0 balance accepted Hs Hr Hb Ha Hp Hfunds Hacc Hres run. subst run.
  unfold_manager. fold r0. rewrite Hs, Hr. unfold Decimal_of_str.
  rewrite Hb, Ha, Hp.
  cbn [order wallet gateway BittrexOrder.target_price
       BittrexOrder.set_target_price].
  fold balance. rewrite Hfunds. cbv beta iota.
  cbn [order wallet gateway BittrexOrder.target_price
       BittrexOrder.set_target_price].
  rewrite length_app. cbn [length]. fold balance accepted.
  rewrite Hacc, Hres. cbn. repeat split; reflexivity.
Qed.

Lemma sell_below_ask_accepted_witness :
  let bittrex :=
    Sample.quoting (DFin 1000 (-8)) (DFin 1100 (-8)) Sample.filled_sell in
  let s := Sample.start Sample.sell_order Sample.funded in
  let run := sell_below_ask "BTC-CLUB" bittrex default_percent s in
  run.1 = Ok true
  /\ BittrexOrder.status (order run.2) = "EXECUTED"%string
  /\ BittrexOrder.uuid (order run.2) = Some "u1"%string
  /\ BittrexOrder.target_price (order run.2) = PyDec (DFin 1095 (-8))
  /\ wallet run.2 = wallet s.
Proof.
  apply (sell_below_ask_accepted "BTC-CLUB"
           (Sample.quoting (DFin 1000 (-8)) (DFin 1100 (-8)) Sample.filled_sell)
           default_percent (Sample.start Sample.sell_order Sample.funded)
           (Sample.ticker (DFin 1000 (-8)) (DFin 1100 (-8)))
           (DFin 1000 (-8)) (DFin 1100 (-8)) (DFin 1095 (-8))
           {| submitted_uuid := Some "u1"%string |});
    vm_compute; reflexivity.
Defined.

(** X4. Without a ticker there is no order: when the ticker request
    fails, or succeeds without a result, [buy_above_bid] and
    [sell_below_ask] return [False] after that one request and leave
    the order and the wallet exactly as they were. *)
Theorem no_ticker_no_order
    (market : string) (bittrex : Bittrex) (percent : Decimal) (s : State) :
  let r0 := get_ticker_answer bittrex (length (gateway s)) market in
  success r0 = false \/ result r0 = None ->
  let after :=
    {| order := order s; wallet := wallet s;
       gateway := gateway s ++ [Ev_get_ticker market r0] |} in
  buy_above_bid market bittrex percent s = (Ok false, after)
  /\ sell_below_ask market bittrex percent s = (Ok false, after).
Proof.
  intros r0 Hfail after. subst after.
  unfold_manager. fold r0.
  destruct Hfail as [Hs | Hr].
  - rewrite Hs. split; reflexivity.
  - rewrite Hr. destruct (success r0); split; reflexivity.
Qed.

Lemma no_ticker_no_order_witness :
  let s := Sample.start Sample.buy_order Sample.funded in
  let after :=
    {| order := order s; wallet := wallet s;
       gateway := gateway s ++ [Ev_get_ticker "BTC-CLUB" Sample.no_api_response] |} in
  buy_above_bid "BTC-CLUB" Sample.unreachable default_percent s = (Ok false, after)
  /\ sell_below_ask "BTC-CLUB" Sample.unreachable default_percent s
     = (Ok false, after).
Proof.
  apply (no_ticker_no_order "BTC-CLUB" Sample.unreachable default_percent
           (Sample.start Sample.buy_order Sample.funded)).
  left. reflexivity.
Defined.

(** X5. A ticker that lacks the bid or the ask is not caught: the call
    raises InvalidOperation (from [Decimal('None')]), which is not among
    the exceptions the function handles, and the order is left as it
    was. *)
Theorem ticker_without_price_raises
    (market : string) (bittrex : Bittrex) (percent : Decimal) (s : State)
    (tick : Ticker) :
  let r0 := get_ticker_answer bittrex (length (gateway s)) market in
  success r0 = true -> result r0 = Some tick ->
  Bid tick = None \/ Ask tick = None ->
  let after :=
    {| order := order s; wallet := wallet s;
       gateway := gateway s ++ [Ev_get_ticker market r0] |} in
  buy_above_bid market bittrex percent s = (Raise InvalidOperation, after)
  /\ sell_below_ask market bittrex percent s = (Raise InvalidOperation, after).
Proof.
  intros r0 Hs Hr Hmissing after. subst after.
  unfold_manager. fold r0. rewrite Hs, Hr. unfold Decimal_of_str.
  destruct Hmissing as [Hb | Ha].
  - rewrite Hb. split; reflexivity.
  - rewrite Ha. destruct (Bid tick); split; reflexivity.
Qed.

Lemma ticker_without_price_raises_witness :
  let bittrex :=
    {| get_ticker_answer := fun _ _ =>
         Sample.answer {| Bid := None; Ask := Some (DFin 1100 (-8));
                          Last := None |};
       buy_limit_answer := fun _ _ _ _ => Sample.no_api_response;
       sell_limit_answer := fun _ _ _ _ => Sample.no_api_response;
       get_order_answer := fun _ _ => Sample.no_api_response;
       cancel_answer := fun _ _ => Sample.no_api_response;
       get_market_history_answer := fun _ _ => Sample.no_api_response |} in
  let s := Sample.start Sample.buy_order Sample.funded in
  let r0 := get_ticker_answer bittrex (length (gateway s)) "BTC-CLUB" in
  let after :=
    {| order := order s; wallet := wallet s;
       gateway := gateway s ++ [Ev_get_ticker "BTC-CLUB" r0] |} in
  buy_above_bid "BTC-CLUB" bittrex default_percent s
  = (Raise InvalidOperation, after)
  /\ sell_below_ask "BTC-CLUB" bittrex default_percent s
     = (Raise InvalidOperation, after).
Proof.
  refine (ticker_without_price_raises "BTC-CLUB" _ default_percent
            (Sample.start Sample.buy_order Sample.funded)
            {| Bid := None; Ask := Some (DFin 1100 (-8)); Last := None |}
            _ _ _);
    [reflexivity | reflexivity | left; reflexivity].
Defined.

(** X6. Nothing held, nothing sold: with the ticker priced and a balance
    of zero for the market, [sell_below_ask] returns [False] after the
    ticker request, submits no order and leaves the status and the
    identifier of the order as they were. *)
Theorem sell_below_ask_empty_balance
    (market : string) (bittrex : Bittrex) (percent : Decimal) (s : State)
    (tick : Ticker) (bid ask p : Decimal) :
  let r0 := get_ticker_answer bittrex (length (gateway s)) market in
  success r0 = true -> result r0 = Some tick ->
  Bid tick = Some bid -> Ask tick = Some ask ->
  sell_price_of bid ask percent = Ok p ->
  py_eq (get_quantity (wallet s) market) (PyInt 0) = true ->
  sell_below_ask market bittrex percent s
  = (Ok false,
     {| order := BittrexOrder.set_target_price (PyDec p) (order s);
        wallet := wallet s;
        gateway := gateway s ++ [Ev_get_ticker market r0] |}).
Proof.
  intros r0 Hs Hr Hb Ha Hp Hzero.
  unfold_manager. fold r0. rewrite Hs, Hr. unfold Decimal_of_str.
  rewrite Hb, Ha, Hp. cbn [order wallet gateway]. rewrite Hzero. reflexivity.
Qed.

Lemma sell_below_ask_empty_balance_witness :
  let bittrex :=
    Sample.quoting (DFin 1000 (-8)) (DFin 1100 (-8)) Sample.filled_sell in
  let s := Sample.start Sample.sell_order ∅ in
  sell_below_ask "BTC-CLUB" bittrex default_percent s
  = (Ok false,
     {| order := BittrexOrder.set_target_price (PyDec (DFin 1095 (-8))) (order s);
        wallet := wallet s;
        gateway := gateway s
          ++ [Ev_get_ticker "BTC-CLUB"
                (get_ticker_answer bittrex (length (gateway s)) "BTC-CLUB")] |}).
Proof.
  apply (sell_below_ask_empty_balance "BTC-CLUB"
           (Sample.quoting (DFin 1000 (-8)) (DFin 1100 (-8)) Sample.filled_sell)
           default_percent (Sample.start Sample.sell_order ∅)
           (Sample.ticker (DFin 1000 (-8)) (DFin 1100 (-8)))
           (DFin 1000 (-8)) (DFin 1100 (-8)) (DFin 1095 (-8)));
    vm_compute; reflexivity.
Defined.

(** X7. What the two functions never do: whatever the exchange answers,
    [buy_above_bid] leaves the wallet as it was, submits at most one
    buy order and makes no sell, poll or cancel request; it marks the
    order EXECUTED when it returns [True], and otherwise leaves the
    status and the identifier as they were.  The same holds for
    [sell_below_ask] with the roles of buy and sell exchanged. *)
Theorem manager_submits_at_most_once
    (market : string) (bittrex : Bittrex) (percent : Decimal) (s : State) :
  let buy := buy_above_bid market bittrex percent s in
  let sell := sell_below_ask market bittrex percent s in
  let sent run := added (gateway s) (gateway run) in
  (wallet buy.2 = wallet s
   /\ (count is_buy_limit (sent buy.2) <= 1)%nat
   /\ count is_sell_limit (sent buy.2) = O
   /\ count is_get_order (sent buy.2) = O
   /\ count is_cancel (sent buy.2) = O
   /\ (buy.1 = Ok true ->
       BittrexOrder.status (order buy.2) = "EXECUTED"%string)
   /\ (buy.1 <> Ok true ->
       BittrexOrder.status (order buy.2) = BittrexOrder.status (order s)
       /\ BittrexOrder.uuid (order buy.2) = BittrexOrder.uuid (order s)))
  /\ (wallet sell.2 = wallet s
      /\ (count is_sell_limit (sent sell.2) <= 1)%nat
      /\ count is_buy_limit (sent sell.2) = O
      /\ count is_get_order (sent sell.2) = O
      /\ count is_cancel (sent sell.2) = O
      /\ (sell.1 = Ok true ->
          BittrexOrder.status (order sell.2) = "EXECUTED"%string)
      /\ (sell.1 <> Ok true ->
          BittrexOrder.status (order sell.2) = BittrexOrder.status (order s)
          /\ BittrexOrder.uuid (order sell.2) = BittrexOrder.uuid (order s))).
Proof.
  intros buy sell sent. subst buy sell sent. cbv beta.
  split; unfold_manager;
    repeat (case_match; simplify_eq);
    cbn [fst snd order wallet gateway];
    rewrite <- ?app_assoc, ?added_app; cbn;
    repeat split; try reflexivity; try lia; try congruence.
Qed.

Lemma list_remove_In (x : nat) (l : list nat) :
  In x l ->
  exists remaining,
    list_remove x l = Some remaining /\ length l = S (length remaining)
    /\ forall y, y <> x -> (In y remaining <-> In y l).
Proof.
  induction l as [| y l IH]; simpl; [contradiction |].
  intros Hin. destruct (Nat.eqb_spec x y) as [-> | Hne].
  - exists l. repeat split; try tauto. intros [? | ?]; [congruence | assumption].
  - destruct Hin as [-> | Hin]; [congruence |].
    destruct (IH Hin) as (r & -> & Hlen & Hmem).
    exists (y :: r). cbn. repeat split; [lia | |].
    + intros [-> | Hy]; [left; reflexivity | right; apply Hmem; assumption].
    + intros [-> | Hy]; [left; reflexivity | right; apply Hmem; assumption].
Qed.

Lemma list_remove_not_In (x : nat) (l : list nat) :
  ~ In x l -> list_remove x l = None.
Proof.
  induction l as [| y l IH]; simpl; [reflexivity |].
  intros Hnot. destruct (Nat.eqb_spec x y) as [-> | Hne]; [tauto |].
  rewrite IH by tauto. reflexivity.
Qed.

(** X8. [skip_order] on an active order: the call returns, the order is
    SKIPPED (as every holder of the object sees), it has left the list
    of active orders, which is one shorter and holds the other orders
    as before, and it is the newest element of the queue; no other
    order object is changed. *)
Theorem skip_order_active (order : nat) (d : Desk) :
  In order (order_list d) ->
  let run := skip_order order d in
  run.1 = Ok tt
  /\ objects run.2 !! order
     = BittrexOrder.set_status "SKIPPED" <$> objects d !! order
  /\ (forall other, other <> order -> objects run.2 !! other = objects d !! other)
  /\ length (order_list d) = S (length (order_list run.2))
  /\ (forall other, other <> order ->
        (In other (order_list run.2) <-> In other (order_list d)))
  /\ out_queue run.2 = out_queue d ++ [order].
Proof.
  intros Hin run. subst run.
  destruct (list_remove_In order (order_list d) Hin) as (r & Hrem & Hlen & Hmem).
  unfold skip_order. run. cbn [objects order_list out_queue].
  rewrite Hrem. cbn.
  repeat split; try assumption.
  - apply lookup_alter_eq.
  - intros other Hne. apply lookup_alter_ne. congruence.
  - apply Hmem. assumption.
  - apply Hmem. assumption.
Qed.

Lemma skip_order_active_witness :
  let run := skip_order 1 Sample.desk in
  run.1 = Ok tt
  /\ objects run.2 !! 1%nat
     = BittrexOrder.set_status "SKIPPED" <$> objects Sample.desk !! 1%nat
  /\ (forall other, other <> 1%nat ->
        objects run.2 !! other = objects Sample.desk !! other)
  /\ length (order_list Sample.desk) = S (length (order_list run.2))
  /\ (forall other, other <> 1%nat ->
        (In other (order_list run.2) <-> In other (order_list Sample.desk)))
  /\ out_queue run.2 = out_queue Sample.desk ++ [1%nat].
Proof.
  apply (skip_order_active 1 Sample.desk). simpl. left. reflexivity.
Defined.

(** X9. [skip_order] on an order that is not in the list of active
    orders raises ValueError, from [order_list.remove], after the order
    has been marked SKIPPED: the list and the queue are as before, the
    status is not. *)
Theorem skip_order_not_active (order : nat) (d : Desk) :
  ~ In order (order_list d) ->
  let run := skip_order order d in
  run.1 = Raise ValueError
  /\ objects run.2 !! order
     = BittrexOrder.set_status "SKIPPED" <$> objects d !! order
  /\ order_list run.2 = order_list d
  /\ out_queue run.2 = out_queue d.
Proof.
  intros Hnot run. subst run.
  unfold skip_order. run. cbn [objects order_list out_queue].
  rewrite (list_remove_not_In _ _ Hnot). cbn.
  repeat split. apply lookup_alter_eq.
Qed.

Lemma skip_order_not_active_witness :
  let d := {| objects := objects Sample.desk; order_list := [2%nat];
              out_queue := [] |} in
  let run := skip_order 1 d in
  run.1 = Raise ValueError
  /\ objects run.2 !! 1%nat
     = BittrexOrder.set_status "SKIPPED" <$> objects d !! 1%nat
  /\ order_list run.2 = order_list d
  /\ out_queue run.2 = out_queue d.
Proof.
  apply (skip_order_not_active 1
           {| objects := objects Sample.desk; order_list := [2%nat];
              out_queue := [] |}).
  simpl. intros [H | []]. discriminate.
Defined.

End ManagerFacts.

(* ===================================================================== *)
(** ** More about the wrappers of bittrex/bittrex2.py *)
(* ===================================================================== *)

Section WrapperFacts.
Import bittrex2.

Variable bittrex : Bittrex.
Variable retry : nat.

Lemma count_cons (kind : event -> bool) (ev : event) (evs : trace) :
  count kind (ev :: evs)
  = ((if kind ev then 1 else 0) + count kind evs)%nat.
Proof. unfold count. cbn. destruct (kind ev); reflexivity. Qed.

Lemma count_none (kind : event -> bool) (evs : trace) :
  Forall (fun ev => kind ev = false) evs -> count kind evs = O.
Proof.
  induction 1 as [| ev evs Hev _ IH]; [reflexivity |].
  rewrite count_cons, Hev, IH. reflexivity.
Qed.

(** The polls of [sell_or_else]: only polls and sleeps; a normal end
    carries the data of a poll that succeeded, any other end is the
    RuntimeError of the last attempt. *)
Lemma sell_poll_loop_events (uuid : option string) :
  forall (n : nat) (response : WrapperResponse) (tr : trace),
  (1 <= n <= retry)%nat ->
  exists evs,
    (sell_poll_loop bittrex uuid retry n response tr).2 = tr ++ evs
    /\ Forall (fun ev => is_buy_limit ev = false /\ is_sell_limit ev = false
                         /\ is_cancel ev = false) evs
    /\ (count is_get_order evs <= n)%nat
    /\ (forall r, (sell_poll_loop bittrex uuid retry n response tr).1 = Ok r ->
          wr_success r = true
          /\ exists rp, In (Ev_get_order uuid rp) evs /\ success rp = true
                        /\ wr_result r = Some (result rp))
    /\ (forall e, (sell_poll_loop bittrex uuid retry n response tr).1 = Raise e ->
          e = RuntimeError).
Proof.
  induction n as [| n IH]; intros response tr Hn; [lia |].
  cbn [sell_poll_loop]. unfold get_order, sleep. run.
  set (rp := get_order_answer bittrex (length tr) uuid).
  destruct (success rp) eqn:Hs.
  - exists [Ev_get_order uuid rp]. cbn.
    repeat split; try lia; try discriminate.
    + repeat constructor.
    + injection H as <-. reflexivity.
    + injection H as <-. exists rp. auto.
  - destruct (Nat.eqb_spec (retry - S n) (retry - 1)) as [Hlast | Hmore].
    + exists [Ev_get_order uuid rp]. cbn.
      repeat split; try lia; try discriminate.
      * repeat constructor.
      * congruence.
    + destruct (IH response ((tr ++ [Ev_get_order uuid rp]) ++ [Ev_sleep 1])
                  ltac:(lia)) as (evs & Hrun & Hall & Hcount & Hok & Hraise).
      exists (Ev_get_order uuid rp :: Ev_sleep 1 :: evs).
      rewrite Hrun. unfold count in *. cbn.
      split; [rewrite <- !app_assoc; reflexivity |].
      split; [repeat (constructor; [repeat split; reflexivity |]); exact Hall |].
      split; [lia |]. split.
      * intros r Hr. destruct (Hok r Hr) as (Hsucc & rp' & Hin & Hs' & Hres).
        split; [exact Hsucc |]. exists rp'. repeat split; auto.
      * exact Hraise.
Qed.

(** The attempts of [sell_or_else]. *)
Lemma sell_submit_loop_events (market : string) (quantity rate : pynum) :
  forall (n : nat) (tr : trace),
  (1 <= n <= retry)%nat ->
  exists evs,
    (sell_submit_loop bittrex market quantity rate retry n initial_response tr).2
    = tr ++ evs
    /\ Forall (fun ev => is_buy_limit ev = false /\ is_cancel ev = false) evs
    /\ (count is_sell_limit evs <= n)%nat
    /\ (count is_get_order evs <= retry)%nat
    /\ (forall r,
          (sell_submit_loop bittrex market quantity rate retry n
             initial_response tr).1 = Ok r ->
          wr_success r = true
          /\ exists u rp, In (Ev_get_order u rp) evs /\ success rp = true
                          /\ wr_result r = Some (result rp))
    /\ (forall e,
          (sell_submit_loop bittrex market quantity rate retry n
             initial_response tr).1 = Raise e ->
          e = RuntimeError \/ e = AttributeError).
Proof.
  induction n as [| n IH]; intros tr Hn; [lia |].
  cbn [sell_submit_loop]. unfold sell_limit, sleep, result_of. run.
  set (a := sell_limit_answer bittrex (length tr) market quantity rate).
  set (e1 := Ev_sell_limit market quantity rate a).
  destruct (success a).
  - destruct (result a) as [submitted |].
    + destruct (sell_poll_loop_events (submitted_uuid submitted) retry
                  initial_response ((tr ++ [e1]) ++ [Ev_sleep 3]) ltac:(lia))
        as (evs & Hrun & Hall & Hcount & Hok & Hraise).
      exists (e1 :: Ev_sleep 3 :: evs).
      rewrite Hrun. unfold count in *. cbn.
      split; [rewrite <- !app_assoc; reflexivity |].
      split.
      { repeat (constructor; [split; reflexivity |]).
        eapply Forall_impl; [| exact Hall]. cbn. tauto. }
      assert (Hsell : count is_sell_limit evs = O).
      { apply count_none. eapply Forall_impl; [| exact Hall]. cbn. tauto. }
      unfold count in Hsell.
      split; [lia |]. split; [lia |]. split.
      * intros r Hr. destruct (Hok r Hr) as (Hsucc & rp & Hin & Hs' & Hres).
        split; [exact Hsucc |]. exists (submitted_uuid submitted), rp.
        repeat split; auto.
      * intros e He. left. eauto.
    + exists [e1]. cbn.
      repeat split; try lia; try discriminate.
      * repeat constructor.
      * right. congruence.
  - destruct (Nat.eqb_spec (retry - S n) (retry - 1)) as [Hlast | Hmore].
    + exists [e1]. cbn.
      repeat split; try lia; try discriminate.
      * repeat constructor.
      * left. congruence.
    + destruct (IH ((tr ++ [e1]) ++ [Ev_sleep 1]) ltac:(lia))
        as (evs & Hrun & Hall & Hsell & Hpoll & Hok & Hraise).
      exists (e1 :: Ev_sleep 1 :: evs).
      rewrite Hrun. unfold count in *. cbn.
      split; [rewrite <- !app_assoc; reflexivity |].
      split; [repeat (constructor; [split; reflexivity |]); exact Hall |].
      split; [lia |]. split; [lia |]. split.
      * intros r Hr. destruct (Hok r Hr) as (Hsucc & u & rp & Hin & Hs' & Hres).
        split; [exact Hsucc |]. exists u, rp. repeat split; auto.
      * exact Hraise.
Qed.

(** The cancel loop of [buy_or_else] ends normally only with a
    cancellation that succeeded. *)
Lemma buy_cancel_loop_ok (uuid : option string) :
  forall (n : nat) (response : WrapperResponse) (tr : trace),
  (1 <= n <= retry)%nat ->
  forall r, (buy_cancel_loop bittrex uuid retry n response tr).1 = Ok r ->
            wr_success r = true /\ wr_result r = wr_result response.
Proof.
  induction n as [| n IH]; intros response tr Hn r; [lia |].
  cbn [buy_cancel_loop]. unfold cancel, sleep. run.
  destruct (success (cancel_answer bittrex (length tr) uuid)).
  - cbn. intros [= <-]. split; reflexivity.
  - destruct (Nat.eqb_spec (retry - S n) (retry - 1)) as [Hlast | Hmore];
      [discriminate |].
    apply IH. lia.
Qed.

(** The poll loop of [buy_or_else] ends normally only with the data of a
    poll that succeeded. *)
Lemma buy_poll_loop_ok (uuid : option string) :
  forall (n : nat) (response : WrapperResponse) (tr : trace),
  (1 <= n <= retry)%nat ->
  exists evs,
    (buy_poll_loop bittrex uuid retry n response tr).2 = tr ++ evs
    /\ forall r, (buy_poll_loop bittrex uuid retry n response tr).1 = Ok r ->
         wr_success r = true
         /\ exists rp d, In (Ev_get_order uuid rp) evs /\ success rp = true
                         /\ result rp = Some d
                         /\ wr_result r = Some (Some d).
Proof.
  induction n as [| n IH]; intros response tr Hn; [lia |].
  destruct (buy_poll_loop_shape bittrex retry uuid (S n) response tr
              ltac:(lia)) as (evs & Hshape & _).
  exists evs. split; [exact Hshape |]. revert Hshape.
  cbn [buy_poll_loop]. unfold get_order, sleep, result_of. run.
  cbn [wr_result wr_success].
  set (rp := get_order_answer bittrex (length tr) uuid).
  destruct (success rp) eqn:Hs.
  - destruct (result rp) as [d |] eqn:Hr; [| intros _ r; discriminate].
    destruct (py_gt (BittrexOrder.QuantityRemaining d) (PyInt 0))
      as [[] | e]; [| | intros _ r; discriminate].
    + intros Hshape r Hok.
      destruct (buy_cancel_loop_shape bittrex retry uuid retry
                  {| wr_success := false; wr_result := Some (Some d) |}
                  (tr ++ [Ev_get_order uuid rp]) ltac:(lia))
        as (cevs & Hcrun & _).
      rewrite Hcrun, <- app_assoc in Hshape. apply app_inv_head in Hshape.
      subst evs.
      destruct (buy_cancel_loop_ok uuid retry _ _ ltac:(lia) r Hok)
        as [Hsucc Hres].
      split; [exact Hsucc |]. exists rp, d. cbn in Hres.
      repeat split; auto. left. reflexivity.
    + cbn. intros Hshape r [= <-]. apply app_inv_head in Hshape. subst evs.
      split; [reflexivity |]. exists rp, d. cbn. auto.
  - destruct (Nat.eqb_spec (retry - S n) (retry - 1)) as [Hlast | Hmore];
      [intros _ r; discriminate |].
    destruct (IH response ((tr ++ [Ev_get_order uuid rp]) ++ [Ev_sleep 1])
                ltac:(lia)) as (evs' & Hrun' & Hok').
    intros Hshape r Hok. rewrite Hrun', <- !app_assoc in Hshape.
    apply app_inv_head in Hshape. subst evs.
    destruct (Hok' r Hok) as (Hsucc & rp' & d & Hin & Hs' & Hr' & Hres).
    split; [exact Hsucc |]. exists rp', d. cbn. auto.
Qed.

(** What a normal end of [buy_or_else] tells. *)
Lemma buy_submit_loop_ok (market : string) (quantity rate : pynum) :
  forall (n : nat) (tr : trace),
  (n <= retry)%nat ->
  exists evs,
    (buy_submit_loop bittrex market quantity rate retry n initial_response tr).2
    = tr ++ evs
    /\ forall r,
         (buy_submit_loop bittrex market quantity rate retry n
            initial_response tr).1 = Ok r ->
         (wr_success r = false ->
          r = initial_response
          /\ count is_buy_limit evs = n
          /\ Forall (fun ev =>
                       (exists a, ev = Ev_buy_limit market quantity rate a
                                  /\ success a = false)
                       \/ ev = Ev_sleep 1) evs)
         /\ (wr_success r = true ->
             exists u rp d, In (Ev_get_order u rp) evs /\ success rp = true
                            /\ result rp = Some d
                            /\ wr_result r = Some (Some d)).
Proof.
  induction n as [| n IH]; intros tr Hn.
  - exists []. cbn. rewrite app_nil_r. split; [reflexivity |].
    intros r [= <-]. split; [| discriminate].
    intros _. repeat split. constructor.
  - cbn [buy_submit_loop]. unfold buy_limit, sleep, result_of. run.
    set (a := buy_limit_answer bittrex (length tr) market quantity rate).
    set (e1 := Ev_buy_limit market quantity rate a).
    destruct (success a) eqn:Hs.
    + destruct (result a) as [submitted |].
      * destruct (buy_poll_loop_ok (submitted_uuid submitted) retry
                    initial_response ((tr ++ [e1]) ++ [Ev_sleep 3])
                    ltac:(lia)) as (evs & Hrun & Hok).
        exists (e1 :: Ev_sleep 3 :: evs). rewrite Hrun.
        split; [rewrite <- !app_assoc; reflexivity |].
        intros r Hr.
        destruct (Hok r Hr) as (Hsucc & rp & d & Hin & Hs' & Hr' & Hres).
        split; [congruence |]. intros _.
        exists (submitted_uuid submitted), rp, d. cbn. auto.
      * exists [e1]. cbn. split; [reflexivity |]. intros r; discriminate.
    + destruct (IH ((tr ++ [e1]) ++ [Ev_sleep 1]) ltac:(lia))
        as (evs & Hrun & Hok).
      exists (e1 :: Ev_sleep 1 :: evs). rewrite Hrun.
      split; [rewrite <- !app_assoc; reflexivity |].
      intros r Hr. destruct (Hok r Hr) as [Hfalse Htrue]. split.
      * intros Hf. destruct (Hfalse Hf) as (-> & Hcount & Hall).
        split; [reflexivity |]. split.
        -- unfold count in *. cbn. rewrite Hcount. reflexivity.
        -- constructor; [left; exists a; auto |].
           constructor; [right; reflexivity | exact Hall].
      * intros Ht. destruct (Htrue Ht) as (u & rp & d & Hin & Hrest).
        exists u, rp, d. cbn. auto.
Qed.

(** Polls that are never answered use up the turns of the poll loops and
    end in the RuntimeError of the last turn. *)
Lemma buy_poll_loop_unanswered (uuid : option string) :
  (forall k u, success (get_order_answer bittrex k u) = false) ->
  forall (n : nat) (response : WrapperResponse) (tr : trace),
  (1 <= n <= retry)%nat ->
  exists evs,
    buy_poll_loop bittrex uuid retry n response tr
    = (Raise RuntimeError, tr ++ evs)
    /\ count is_get_order evs = n
    /\ Forall (fun ev => is_get_order ev = true \/ ev = Ev_sleep 1) evs.
Proof.
  intros Hno. induction n as [| n IH]; intros response tr Hn; [lia |].
  cbn [buy_poll_loop]. unfold get_order, sleep. run. rewrite Hno.
  set (e1 := Ev_get_order uuid (get_order_answer bittrex (length tr) uuid)).
  destruct (Nat.eqb_spec (retry - S n) (retry - 1)) as [Hlast | Hmore].
  - assert (n = O) by lia. subst n. exists [e1].
    repeat split. constructor; [left; reflexivity | constructor].
  - destruct (IH response ((tr ++ [e1]) ++ [Ev_sleep 1]) ltac:(lia))
      as (evs & Hrun & Hcount & Hall).
    rewrite Hrun. exists (e1 :: Ev_sleep 1 :: evs).
    split; [rewrite <- !app_assoc; reflexivity |]. split.
    + unfold count in *. cbn. rewrite Hcount. reflexivity.
    + constructor; [left; reflexivity |].
      constructor; [right; reflexivity | exact Hall].
Qed.

Lemma sell_poll_loop_unanswered (uuid : option string) :
  (forall k u, success (get_order_answer bittrex k u) = false) ->
  forall (n : nat) (response : WrapperResponse) (tr : trace),
  (1 <= n <= retry)%nat ->
  exists evs,
    sell_poll_loop bittrex uuid retry n response tr
    = (Raise RuntimeError, tr ++ evs)
    /\ count is_get_order evs = n
    /\ Forall (fun ev => is_get_order ev = true \/ ev = Ev_sleep 1) evs.
Proof.
  intros Hno. induction n as [| n IH]; intros response tr Hn; [lia |].
  cbn [sell_poll_loop]. unfold get_order, sleep. run. rewrite Hno.
  set (e1 := Ev_get_order uuid (get_order_answer bittrex (length tr) uuid)).
  destruct (Nat.eqb_spec (retry - S n) (retry - 1)) as [Hlast | Hmore].
  - assert (n = O) by lia. subst n. exists [e1].
    repeat split. constructor; [left; reflexivity | constructor].
  - destruct (IH response ((tr ++ [e1]) ++ [Ev_sleep 1]) ltac:(lia))
      as (evs & Hrun & Hcount & Hall).
    rewrite Hrun. exists (e1 :: Ev_sleep 1 :: evs).
    split; [rewrite <- !app_assoc; reflexivity |]. split.
    + unfold count in *. cbn. rewrite Hcount. reflexivity.
    + constructor; [left; reflexivity |].
      constructor; [right; reflexivity | exact Hall].
Qed.

(** Cancellations that are all refused use up the turns of the cancel
    loop and end in its RuntimeError. *)
Lemma buy_cancel_loop_refused (uuid : option string) :
  (forall k u, success (cancel_answer bittrex k u) = false) ->
  forall (n : nat) (response : WrapperResponse) (tr : trace),
  (1 <= n <= retry)%nat ->
  exists evs,
    buy_cancel_loop bittrex uuid retry n response tr
    = (Raise RuntimeError, tr ++ evs)
    /\ count is_cancel evs = n
    /\ Forall (fun ev => is_cancel ev = true \/ ev = Ev_sleep 1) evs.
Proof.
  intros Hno. induction n as [| n IH]; intros response tr Hn; [lia |].
  cbn [buy_cancel_loop]. unfold cancel, sleep. run. rewrite Hno.
  set (e1 := Ev_cancel uuid (cancel_answer bittrex (length tr) uuid)).
  destruct (Nat.eqb_spec (retry - S n) (retry - 1)) as [Hlast | Hmore].
  - assert (n = O) by lia. subst n. exists [e1].
    repeat split. constructor; [left; reflexivity | constructor].
  - destruct (IH response ((tr ++ [e1]) ++ [Ev_sleep 1]) ltac:(lia))
      as (evs & Hrun & Hcount & Hall).
    rewrite Hrun. exists (e1 :: Ev_sleep 1 :: evs).
    split; [rewrite <- !app_assoc; reflexivity |]. split.
    + unfold count in *. cbn. rewrite Hcount. reflexivity.
    + constructor; [left; reflexivity |].
      constructor; [right; reflexivity | exact Hall].
Qed.

(** A cancellation that the exchange agrees to ends the cancel loop. *)
Lemma buy_cancel_loop_agreed (uuid : option string) (n : nat)
    (response : WrapperResponse) (tr : trace) :
  (1 <= n)%nat ->
  success (cancel_answer bittrex (length tr) uuid) = true ->
  buy_cancel_loop bittrex uuid retry n response tr
  = (Ok {| wr_success := true; wr_result := wr_result response |},
     tr ++ [Ev_cancel uuid (cancel_answer bittrex (length tr) uuid)]).
Proof.
  intros Hn Hyes. destruct n as [| n]; [lia |].
  cbn [buy_cancel_loop]. unfold cancel. run. rewrite Hyes. reflexivity.
Qed.

Lemma count_other (kind other : event -> bool) (evs : trace) :
  (forall ev, other ev = true -> kind ev = false) ->
  Forall (fun ev => other ev = true \/ ev = Ev_sleep 1) evs ->
  kind (Ev_sleep 1) = false ->
  count kind evs = O.
Proof.
  intros Hother Hall Hsleep. apply count_none.
  eapply Forall_impl; [| exact Hall].
  intros ev [H | ->]; auto.
Qed.

End WrapperFacts.

Section WrapperOutcomes.
Import bittrex2.

(** X10. [sell_or_else] with at least one attempt allowed: it never buys
    and never cancels, submits at most [retry] sales and polls at most
    [retry] times; it returns only a response marked successful that
    carries the result of a poll the exchange confirmed, and otherwise
    raises RuntimeError (attempts or polls used up) or AttributeError (a
    sale accepted without a result).  It never returns a failure. *)
Theorem sell_or_else_outcomes
    (bittrex : Bittrex) (market : string) (quantity rate : pynum)
    (retry : nat) (tr : trace) :
  (1 <= retry)%nat ->
  let run := sell_or_else bittrex market quantity rate retry tr in
  let evs := added tr run.2 in
  count is_buy_limit evs = O
  /\ count is_cancel evs = O
  /\ (count is_sell_limit evs <= retry)%nat
  /\ (count is_get_order evs <= retry)%nat
  /\ (forall r, run.1 = Ok r ->
        wr_success r = true
        /\ exists u rp, In (Ev_get_order u rp) evs /\ success rp = true
                        /\ wr_result r = Some (result rp))
  /\ (forall e, run.1 = Raise e -> e = RuntimeError \/ e = AttributeError).
Proof.
  intros Hretry run evs. subst evs run. unfold sell_or_else.
  destruct (sell_submit_loop_events bittrex retry market quantity rate retry tr
              ltac:(lia)) as (evs & Hrun & Hall & Hsell & Hpoll & Hok & Hraise).
  rewrite Hrun, added_app.
  split; [apply count_none; eapply Forall_impl; [| exact Hall]; cbn; tauto |].
  split; [apply count_none; eapply Forall_impl; [| exact Hall]; cbn; tauto |].
  auto.
Qed.

Lemma sell_or_else_outcomes_witness :
  let bittrex :=
    Sample.quoting (DFin 1000 (-8)) (DFin 1100 (-8)) Sample.filled_sell in
  let run := sell_or_else bittrex "BTC-CLUB" (PyInt 1366)
               (PyDec (DFin 1095 (-8))) 3 [] in
  let evs := added [] run.2 in
  run.1 = Ok {| wr_success := true; wr_result := Some (Some Sample.filled_sell) |}
  /\ count is_buy_limit evs = O
  /\ count is_cancel evs = O
  /\ (count is_sell_limit evs <= 3)%nat
  /\ (count is_get_order evs <= 3)%nat
  /\ (forall r, run.1 = Ok r ->
        wr_success r = true
        /\ exists u rp, In (Ev_get_order u rp) evs /\ success rp = true
                        /\ wr_result r = Some (result rp))
  /\ (forall e, run.1 = Raise e -> e = RuntimeError \/ e = AttributeError).
Proof.
  split; [reflexivity |].
  apply (sell_or_else_outcomes
           (Sample.quoting (DFin 1000 (-8)) (DFin 1100 (-8)) Sample.filled_sell)
           "BTC-CLUB" (PyInt 1366) (PyDec (DFin 1095 (-8))) 3 []).
  lia.
Defined.

(** X11. What a return of [buy_or_else] tells.  A response marked failed
    is the untouched initial one ([{'success': False, 'result': {}}])
    and means that all [retry] submissions were rejected; a response
    marked successful carries the data of a poll that the exchange
    confirmed. *)
Theorem buy_or_else_returns
    (bittrex : Bittrex) (market : string) (quantity rate : pynum)
    (retry : nat) (tr : trace) (r : WrapperResponse) :
  let run := buy_or_else bittrex market quantity rate retry tr in
  let evs := added tr run.2 in
  run.1 = Ok r ->
  (wr_success r = false ->
   r = initial_response
   /\ count is_buy_limit evs = retry
   /\ Forall (fun ev =>
                (exists a, ev = Ev_buy_limit market quantity rate a
                           /\ success a = false)
                \/ ev = Ev_sleep 1) evs)
  /\ (wr_success r = true ->
      exists u rp d, In (Ev_get_order u rp) evs /\ success rp = true
                     /\ result rp = Some d
                     /\ wr_result r = Some (Some d)).
Proof.
  intros run evs. subst evs run. unfold buy_or_else.
  destruct (buy_submit_loop_ok bittrex retry market quantity rate retry tr
              ltac:(lia)) as (evs & Hrun & Hok).
  rewrite Hrun, added_app. exact (Hok r).
Qed.

Lemma buy_or_else_returns_witness :
  let run := buy_or_else (Sample.rejecting (DFin 1000 (-8)) (DFin 1100 (-8)))
               "BTC-CLUB" (PyInt 1366) (PyDec (DFin 1005 (-8))) 3 [] in
  let evs := added [] run.2 in
  run.1 = Ok initial_response
  /\ (wr_success initial_response = false ->
      initial_response = initial_response
      /\ count is_buy_limit evs = 3%nat
      /\ Forall (fun ev =>
                   (exists a, ev = Ev_buy_limit "BTC-CLUB" (PyInt 1366)
                                     (PyDec (DFin 1005 (-8))) a
                              /\ success a = false)
                   \/ ev = Ev_sleep 1) evs)
  /\ (wr_success initial_response = true ->
      exists u rp d, In (Ev_get_order u rp) evs /\ success rp = true
                     /\ result rp = Some d
                     /\ wr_result initial_response = Some (Some d)).
Proof.
  split; [reflexivity |].
  apply (buy_or_else_returns
           (Sample.rejecting (DFin 1000 (-8)) (DFin 1100 (-8)))
           "BTC-CLUB" (PyInt 1366) (PyDec (DFin 1005 (-8))) 3 []
           initial_response).
  reflexivity.
Defined.

(** X12. An order that the exchange accepts but never confirms: both
    wrappers poll [retry] times, raise RuntimeError and do not submit
    the order again; the buy is not cancelled either. *)
Theorem unconfirmed_order_raises
    (bittrex : Bittrex) (market : string) (quantity rate : pynum)
    (retry : nat) (tr : trace) (bought sold : Submitted) :
  (1 <= retry)%nat ->
  (forall k u, success (get_order_answer bittrex k u) = false) ->
  success (buy_limit_answer bittrex (length tr) market quantity rate) = true ->
  result (buy_limit_answer bittrex (length tr) market quantity rate)
  = Some bought ->
  success (sell_limit_answer bittrex (length tr) market quantity rate) = true ->
  result (sell_limit_answer bittrex (length tr) market quantity rate)
  = Some sold ->
  let buy := buy_or_else bittrex market quantity rate retry tr in
  let sell := sell_or_else bittrex market quantity rate retry tr in
  buy.1 = Raise RuntimeError
  /\ count is_buy_limit (added tr buy.2) = 1%nat
  /\ count is_get_order (added tr buy.2) = retry
  /\ count is_cancel (added tr buy.2) = O
  /\ sell.1 = Raise RuntimeError
  /\ count is_sell_limit (added tr sell.2) = 1%nat
  /\ count is_get_order (added tr sell.2) = retry.
Proof.
  intros Hretry Hno Hbs Hbr Hss Hsr buy sell. subst buy sell.
  unfold buy_or_else, sell_or_else.
  destruct retry as [| k]; [lia |].
  cbn [buy_submit_loop sell_submit_loop].
  unfold buy_limit, sell_limit, sleep, result_of. run.
  rewrite Hbs, Hbr, Hss, Hsr.
  set (eb := Ev_buy_limit market quantity rate _).
  set (es := Ev_sell_limit market quantity rate _).
  destruct (buy_poll_loop_unanswered bittrex (S k) (submitted_uuid bought) Hno
              (S k) initial_response ((tr ++ [eb]) ++ [Ev_sleep 3]) ltac:(lia))
    as (bevs & Hbrun & Hbcount & Hball).
  destruct (sell_poll_loop_unanswered bittrex (S k) (submitted_uuid sold) Hno
              (S k) initial_response ((tr ++ [es]) ++ [Ev_sleep 3]) ltac:(lia))
    as (sevs & Hsrun & Hscount & Hsall).
  rewrite Hbrun, Hsrun. cbn [fst snd]. rewrite <- !app_assoc, !added_app.
  assert (Hb : count is_buy_limit bevs = O)
    by (eapply count_other; eauto; intros []; cbn; congruence).
  assert (Hc : count is_cancel bevs = O)
    by (eapply count_other; eauto; intros []; cbn; congruence).
  assert (Hs : count is_sell_limit sevs = O)
    by (eapply count_other; eauto; intros []; cbn; congruence).
  cbn [app]. rewrite !count_cons. cbn [is_buy_limit is_get_order is_cancel
                                       is_sell_limit eb es].
  subst eb es. cbn. repeat split; lia.
Qed.

Lemma unconfirmed_order_raises_witness :
  let buy := buy_or_else Sample.silent "BTC-CLUB" (PyInt 1366)
               (PyDec (DFin 1005 (-8))) 3 [] in
  let sell := sell_or_else Sample.silent "BTC-CLUB" (PyInt 1366)
                (PyDec (DFin 1005 (-8))) 3 [] in
  buy.1 = Raise RuntimeError
  /\ count is_buy_limit (added [] buy.2) = 1%nat
  /\ count is_get_order (added [] buy.2) = 3%nat
  /\ count is_cancel (added [] buy.2) = O
  /\ sell.1 = Raise RuntimeError
  /\ count is_sell_limit (added [] sell.2) = 1%nat
  /\ count is_get_order (added [] sell.2) = 3%nat.
Proof.
  apply (unconfirmed_order_raises Sample.silent "BTC-CLUB" (PyInt 1366)
           (PyDec (DFin 1005 (-8))) 3 []
           {| submitted_uuid := Some "u1"%string |}
           {| submitted_uuid := Some "u1"%string |});
    [lia | reflexivity | reflexivity | reflexivity | reflexivity | reflexivity].
Defined.

(** X13. A buy that is accepted and confirmed at once.  With nothing
    left to fill, [buy_or_else] returns the confirmed data marked
    successful after one submission and one poll, without cancelling.
    With a remainder it asks to cancel: if the exchange agrees, it
    returns the same data marked successful after one cancellation; if
    every cancellation is refused, it raises RuntimeError after [retry]
    of them. *)
Theorem buy_or_else_confirmed
    (bittrex : Bittrex) (market : string) (quantity rate : pynum)
    (retry : nat) (tr : trace) (bought : Submitted)
    (d : BittrexOrder.OrderData) :
  (1 <= retry)%nat ->
  success (buy_limit_answer bittrex (length tr) market quantity rate) = true ->
  result (buy_limit_answer bittrex (length tr) market quantity rate)
  = Some bought ->
  (forall k u, success (get_order_answer bittrex k u) = true
               /\ result (get_order_answer bittrex k u) = Some d) ->
  let run := buy_or_else bittrex market quantity rate retry tr in
  let evs := added tr run.2 in
  let data := {| wr_success := true; wr_result := Some (Some d) |} in
  count is_buy_limit evs = 1%nat
  /\ count is_get_order evs = 1%nat
  /\ (py_gt (BittrexOrder.QuantityRemaining d) (PyInt 0) = Ok false ->
      run.1 = Ok data /\ count is_cancel evs = O)
  /\ (py_gt (BittrexOrder.QuantityRemaining d) (PyInt 0) = Ok true ->
      ((forall k u, success (cancel_answer bittrex k u) = true) ->
       run.1 = Ok data /\ count is_cancel evs = 1%nat)
      /\ ((forall k u, success (cancel_answer bittrex k u) = false) ->
          run.1 = Raise RuntimeError /\ count is_cancel evs = retry)).
Proof.
  intros Hretry Hbs Hbr Hpoll run evs data. subst evs run data.
  unfold buy_or_else.
  destruct retry as [| k]; [lia |].
  cbn [buy_submit_loop buy_poll_loop].
  unfold buy_limit, get_order, sleep, result_of. run.
  rewrite Hbs, Hbr.
  set (eb := Ev_buy_limit market quantity rate _).
  set (tr1 := (tr ++ [eb]) ++ [Ev_sleep 3]).
  destruct (Hpoll (length tr1) (submitted_uuid bought)) as [Hs Hr].
  rewrite Hs, Hr. cbn [wr_result wr_success].
  set (ep := Ev_get_order (submitted_uuid bought) _).
  assert (Hadd : forall l,
             added tr ((tr1 ++ [ep]) ++ l) = eb :: Ev_sleep 3 :: ep :: l).
  { intros l. clearbody ep. subst tr1. clearbody eb.
    rewrite <- !app_assoc. apply added_app. }
  assert (Hadd0 : added tr (tr1 ++ [ep]) = [eb; Ev_sleep 3; ep]).
  { rewrite <- (Hadd []), app_nil_r. reflexivity. }
  assert (Hcb : forall l, count is_buy_limit (eb :: Ev_sleep 3 :: ep :: l)
                          = S (count is_buy_limit l)) by reflexivity.
  assert (Hcp : forall l, count is_get_order (eb :: Ev_sleep 3 :: ep :: l)
                          = S (count is_get_order l)) by reflexivity.
  assert (Hcc : forall l, count is_cancel (eb :: Ev_sleep 3 :: ep :: l)
                          = count is_cancel l) by reflexivity.
  clearbody eb ep.
  destruct (py_gt (BittrexOrder.QuantityRemaining d) (PyInt 0))
    as [[] | e] eqn:Hgt.
  - set (unfilled := {| wr_success := false; wr_result := Some (Some d) |}).
    destruct (buy_cancel_loop_shape bittrex (S k) (submitted_uuid bought) (S k)
                unfilled (tr1 ++ [ep]) ltac:(lia))
      as (cevs & Hcrun & Hcall & _ & _).
    split; [| split; [| split; [discriminate |]]].
    + rewrite Hcrun, Hadd, Hcb. f_equal. apply count_none.
      eapply Forall_impl; [| exact Hcall]. intros ev [[c ->] | ->]; reflexivity.
    + rewrite Hcrun, Hadd, Hcp. f_equal. apply count_none.
      eapply Forall_impl; [| exact Hcall]. intros ev [[c ->] | ->]; reflexivity.
    + intros _. split.
      * intros Hyes.
        rewrite (buy_cancel_loop_agreed bittrex (S k) (submitted_uuid bought)
                   (S k) unfilled (tr1 ++ [ep]) Hretry (Hyes _ _)).
        cbn [fst snd]. rewrite Hadd, Hcc. split; reflexivity.
      * intros Hno.
        destruct (buy_cancel_loop_refused bittrex (S k) (submitted_uuid bought)
                    Hno (S k) unfilled (tr1 ++ [ep]) ltac:(lia))
          as (cevs' & Hrun' & Hcount & _).
        rewrite Hrun'. cbn [fst snd]. rewrite Hadd, Hcc. auto.
  - cbn [fst snd]. rewrite Hadd0.
    split; [apply (Hcb []) |]. split; [apply (Hcp []) |]. split.
    + intros _. rewrite (Hcc []). split; reflexivity.
    + intros H. discriminate H.
  - cbn [fst snd]. rewrite Hadd0.
    split; [apply (Hcb []) |]. split; [apply (Hcp []) |].
    split; intros H; discriminate H.
Qed.

Lemma buy_or_else_confirmed_witness :
  let bittrex := Sample.holding Sample.partial_buy in
  let run := buy_or_else bittrex "BTC-CLUB" (PyInt 1366)
               (PyDec (DFin 1005 (-8))) 3 [] in
  let evs := added [] run.2 in
  let data := {| wr_success := true;
                 wr_result := Some (Some Sample.partial_buy) |} in
  (run.1 = Raise RuntimeError /\ count is_cancel evs = 3%nat)
  /\ count is_buy_limit evs = 1%nat
  /\ count is_get_order evs = 1%nat
  /\ (py_gt (BittrexOrder.QuantityRemaining Sample.partial_buy) (PyInt 0)
      = Ok false ->
      run.1 = Ok data /\ count is_cancel evs = O)
  /\ (py_gt (BittrexOrder.QuantityRemaining Sample.partial_buy) (PyInt 0)
      = Ok true ->
      ((forall k u, success (cancel_answer bittrex k u) = true) ->
       run.1 = Ok data /\ count is_cancel evs = 1%nat)
      /\ ((forall k u, success (cancel_answer bittrex k u) = false) ->
          run.1 = Raise RuntimeError /\ count is_cancel evs = 3%nat)).
Proof.
  split; [split; reflexivity |].
  apply (buy_or_else_confirmed (Sample.holding Sample.partial_buy)
           "BTC-CLUB" (PyInt 1366) (PyDec (DFin 1005 (-8))) 3 []
           {| submitted_uuid := Some "u1"%string |} Sample.partial_buy);
    [lia | reflexivity | reflexivity | intros; split; reflexivity].
Defined.

End WrapperOutcomes.

(* ===================================================================== *)
(** ** The interval of a summary (run_crocket.py) *)
(* ===================================================================== *)

Section IntervalFacts.
Import bittrex2 run_crocket.

Lemma for_each_length {A B : Type} (f : A -> outcome B) (l : list A)
    (ys : list B) :
  for_each f l = Ok ys -> length ys = length l.
Proof.
  revert ys. induction l as [| x l IH]; intros ys; cbn.
  - intros [= <-]. reflexivity.
  - destruct (f x) as [y |]; cbn; [| discriminate].
    destruct (for_each f l) as [ys' |]; cbn; [| discriminate].
    intros [= <-]. cbn. f_equal. apply IH. reflexivity.
Qed.

Lemma for_each_firstn {A B : Type} (f : A -> outcome B) (n : nat) :
  forall (l : list A) (ys : list B),
  for_each f l = Ok ys -> for_each f (firstn n l) = Ok (firstn n ys).
Proof.
  induction n as [| n IH]; intros [| x l] ys; cbn; try (intros [= <-]; reflexivity).
  - intros _. reflexivity.
  - destruct (f x) as [y |]; cbn; [| discriminate].
    destruct (for_each f l) as [ys' |] eqn:Hl; cbn; [| discriminate].
    intros [= <-]. cbn. rewrite (IH l ys' Hl). reflexivity.
Qed.

Lemma for_each_skipn {A B : Type} (f : A -> outcome B) (n : nat) :
  forall (l : list A) (ys : list B),
  for_each f l = Ok ys -> for_each f (skipn n l) = Ok (skipn n ys).
Proof.
  induction n as [| n IH]; intros [| x l] ys; cbn; try (intros [= <-]; reflexivity).
  - tauto.
  - destruct (f x) as [y |]; cbn; [| discriminate].
    destruct (for_each f l) as [ys' |] eqn:Hl; cbn; [| discriminate].
    intros [= <-]. cbn. apply IH. exact Hl.
Qed.

Lemma filter_length_mono {A : Type} (p q : A -> bool) (l : list A) :
  (forall x, p x = true -> q x = true) ->
  (length (filter p l) <= length (filter q l))%nat.
Proof.
  intros Hpq. induction l as [| x l IH]; cbn; [lia |].
  destruct (p x) eqn:Hp.
  - rewrite (Hpq x Hp). cbn. lia.
  - destruct (q x); cbn; lia.
Qed.

Lemma filter_none {A : Type} (p : A -> bool) (l : list A) :
  Forall (fun x => p x = false) l -> filter p l = [].
Proof.
  induction 1 as [| x l Hx _ IH]; cbn; [reflexivity |].
  rewrite Hx. exact IH.
Qed.

Lemma filter_all {A : Type} (p : A -> bool) (l : list A) :
  Forall (fun x => p x = true) l -> filter p l = l.
Proof.
  induction 1 as [| x l Hx _ IH]; cbn; [reflexivity |].
  rewrite Hx, IH. reflexivity.
Qed.

(** In a list of instants that goes back in time, those after [a] are a
    prefix and the others the rest. *)
Lemma later_is_prefix (a : Z) (ts : list Z) :
  StronglySorted (fun x y => y <= x) ts ->
  firstn (length (filter (fun t => a <? t) ts)) ts = filter (fun t => a <? t) ts
  /\ skipn (length (filter (fun t => a <? t) ts)) ts
     = filter (fun t => t <=? a) ts.
Proof.
  induction 1 as [| x l Hsorted [IHf IHs] Hall]; cbn; [split; reflexivity |].
  destruct (Z.ltb_spec a x) as [Hlt | Hge].
  - destruct (Z.leb_spec x a) as [Hle | _]; [lia |].
    cbn. rewrite IHf. split; [reflexivity | exact IHs].
  - destruct (Z.leb_spec x a) as [_ | Hgt]; [| lia].
    assert (Hnone : filter (fun t => a <? t) l = []).
    { apply filter_none. eapply Forall_impl; [| exact Hall].
      cbn. intros t Ht. apply Z.ltb_ge. lia. }
    assert (Hevery : filter (fun t => t <=? a) l = l).
    { apply filter_all. eapply Forall_impl; [| exact Hall].
      cbn. intros t Ht. apply Z.leb_le. lia. }
    rewrite Hnone, Hevery. split; reflexivity.
Qed.

Lemma filter_sorted (p : Z -> bool) (ts : list Z) :
  StronglySorted (fun x y => y <= x) ts ->
  StronglySorted (fun x y => y <= x) (filter p ts).
Proof.
  induction 1 as [| x l Hsorted IH Hall]; cbn; [constructor |].
  destruct (p x); [| exact IH].
  constructor; [exact IH |].
  rewrite Forall_forall in *. intros t Ht. apply Hall.
  apply filter_In in Ht. tauto.
Qed.

Lemma filter_filter (p q : Z -> bool) (ts : list Z) :
  filter p (filter q ts) = filter (fun t => q t && p t) ts.
Proof.
  induction ts as [| x l IH]; cbn; [reflexivity |].
  destruct (q x); cbn; [destruct (p x) |]; rewrite IH; reflexivity.
Qed.

(** X14. The two indices of [get_interval_index] for an interval that is
    not negative: the start does not exceed the stop, and the stop does
    not exceed the number of entries, so [entries[start:stop]] and
    [entries[:start]] are well-formed slices. *)
Theorem get_interval_index_bounds
    (entries : list Entry) (target_datetime : datetime) (interval : Z)
    (start stop : nat) :
  0 <= interval ->
  get_interval_index entries target_datetime interval = Ok (start, stop) ->
  (start <= stop <= length entries)%nat.
Proof.
  intros Hinterval. unfold get_interval_index.
  destruct (for_each _ entries) as [ts |] eqn:Hts; cbn; [| discriminate].
  intros [= <- <-]. split.
  - apply filter_length_mono. intros x Hx.
    apply Z.ltb_lt in Hx. apply Z.ltb_lt. unfold seconds in Hx. lia.
  - rewrite <- (for_each_length _ _ _ Hts). apply filter_length_le.
Qed.

Lemma get_interval_index_bounds_witness :
  (1 <= 3 <= length [Sample.trade 3 70 (PyInt 1) (PyInt 98) (PyInt 98) "BUY";
                     Sample.trade 2 20 (PyInt 2) (PyInt 102) (PyInt 204) "SELL";
                     Sample.trade 1 10 (PyInt 1) (PyInt 100) (PyInt 100) "BUY"])%nat.
Proof.
  apply (get_interval_index_bounds
           [Sample.trade 3 70 (PyInt 1) (PyInt 98) (PyInt 98) "BUY";
            Sample.trade 2 20 (PyInt 2) (PyInt 102) (PyInt 204) "SELL";
            Sample.trade 1 10 (PyInt 1) (PyInt 100) (PyInt 100) "BUY"]
           0 60 1 3); [lia | reflexivity].
Defined.

(** X15. For a working list that goes back in time and an interval
    from 0 to below [2 ^ 34] seconds (where the float comparison of the
    source is the comparison of the microseconds; the loop uses 60),
    the slice [entries[start:stop]] that the loop summarises holds
    exactly the entries stamped after the start of the interval and not
    after its end, and [entries[:start]], which the loop keeps, exactly
    the entries stamped after its end. *)
Theorem interval_slice_is_the_interval
    (entries : list Entry) (ts : list datetime)
    (target_datetime : datetime) (interval : Z) :
  for_each (fun x => convert_bittrex_timestamp_to_datetime (TimeStamp x)) entries
  = Ok ts ->
  StronglySorted (fun x y => y <= x) ts ->
  0 <= interval < 2 ^ 34 ->
  exists start stop,
    get_interval_index entries target_datetime interval = Ok (start, stop)
    /\ for_each (fun x => convert_bittrex_timestamp_to_datetime (TimeStamp x))
         (slice entries start stop)
       = Ok (filter (fun t => (target_datetime <? t)
                              && (t <=? target_datetime + seconds interval)) ts)
    /\ for_each (fun x => convert_bittrex_timestamp_to_datetime (TimeStamp x))
         (firstn start entries)
       = Ok (filter (fun t => target_datetime + seconds interval <? t) ts).
Proof.
  intros Hts Hsorted [Hinterval _]. unfold get_interval_index. rewrite Hts.
  cbn. unfold datetime in *.
  set (hi := target_datetime + seconds interval).
  assert (Hstart : filter (fun x => seconds interval <? x - target_datetime) ts
                   = filter (fun t => hi <? t) ts).
  { apply filter_ext. intros t. subst hi.
    destruct (Z.ltb_spec (seconds interval) (t - target_datetime));
      destruct (Z.ltb_spec (target_datetime + seconds interval) t);
      reflexivity || lia. }
  rewrite Hstart.
  eexists _, _. split; [reflexivity |].
  destruct (later_is_prefix target_datetime ts Hsorted) as [Hstop _].
  destruct (later_is_prefix hi ts Hsorted) as [Hkept _].
  split.
  - unfold slice.
    rewrite (for_each_skipn _ _ _ _ (for_each_firstn _ _ _ _ Hts)).
    rewrite Hstop. f_equal.
    set (ts1 := filter (fun t => target_datetime <? t) ts).
    assert (Hsame : filter (fun t => hi <? t) ts = filter (fun t => hi <? t) ts1).
    { subst ts1. rewrite filter_filter. apply filter_ext. intros t.
      destruct (Z.ltb_spec hi t) as [Hlt | Hge];
        [| rewrite andb_false_r; reflexivity].
      destruct (Z.ltb_spec target_datetime t); [reflexivity |].
      subst hi. unfold seconds in *. lia. }
    rewrite Hsame.
    destruct (later_is_prefix hi ts1 (filter_sorted _ _ Hsorted)) as [_ Hrest].
    rewrite Hrest. subst ts1. apply filter_filter.
  - rewrite (for_each_firstn _ _ _ _ Hts), Hkept. reflexivity.
Qed.

Lemma interval_slice_is_the_interval_witness :
  let entries :=
    [Sample.trade 3 70 (PyInt 1) (PyInt 98) (PyInt 98) "BUY";
     Sample.trade 2 20 (PyInt 2) (PyInt 102) (PyInt 204) "SELL";
     Sample.trade 1 10 (PyInt 1) (PyInt 100) (PyInt 100) "BUY"] in
  let ts := [seconds 70; seconds 20; seconds 10] in
  get_interval_index entries 0 60 = Ok (1%nat, 3%nat)
  /\ exists start stop,
       get_interval_index entries 0 60 = Ok (start, stop)
       /\ for_each (fun x => convert_bittrex_timestamp_to_datetime (TimeStamp x))
            (slice entries start stop)
          = Ok (filter (fun t => (0 <? t) && (t <=? 0 + seconds 60)) ts)
       /\ for_each (fun x => convert_bittrex_timestamp_to_datetime (TimeStamp x))
            (firstn start entries)
          = Ok (filter (fun t => 0 + seconds 60 <? t) ts).
Proof.
  split; [reflexivity |].
  apply (interval_slice_is_the_interval
           [Sample.trade 3 70 (PyInt 1) (PyInt 98) (PyInt 98) "BUY";
            Sample.trade 2 20 (PyInt 2) (PyInt 102) (PyInt 204) "SELL";
            Sample.trade 1 10 (PyInt 1) (PyInt 100) (PyInt 100) "BUY"]
           [seconds 70; seconds 20; seconds 10] 0 60).
  - reflexivity.
  - repeat constructor; vm_compute; discriminate.
  - lia.
Defined.

End IntervalFacts.

(* ===================================================================== *)
(** ** More about calculate_metrics (run_crocket.py) *)
(* ===================================================================== *)

Section MetricsFacts.
Import bittrex2 run_crocket.

Lemma filter_map_length {A B : Type} (f : A -> B) (p : B -> bool) (l : list A) :
  length (filter p (map f l)) = length (filter (fun x => p (f x)) l).
Proof.
  induction l as [| x l IH]; cbn; [reflexivity |].
  destruct (p (f x)); cbn; rewrite IH; reflexivity.
Qed.

Lemma filter_split_length {A : Type} (p : A -> bool) (l : list A) :
  (length (filter p l) + length (filter (fun x => negb (p x)) l))%nat = length l.
Proof.
  induction l as [| x l IH]; cbn; [reflexivity |].
  destruct (p x); cbn; lia.
Qed.

(** X16. The counts of a summary that [calculate_metrics] returns: every
    entry is counted once, as a buy when its [OrderType] is exactly
    "BUY" and as a sell otherwise, and the volume is the plain sum of
    the [Total] fields. *)
Theorem calculate_metrics_counts
    (data : list Entry) (start_datetime : timearg) (digits : Z) (m : Metrics) :
  calculate_metrics data start_datetime digits = Ok m ->
  buy_order m
  = Z.of_nat (length (filter (fun x => String.eqb (OrderType x) "BUY") data))
  /\ sell_order m
     = Z.of_nat (length (filter (fun x => negb (String.eqb (OrderType x) "BUY"))
                           data))
  /\ buy_order m + sell_order m = Z.of_nat (length data)
  /\ py_sum (map Total data) = Ok (volume m).
Proof.
  unfold calculate_metrics.
  destruct (ten_to_the (digits * -1)) as [power |];
    cbn [mbind outcome_bind]; [| discriminate].
  destruct (convert_bittrex_timestamp_to_datetime start_datetime) as [start |];
    cbn [mbind outcome_bind]; [| discriminate].
  destruct data as [| x data']; [intros [= <-]; repeat split |].
  remember (x :: data') as data eqn:Hdata. clear Hdata.
  cbv [mbind outcome_bind].
  repeat match goal with
         | |- match ?e with _ => _ end = _ -> _ =>
             destruct e eqn:?; [| discriminate]
         end.
  intros [= <-]. cbn [buy_order sell_order volume].
  rewrite length_map, filter_map_length.
  pose proof (filter_split_length
                (fun x => String.eqb (OrderType x) "BUY") data) as Hsplit.
  repeat split; lia.
Qed.

Lemma calculate_metrics_counts_witness :
  let m := {| volume := PyInt 402; buy_order := 2; sell_order := 1;
              price := PyDec (DFin 10000000000 (-8));
              price_volume_weighted := PyDec (DFin 10052736318 (-8));
              time := 0 |} in
  buy_order m
  = Z.of_nat (length (filter (fun x => String.eqb (OrderType x) "BUY")
                        Sample.tape))
  /\ sell_order m
     = Z.of_nat (length (filter (fun x => negb (String.eqb (OrderType x) "BUY"))
                           Sample.tape))
  /\ buy_order m + sell_order m = Z.of_nat (length Sample.tape)
  /\ py_sum (map Total Sample.tape) = Ok (volume m).
Proof.
  apply (calculate_metrics_counts Sample.tape (TimeStr (Some 0)) 8).
  vm_compute. reflexivity.
Defined.

(** A number that is zero, as JSON gives it. *)
Lemma zero_plus_zero (a x : pynum) :
  a = PyInt 0 \/ a = PyFloat (S754_zero false) ->
  x = PyInt 0 \/ x = PyFloat (S754_zero false) ->
  exists z, py_add a x = Ok z
            /\ (z = PyInt 0 \/ z = PyFloat (S754_zero false)).
Proof.
  intros [-> | ->] [-> | ->]; vm_compute; eauto.
Qed.

Lemma sum_of_zeros (l : list pynum) :
  Forall (fun x => x = PyInt 0 \/ x = PyFloat (S754_zero false)) l ->
  forall a, a = PyInt 0 \/ a = PyFloat (S754_zero false) ->
  exists z,
    fold_left (fun acc x => a ← acc; py_add a x) l (Ok a) = Ok z
    /\ (z = PyInt 0 \/ z = PyFloat (S754_zero false)).
Proof.
  induction 1 as [| x l Hx _ IH]; intros a Ha; cbn [fold_left]; [eauto |].
  destruct (zero_plus_zero a x Ha Hx) as (z & Hz & Hzero).
  cbn [mbind outcome_bind]. rewrite Hz. apply IH. exact Hzero.
Qed.

Lemma fix_finite (c e : Z) : exists c' e', fix_ c e = DFin c' e'.
Proof. unfold fix_. repeat case_match; eauto. Qed.

Lemma fix_zero (e : Z) : fix_ 0 e = DFin 0 e.
Proof. reflexivity. Qed.

Lemma quantize_finite (c e k : Z) :
  (exists c', quantize (DFin c e) k = Ok (DFin c' k))
  \/ quantize (DFin c e) k = Raise InvalidOperation.
Proof. unfold quantize. repeat case_match; eauto. Qed.

Lemma for_each_quantize (k : Z) (p : list pynum) :
  Forall (fun x => exists c e, to_decimal x = DFin c e) p ->
  (exists qs, for_each (fun x => quantize (to_decimal x) k) p = Ok qs
              /\ Forall (fun q => exists c e, q = DFin c e) qs)
  \/ for_each (fun x => quantize (to_decimal x) k) p = Raise InvalidOperation.
Proof.
  induction 1 as [| x l (c & e & Hx) _ IH]; cbn [for_each].
  - left. exists []. split; [reflexivity | constructor].
  - rewrite Hx. destruct (quantize_finite c e k) as [(c' & ->) | ->];
      cbn [mbind outcome_bind]; [| right; reflexivity].
    destruct IH as [(qs & -> & Hqs) | ->]; cbn [mbind outcome_bind];
      [| right; reflexivity].
    left. eexists. split; [reflexivity |]. constructor; eauto.
Qed.

Lemma decimal_sum_finite (l : list Decimal) :
  Forall (fun q => exists c e, q = DFin c e) l ->
  forall c e, exists c' e',
    fold_left (fun acc x => a ← acc; add a x) l (Ok (DFin c e)) = Ok (DFin c' e').
Proof.
  induction 1 as [| x l (cx & ex & ->) _ IH]; intros c e; cbn [fold_left];
    [eauto |].
  cbn [mbind outcome_bind add].
  destruct (fix_finite (c * 10 ^ (e - Z.min e ex) + cx * 10 ^ (ex - Z.min e ex))
              (Z.min e ex)) as (c' & e' & ->).
  apply IH.
Qed.

Lemma decimal_sum_zero (l : list Decimal) :
  Forall (fun q => exists e, q = DFin 0 e) l ->
  forall e, exists e',
    fold_left (fun acc x => a ← acc; add a x) l (Ok (DFin 0 e)) = Ok (DFin 0 e').
Proof.
  induction 1 as [| x l (ex & ->) _ IH]; intros e; cbn [fold_left]; [eauto |].
  cbn [mbind outcome_bind add]. rewrite !Z.mul_0_l, Z.add_0_l, fix_zero.
  apply IH.
Qed.

Lemma for_each_weighted (k : Z) (pv : list (pynum * pynum)) :
  Forall (fun xy => (exists c e, to_decimal (fst xy) = DFin c e)
                    /\ to_decimal (snd xy) = DFin 0 0) pv ->
  (exists ws,
     for_each (fun xy => q ← quantize (to_decimal (fst xy)) k;
                         mul q (to_decimal (snd xy))) pv = Ok ws
     /\ Forall (fun w => exists e, w = DFin 0 e) ws)
  \/ for_each (fun xy => q ← quantize (to_decimal (fst xy)) k;
                         mul q (to_decimal (snd xy))) pv
     = Raise InvalidOperation.
Proof.
  induction 1 as [| [x y] l [(c & e & Hx) Hy] _ IH]; cbn [for_each].
  - left. exists []. split; [reflexivity | constructor].
  - cbn [fst snd] in *. rewrite Hx, Hy.
    destruct (quantize_finite c e k) as [(c' & ->) | ->];
      cbn [mbind outcome_bind mul]; [| right; reflexivity].
    rewrite Z.mul_0_r, fix_zero.
    destruct IH as [(ws & -> & Hws) | ->]; cbn [mbind outcome_bind];
      [| right; reflexivity].
    left. eexists. split; [reflexivity |]. constructor; eauto.
Qed.

Lemma div_by_whole (c e n : Z) :
  n <> 0 -> exists c' e', div (DFin c e) (of_int n) = Ok (DFin c' e').
Proof.
  intros Hn. unfold div, of_int.
  destruct (Z.eqb_spec n 0) as [| _]; [contradiction |].
  repeat case_match;
    match goal with
    | |- exists c' e', Ok (fix_ ?x ?y) = _ =>
        destruct (fix_finite x y) as (? & ? & ->); eauto
    end.
Qed.

(** X17. Trades whose [Total] fields are all zero, as the exchange
    reports them for amounts below its eighth decimal: for a list of
    such trades that is not empty, with finite prices, and a number of
    decimal places that is not negative (the default is 8),
    [calculate_metrics] does not return; the weighted price divides
    zero by zero and the call raises InvalidOperation. *)
Theorem calculate_metrics_zero_totals
    (data : list Entry) (start : datetime) (digits : Z) :
  0 <= digits ->
  data <> [] ->
  Forall (fun x => Total x = PyInt 0 \/ Total x = PyFloat (S754_zero false))
         data ->
  Forall (fun x => exists c e, to_decimal (Price x) = DFin c e) data ->
  calculate_metrics data (TimeStr (Some start)) digits = Raise InvalidOperation.
Proof.
  intros Hdigits Hne Hzero Hfinite. unfold calculate_metrics.
  destruct (ten_to_the_places (digits * -1) ltac:(lia)) as (cp & places & -> & _).
  cbn [convert_bittrex_timestamp_to_datetime mbind outcome_bind exponent].
  destruct data as [| x data']; [contradiction |].
  remember (x :: data') as data eqn:Hdata.
  assert (Hlen : Z.of_nat (length (map Price data)) <> 0)
    by (subst data; cbn; lia).
  clear Hdata Hne.
  assert (Hv : Forall (fun t => t = PyInt 0 \/ t = PyFloat (S754_zero false))
                 (map Total data)).
  { apply Forall_map. exact Hzero. }
  destruct (sum_of_zeros _ Hv (PyInt 0) (or_introl eq_refl))
    as (weight & Hweight & Hw).
  unfold py_sum. rewrite Hweight. cbn [mbind outcome_bind].
  assert (Hp : Forall (fun p => exists c e, to_decimal p = DFin c e)
                 (map Price data)).
  { apply Forall_map. exact Hfinite. }
  destruct (for_each_quantize places _ Hp)
    as [(qs & -> & Hqs) | ->]; [| reflexivity].
  cbn [mbind outcome_bind]. unfold decimal_sum, of_int.
  destruct (decimal_sum_finite qs Hqs 0 0) as (ct & et & ->).
  cbn [mbind outcome_bind].
  destruct (div_by_whole ct et _ Hlen) as (cm & em & Hmean).
  unfold of_int in Hmean. rewrite Hmean. cbn [mbind outcome_bind].
  destruct (quantize_finite cm em places) as [(cq & ->) | ->];
    [| reflexivity].
  cbn [mbind outcome_bind].
  assert (Hpv : Forall (fun xy => (exists c e, to_decimal (fst xy) = DFin c e)
                                  /\ to_decimal (snd xy) = DFin 0 0)
                  (combine (map Price data) (map Total data))).
  { clear -Hzero Hfinite.
    induction data as [| y l IH]; cbn; [constructor |].
    apply Forall_cons_iff in Hzero, Hfinite.
    destruct Hzero as [Hy Hzero], Hfinite as [Hc Hfinite].
    constructor; [| apply IH; assumption].
    cbn. split; [exact Hc |]. destruct Hy as [-> | ->]; reflexivity. }
  destruct (for_each_weighted places _ Hpv)
    as [(ws & -> & Hws) | ->]; [| reflexivity].
  cbn [mbind outcome_bind].
  destruct (decimal_sum_zero ws Hws 0) as (e0 & ->).
  cbn [mbind outcome_bind].
  destruct Hw as [-> | ->]; reflexivity.
Qed.

Lemma calculate_metrics_zero_totals_witness :
  calculate_metrics
    [Sample.trade 2 20 (PyFloat Sample.f_0) (PyFloat Sample.f_7_4e_07)
       (PyFloat Sample.f_0) "SELL";
     Sample.trade 1 10 (PyInt 1) (PyInt 100) (PyInt 0) "BUY"]
    (TimeStr (Some 0)) 8
  = Raise InvalidOperation.
Proof.
  apply (calculate_metrics_zero_totals
           [Sample.trade 2 20 (PyFloat Sample.f_0) (PyFloat Sample.f_7_4e_07)
              (PyFloat Sample.f_0) "SELL";
            Sample.trade 1 10 (PyInt 1) (PyInt 100) (PyInt 0) "BUY"] 0 8).
  - lia.
  - discriminate.
  - constructor; [right; reflexivity |].
    constructor; [left; reflexivity | constructor].
  - constructor; [vm_compute; eauto |].
    constructor; [vm_compute; eauto | constructor].
Defined.

End MetricsFacts.

(* ===================================================================== *)
(** ** More about the polling loop (run_crocket.py) *)
(* ===================================================================== *)

Section LoopFacts.
Import bittrex2 run_crocket.

Ltac loop_fields :=
  cbn [working_list market_history current_datetime constant metrics db
       gateway sleep_time set_market_history set_working_list set_metrics
       set_current_datetime set_constant set_sleep_time set_db fst snd].

(** The handler of the ValueError never returns: it hands
    [calculate_metrics] the [datetime] object. *)
Lemma on_gap_raises (s : Loop) :
  (exists e, (on_gap s).1 = Raise e)
  /\ metrics (on_gap s).2 = metrics s
  /\ current_datetime (on_gap s).2 = current_datetime s
  /\ db (on_gap s).2 = db s
  /\ constant (on_gap s).2 = constant s.
Proof.
  unfold on_gap. run. unfold calculate_metrics.
  change (ten_to_the (8 * -1)) with (Ok (DFin 1 (-8))).
  cbn [convert_bittrex_timestamp_to_datetime mbind outcome_bind].
  destruct (merge_gap (working_list s) (market_history s)) as [merged | e];
    loop_fields; [| repeat split; eauto].
  destruct (get_interval_index merged (current_datetime s) interval)
    as [[start stop] | e]; loop_fields; repeat split; eauto.
Qed.

(** The body of the [try]: it returns only from a quiet poll. *)
Lemma poll_and_summarise_quiet (bittrex : Bittrex) (s : Loop) :
  let polled := poll_and_summarise bittrex s in
  metrics polled.2 = metrics s
  /\ current_datetime polled.2 = current_datetime s
  /\ db polled.2 = db s
  /\ (polled.1 = Ok tt -> constant polled.2 = constant s + 1)
  /\ (polled.1 <> Ok tt -> constant polled.2 = constant s).
Proof.
  unfold poll_and_summarise, on_gateway, get_market_history. run.
  unfold calculate_metrics.
  change (ten_to_the (8 * -1)) with (Ok (DFin 1 (-8))).
  cbn [convert_bittrex_timestamp_to_datetime mbind outcome_bind].
  loop_fields.
  destruct (merge_found (working_list s) _) as [[index merged] | e];
    loop_fields; [| repeat split; congruence].
  destruct (first_entry merged) as [newest | e];
    loop_fields; [| repeat split; congruence].
  destruct (convert_bittrex_timestamp_to_datetime (TimeStamp newest))
    as [latest | e]; loop_fields; [| repeat split; congruence].
  destruct (seconds interval <? latest - current_datetime s).
  - destruct (get_interval_index merged (current_datetime s) interval)
      as [[start stop] | e]; loop_fields; repeat split; congruence.
  - destruct (2 <? constant s).
    + destruct (get_interval_index merged (current_datetime s) interval)
        as [[start stop] | e]; loop_fields; repeat split; congruence.
    + destruct (Z.of_nat index <? 30); loop_fields; repeat split; congruence.
Qed.

(** X18. One turn of the loop, from any state and whatever the exchange
    answers, never binds [metrics] anew and never moves
    [current_datetime]: each path that reaches [calculate_metrics] hands
    it the [datetime] object and ends in its TypeError.  A turn that
    ends normally is a quiet one: it has inserted the row of the metrics
    bound before and incremented the counter; a turn that raises has
    inserted nothing. *)
Theorem loop_never_summarises (bittrex : Bittrex) (s : Loop) :
  let turn := loop_body bittrex s in
  metrics turn.2 = metrics s
  /\ current_datetime turn.2 = current_datetime s
  /\ (turn.1 = Ok tt ->
      exists m, metrics s = Some m
                /\ db turn.2 = db s ++ [(market, format_bittrex_entry m)]
                /\ constant turn.2 = constant s + 1)
  /\ (turn.1 <> Ok tt -> db turn.2 = db s).
Proof.
  intros turn. subst turn.
  destruct (poll_and_summarise_quiet bittrex s)
    as (Hmetrics & Hcurrent & Hdb & Hquiet & Hnot).
  unfold loop_body, read_metrics, insert_query, on_gateway, sleep. run.
  destruct (poll_and_summarise bittrex s) as [[[] | e] s1];
    cbn [fst snd] in *.
  - destruct (metrics s1) as [m |] eqn:Hm; loop_fields.
    + repeat split; try congruence.
      intros _. exists m. rewrite Hdb, (Hquiet eq_refl). repeat split.
      congruence.
    + repeat split; congruence.
  - destruct (is_ValueError e).
    + destruct (on_gap_raises s1) as ((e' & Hraise) & Hgm & Hgc & Hgd & _).
      destruct (on_gap s1) as [r s2]. cbn [fst snd] in *. subst r.
      cbn [fst snd]. repeat split; congruence.
    + cbn [fst snd]. repeat split; congruence.
Qed.

(** X19. A poll that fails (the envelope without result that
    [_api_query] returns when the request does not get through) ends the
    turn before anything is summarised, stored or slept on: the
    iteration over [None] raises TypeError, or IndexError when the
    working list is empty, which is looked at first; neither is caught
    by the handlers of the loop. *)
Theorem failed_poll_ends_the_turn (bittrex : Bittrex) (s : Loop) :
  let response :=
    get_market_history_answer bittrex (length (gateway s)) market in
  result response = None ->
  let turn := loop_body bittrex s in
  turn.1 = Raise (match working_list s with
                  | [] => IndexError
                  | _ :: _ => TypeError
                  end)
  /\ gateway turn.2 = gateway s ++ [Ev_get_market_history market response]
  /\ db turn.2 = db s
  /\ working_list turn.2 = working_list s
  /\ constant turn.2 = constant s.
Proof.
  intros response Hfailed turn. subst turn.
  unfold loop_body, poll_and_summarise, on_gap, read_metrics, insert_query,
    on_gateway, get_market_history, sleep.
  run. fold response. loop_fields. rewrite Hfailed.
  destruct (working_list s) as [| newest rest] eqn:Hwl; cbn;
    repeat split; auto.
Qed.

Lemma failed_poll_ends_the_turn_witness :
  let s := Sample.quiet_loop 0 (Some Sample.earlier_metrics) in
  let turn := loop_body Sample.unreachable s in
  turn.1 = Raise TypeError
  /\ gateway turn.2
     = gateway s ++ [Ev_get_market_history market Sample.no_api_response]
  /\ db turn.2 = db s
  /\ working_list turn.2 = working_list s
  /\ constant turn.2 = constant s.
Proof.
  apply (failed_poll_ends_the_turn Sample.unreachable
           (Sample.quiet_loop 0 (Some Sample.earlier_metrics))).
  reflexivity.
Defined.

(** X20. The row that the loop stores for a summary: of the six values
    that [calculate_metrics] returns, [format_bittrex_entry] finds the
    time and the price; the keys it asks for the weighted price, the
    volume and the two counts are not those of the summary, so these
    four columns are None. *)
Theorem formatted_row_keeps_time_and_price (m : Metrics) :
  format_bittrex_entry m
  = [ ("time", VTime (time m)); ("price", VNum (price m));
      ("wprice", VNone); ("basevolume", VNone);
      ("buyorder", VNone); ("sellorder", VNone) ]%string
  /\ (forall key, In key ["wprice"; "basevolume"; "buyorder"; "sellorder"]%string ->
                  dict_get (items m) key = None)
  /\ dict_get (items m) "price_volume_weighted" = Some (VNum (price_volume_weighted m))
  /\ dict_get (items m) "volume" = Some (VNum (volume m)).
Proof.
  split; [reflexivity |]. split; [| split; reflexivity].
  intros key [<- | [<- | [<- | [<- | []]]]]; reflexivity.
Qed.

End LoopFacts.

(* ===================================================================== *)
(** ** More about the merge (run_crocket.py) *)
(* ===================================================================== *)

Section MergeFacts.
Import bittrex2 run_crocket.

Lemma list_index_lt (x : Z) (l : list Z) (i : nat) :
  list_index x l = Some i -> (i < length l)%nat.
Proof.
  revert i. induction l as [| y l IH]; intros i; cbn; [discriminate |].
  destruct (x =? y); [intros [= <-]; lia |].
  destruct (list_index x l) as [j |]; cbn; [| discriminate].
  intros [= <-]. specialize (IH j eq_refl). lia.
Qed.

(** X21. The ordinary merge, where the newest known identifier is found
    in the page at position [index]: when the working list and the page
    are each newest first, so is the merged list, which therefore holds
    no identifier twice; it has grown by exactly the [index] entries of
    the page that are newer. *)
Theorem merge_found_newest_first
    (working_list page merged : list Entry) (index : nat) :
  newest_first working_list -> newest_first page ->
  merge_found working_list (Some page) = Ok (index, merged) ->
  newest_first merged
  /\ no_duplicate_ids merged
  /\ length merged = (index + length working_list)%nat
  /\ (index < length page)%nat
  /\ merged = firstn index page ++ working_list.
Proof.
  intros Hwl Hpage. unfold merge_found.
  destruct working_list as [| w rest]; [discriminate |].
  destruct (list_index (Id w) (map Id page)) as [i |] eqn:Hi; [| discriminate].
  intros [= <- <-].
  pose proof (list_index_lt _ _ _ Hi) as Hlt. rewrite length_map in Hlt.
  pose proof (merge_found_keeps_order w rest page i Hwl Hpage Hi) as Hsorted.
  split; [exact Hsorted |].
  split; [apply newest_first_no_duplicate_ids; exact Hsorted |].
  split; [| split; [exact Hlt | reflexivity]].
  rewrite length_app, firstn_length_le by lia. reflexivity.
Qed.

Lemma merge_found_newest_first_witness :
  let merged := [Sample.trade3; Sample.trade2; Sample.trade1] in
  newest_first merged
  /\ no_duplicate_ids merged
  /\ length merged = (2 + length [Sample.trade1])%nat
  /\ (2 < length [Sample.trade3; Sample.trade2; Sample.trade1])%nat
  /\ merged = firstn 2 [Sample.trade3; Sample.trade2; Sample.trade1]
              ++ [Sample.trade1].
Proof.
  apply (merge_found_newest_first [Sample.trade1]
           [Sample.trade3; Sample.trade2; Sample.trade1]
           [Sample.trade3; Sample.trade2; Sample.trade1] 2).
  - repeat constructor.
  - unfold newest_first. repeat constructor; simpl; lia.
  - reflexivity.
Defined.

(** X22. After the loop has pruned the merged list to its newest
    entries, keeping at least one, a poll that returns the same page
    adds nothing. *)
Theorem merge_after_pruning_adds_nothing
    (working_list page merged : list Entry) (kept : nat) :
  merge working_list page = Ok merged ->
  (1 <= kept)%nat ->
  merge (firstn kept merged) page = Ok (firstn kept merged).
Proof.
  intros Hmerge Hkept. destruct kept as [| k]; [lia |].
  eapply merge_idempotent_after_pruning. exact Hmerge.
Qed.

Lemma merge_after_pruning_adds_nothing_witness :
  merge (firstn 1 [Sample.trade3; Sample.trade2; Sample.trade1])
        [Sample.trade3; Sample.trade2; Sample.trade1]
  = Ok (firstn 1 [Sample.trade3; Sample.trade2; Sample.trade1]).
Proof.
  apply (merge_after_pruning_adds_nothing [Sample.trade1]
           [Sample.trade3; Sample.trade2; Sample.trade1]
           [Sample.trade3; Sample.trade2; Sample.trade1] 1);
    [reflexivity | lia].
Defined.

End MergeFacts.

(* ===================================================================== *)
(** ** More about BittrexOrder.py and the helpers of bittrex2.py *)
(* ===================================================================== *)

Section OrderFacts.
Import bittrex2.

(** X23. [add_completed_order], whatever it is handed and however it
    ends: the order is marked COMPLETED (the status is assigned first),
    and its market, type, identifier, target price, target and base
    quantities and opening time are left alone.  Handed [None] it ends
    in AttributeError.  Unless the record is a LIMIT_BUY the filled
    quantity is left alone.  When it returns, the closing time is the
    parsed [Closed] stamp, or the reading of the clock when [Closed] is
    not a string. *)
Theorem add_completed_order_effects
    (order_data : option BittrexOrder.OrderData) (now : datetime)
    (o : BittrexOrder.t) :
  let done := BittrexOrder.add_completed_order order_data now o in
  BittrexOrder.status done.2 = "COMPLETED"%string
  /\ (BittrexOrder.market done.2 = BittrexOrder.market o
      /\ BittrexOrder.type done.2 = BittrexOrder.type o
      /\ BittrexOrder.uuid done.2 = BittrexOrder.uuid o
      /\ BittrexOrder.target_price done.2 = BittrexOrder.target_price o
      /\ BittrexOrder.target_quantity done.2 = BittrexOrder.target_quantity o
      /\ BittrexOrder.base_quantity done.2 = BittrexOrder.base_quantity o
      /\ BittrexOrder.open_time done.2 = BittrexOrder.open_time o)
  /\ (order_data = None -> done.1 = Raise AttributeError)
  /\ (forall d, order_data = Some d ->
                BittrexOrder.Type_ d <> "LIMIT_BUY"%string ->
                BittrexOrder.current_quantity done.2
                = BittrexOrder.current_quantity o)
  /\ (forall d, order_data = Some d -> done.1 = Ok tt ->
                BittrexOrder.closed_time done.2
                = Some match BittrexOrder.Closed d with
                       | TimeStr (Some closed) => closed
                       | _ => now
                       end).
Proof.
  intros done. subst done.
  unfold BittrexOrder.add_completed_order. run.
  destruct order_data as [d |]; [| cbn; repeat split; congruence].
  destruct (BittrexOrder.Decimal_of (BittrexOrder.PricePerUnit d)) as [ppu | e];
    [| cbn; repeat split; congruence].
  destruct (quantize ppu BittrexOrder.DIGITS) as [actual | e];
    [| cbn; repeat split; congruence].
  destruct (String.eqb_spec (BittrexOrder.Type_ d) "LIMIT_BUY") as [Hbuy | Hbuy];
    [| destruct (String.eqb (BittrexOrder.Type_ d) "LIMIT_SELL")];
    destruct (BittrexOrder.Closed d) as [[closed |] | closed |] eqn:Hclosed;
    cbn; repeat case_match; cbn; repeat split; intros; simplify_eq;
    try congruence; rewrite Hclosed; reflexivity.
Qed.

(** X24. The two copies of [filter_bittrex_markets].  The one of
    run_crocket.py reads the [result] of the response itself and raises
    TypeError on a response without one; otherwise both return, in the
    order of the listing, the names of exactly the markets that are
    quoted in the base currency and active. *)
Theorem filter_bittrex_markets_selects
    (markets : Response (list Market)) (base_coin name : string) :
  (result markets = None ->
   run_crocket.filter_bittrex_markets markets base_coin = Raise TypeError)
  /\ (forall listed, result markets = Some listed ->
        run_crocket.filter_bittrex_markets markets base_coin
        = Ok (filter_bittrex_markets listed base_coin)
        /\ (In name (filter_bittrex_markets listed base_coin)
            <-> exists x, In x listed /\ MarketName x = name
                          /\ BaseCurrency x = base_coin
                          /\ IsActive x = true)).
Proof.
  unfold run_crocket.filter_bittrex_markets, filter_bittrex_markets.
  split; [intros ->; reflexivity |].
  intros listed ->. split; [reflexivity |].
  rewrite in_map_iff. split.
  - intros (x & Hname & Hin). apply filter_In in Hin.
    destruct Hin as [Hin Hkeep]. apply andb_true_iff in Hkeep.
    destruct Hkeep as [Hbase Hactive]. apply String.eqb_eq in Hbase.
    exists x. auto.
  - intros (x & Hin & Hname & Hbase & Hactive).
    exists x. split; [exact Hname |]. apply filter_In.
    split; [exact Hin |]. apply andb_true_iff.
    split; [apply String.eqb_eq; exact Hbase | exact Hactive].
Qed.

Lemma dict_get_of_key (data : list (string * pyval)) (k : string) (v : pyval) :
  NoDup (map fst data) -> In (k, v) data -> dict_get data k = Some v.
Proof.
  induction data as [| [k' v'] data IH]; cbn; [contradiction |].
  intros Hnodup. apply NoDup_cons_iff in Hnodup. destruct Hnodup as [Hfresh Hrest].
  intros [[= -> ->] | Hin].
  - rewrite String.eqb_refl. reflexivity.
  - destruct (String.eqb_spec k' k) as [-> | _]; [| apply IH; assumption].
    exfalso. apply Hfresh. apply in_map_iff. exists (k, v). auto.
Qed.

Lemma dict_get_missing (data : list (string * pyval)) (k : string) :
  ~ In k (map fst data) -> dict_get data k = None.
Proof.
  induction data as [| [k' v'] data IH]; cbn; [reflexivity |].
  intros Hmissing. destruct (String.eqb_spec k' k) as [-> | _]; [tauto |].
  apply IH. tauto.
Qed.

(** X25. [format_bittrex_entry] of bittrex2.py returns the fields it was
    given with one value for each; a field that is not a key of the
    data gives None; and asked for the keys of a dict, in their order,
    it gives back the values of the dict. *)
Theorem format_bittrex_entry_values
    (data : list (string * pyval)) (fields : list string) :
  NoDup (map fst data) ->
  (format_bittrex_entry data fields).1 = fields
  /\ length (format_bittrex_entry data fields).2 = length fields
  /\ (Forall (fun k => ~ In k (map fst data)) fields ->
      (format_bittrex_entry data fields).2 = map (fun _ => VNone) fields)
  /\ format_bittrex_entry data (map fst data) = (map fst data, map snd data).
Proof.
  intros Hnodup. unfold format_bittrex_entry. cbn [fst snd].
  split; [reflexivity |]. split; [apply length_map |]. split.
  - intros Hmissing. apply map_ext_Forall.
    eapply Forall_impl; [| exact Hmissing].
    cbn. intros k Hk. rewrite (dict_get_missing data k Hk). reflexivity.
  - f_equal. rewrite map_map. apply map_ext_in.
    intros [k v] Hin. cbn. rewrite (dict_get_of_key data k v Hnodup Hin).
    reflexivity.
Qed.

Lemma format_bittrex_entry_values_witness :
  let data := run_crocket.items Sample.earlier_metrics in
  (format_bittrex_entry data default_fields).2
  = [ VTime (-60); VNum (PyDec (DFin 10000000000 (-8))); VNone; VNone; VNone;
      VNone; VInt 2; VInt 1 ]
  /\ (format_bittrex_entry data default_fields).1 = default_fields
  /\ length (format_bittrex_entry data default_fields).2 = length default_fields
  /\ (Forall (fun k => ~ In k (map fst data)) default_fields ->
      (format_bittrex_entry data default_fields).2
      = map (fun _ => VNone) default_fields)
  /\ format_bittrex_entry data (map fst data) = (map fst data, map snd data).
Proof.
  split; [reflexivity |].
  apply (format_bittrex_entry_values
           (run_crocket.items Sample.earlier_metrics) default_fields).
  cbn. repeat constructor; cbn; intuition discriminate.
Defined.

End OrderFacts.
